(** * gonutz/auto: the global input/clipboard event dispatcher and helpers

    A shallow embedding of the Go package [auto] (keyboard and mouse hook
    procedures, the hook state machine, the message-pump loop, the
    registration facade, [Type]/[TypeWithDelay] and [CaptureMonitors]).

    Conventions.
    - Go's fixed-width integers are [Z] with the conversions written out
      ([uint16], [int16], [int]).
    - [float64] is Rocq's primitive binary64 float.
    - Calls into the operating system are recorded, newest first, in a log of
      [action]s; what the operating system answers is read from a record [OS]
      of oracles that see the log so far.  Code that talks to the OS lives in
      the state monad [M] over that log.
    - A Go pointer to an event handed to a user callback is modelled by
      state passing: a callback is a function from the event it receives to
      the event it leaves behind. *)

From Stdlib Require Import ZArith List Bool Lia Floats String Ascii Relations.
From Stdlib Require Import DecimalN Permutation.
Import ListNotations.
Open Scope Z_scope.

Set Implicit Arguments.

(* ================================================================== *)
(** ** Machine integers *)

Definition uint16 (z : Z) : Z := z mod 2 ^ 16.

Definition int16 (z : Z) : Z :=
  let u := z mod 2 ^ 16 in
  if u <? 2 ^ 15 then u else u - 2 ^ 16.

Definition uint32 (z : Z) : Z := z mod 2 ^ 32.

(** Go's [int] on the 64-bit Windows targets of the package. *)
Definition int (z : Z) : Z :=
  let u := z mod 2 ^ 64 in
  if u <? 2 ^ 63 then u else u - 2 ^ 64.

Definition is_int (z : Z) : Prop := - 2 ^ 63 <= z < 2 ^ 63.

(** [float64(n)] for an integer [n] that fits 63 bits. *)
Definition float64 (z : Z) : float :=
  if z <? 0 then PrimFloat.opp (PrimFloat.of_uint63 (Uint63.of_Z (- z)))
  else PrimFloat.of_uint63 (Uint63.of_Z z).

(* ================================================================== *)
(** ** Package w32: the constants and raw records the code uses

    The values are those of the Windows SDK, which package
    [github.com/gonutz/w32] re-exports. *)

Module w32.

Definition WH_KEYBOARD_LL : Z := 13.
Definition WH_MOUSE_LL : Z := 14.

Definition WM_MOUSEMOVE : Z := 0x0200.
Definition WM_LBUTTONDOWN : Z := 0x0201.
Definition WM_LBUTTONUP : Z := 0x0202.
Definition WM_RBUTTONDOWN : Z := 0x0204.
Definition WM_RBUTTONUP : Z := 0x0205.
Definition WM_MBUTTONDOWN : Z := 0x0207.
Definition WM_MBUTTONUP : Z := 0x0208.
Definition WM_MOUSEWHEEL : Z := 0x020A.
Definition WM_MOUSEHWHEEL : Z := 0x020E.
Definition WM_CLIPBOARDUPDATE : Z := 0x031D.

Definition HWND_MESSAGE : Z := -3.
Definition PM_REMOVE : Z := 1.

Definition VK_BACK : Z := 0x08.
Definition VK_RETURN : Z := 0x0D.
Definition VK_NUMPAD0 : Z := 0x60.
Definition VK_LMENU : Z := 0xA4.

Definition KEYEVENTF_KEYUP : Z := 0x0002.
Definition KEYEVENTF_SCANCODE : Z := 0x0008.
Definition MAPVK_VK_TO_VSC : Z := 0.

(** The record a low-level keyboard hook receives behind [lParam]. *)
Record KBDLLHOOKSTRUCT : Type := {
  VkCode : Z;      (* DWORD *)
  ScanCode : Z;    (* DWORD *)
  kbFlags : Z;     (* DWORD *)
  kbTime : Z;
  kbExtraInfo : Z
}.

Record POINT : Type := { ptX : Z; ptY : Z }.   (* int32 each *)

(** The record a low-level mouse hook receives behind [lParam]. *)
Record MSLLHOOKSTRUCT : Type := {
  Pt : POINT;
  MouseData : Z;   (* uint32 *)
  msFlags : Z;     (* uint32 *)
  msTime : Z;
  msExtraInfo : Z
}.

Record KEYBDINPUT : Type := {
  Vk : Z;          (* uint16 *)
  Scan : Z;        (* uint16 *)
  kiFlags : Z      (* uint32 *)
}.

Record MOUSEINPUT : Type := {
  miData : Z;
  miFlags : Z
}.

Inductive INPUT : Type :=
| KeyboardInput (ki : KEYBDINPUT)
| MouseInput (mi : MOUSEINPUT).

Record MSG : Type := {
  msgHwnd : Z;
  msgMessage : Z;
  msgWParam : Z;
  msgLParam : Z
}.

End w32.

(* ================================================================== *)
(** ** The event model *)

Module KeyboardEvent.

Record t : Type := mk {
  Key : Z;           (* uint16 *)
  Down : bool;
  Injected : bool;
  cancelled : bool
}.

(** [func (e *KeyboardEvent) Cancel() { e.cancelled = true }] *)
Definition Cancel (e : t) : t :=
  {| Key := Key e; Down := Down e; Injected := Injected e;
     cancelled := true |}.

End KeyboardEvent.

(** [type MouseEventType int] *)
Definition MouseEventType : Type := Z.

Definition LeftMouseDown : MouseEventType := w32.WM_LBUTTONDOWN.
Definition LeftMouseUp : MouseEventType := w32.WM_LBUTTONUP.
Definition RightMouseDown : MouseEventType := w32.WM_RBUTTONDOWN.
Definition RightMouseUp : MouseEventType := w32.WM_RBUTTONUP.
Definition MiddleMouseDown : MouseEventType := w32.WM_MBUTTONDOWN.
Definition MiddleMouseUp : MouseEventType := w32.WM_MBUTTONUP.
Definition MouseMove : MouseEventType := w32.WM_MOUSEMOVE.
Definition MouseWheel : MouseEventType := w32.WM_MOUSEWHEEL.
Definition MouseWheelHorizontal : MouseEventType := w32.WM_MOUSEHWHEEL.

Module MouseEvent.

Record t : Type := mk {
  Type_ : MouseEventType;
  X : Z;             (* int *)
  Y : Z;             (* int *)
  Wheel : float;     (* float64 *)
  Injected : bool;
  cancelled : bool
}.

(** [func (e *MouseEvent) Cancel() { e.cancelled = true }] *)
Definition Cancel (e : t) : t :=
  {| Type_ := Type_ e; X := X e; Y := Y e; Wheel := Wheel e;
     Injected := Injected e; cancelled := true |}.

End MouseEvent.

(** User callbacks.  [None] is Go's [nil]. *)
Definition keyboard_callback : Type := KeyboardEvent.t -> KeyboardEvent.t.
Definition mouse_callback : Type := MouseEvent.t -> MouseEvent.t.
Inductive clipboard_callback : Type := ClipboardFunc (id : nat).

(* ================================================================== *)
(** ** The operating system: log, oracles and the monad *)

Inductive action : Type :=
| GetModuleHandle (name : string)
| SetWindowsHookEx (idHook : Z) (hmod : Z)
| UnhookWindowsHookEx (hhk : Z)
| CallNextHookEx (hhk code w l : Z)
| GetCursorPos
| RegisterClassEx (className : string)
| CreateWindowEx (className : string) (parent : Z)
| AddClipboardFormatListener (hwnd : Z)
| RemoveClipboardFormatListener (hwnd : Z)
| DestroyWindow (hwnd : Z)
| DefWindowProc (hwnd msg w l : Z)
| PeekMessage (flags : Z)
| TranslateMessage (msg : w32.MSG)
| DispatchMessage (msg : w32.MSG)
| MapVirtualKey (vk mapType : Z)
| SendInput (inputs : list w32.INPUT)
| Sleep (d : Z)
| GetDC (hwnd : Z)
| ReleaseDC (hwnd dc : Z)
| CreateCompatibleDC (dc : Z)
| DeleteDC (dc : Z)
| CreateCompatibleBitmap (dc width height : Z)
| DeleteObject (obj : Z)
| SelectObject (dc obj : Z)
| BitBlt (dst x y width height src sx sy : Z)
| GlobalAlloc (size : Z)
| GlobalFree (mem : Z)
| GlobalLock (mem : Z)
| GlobalUnlock (mem : Z)
| GetDIBits (dc bitmap start lines ptr : Z)
| CallKeyboardCallback (e : KeyboardEvent.t)
| CallMouseCallback (e : MouseEvent.t)
| CallClipboardCallback (f : clipboard_callback).

Definition log : Type := list action.

(** What the operating system returns, given everything done so far. *)
Record OS : Type := {
  ret_GetModuleHandle : log -> Z;
  ret_SetWindowsHookEx : log -> Z -> Z;          (* 0 on failure *)
  ret_CallNextHookEx : log -> Z -> Z -> Z -> Z;
  ret_GetCursorPos : log -> Z * Z * bool;
  ret_CreateWindowEx : log -> Z;                 (* 0 on failure *)
  ret_DefWindowProc : log -> Z;
  ret_PeekMessage : log -> option w32.MSG;
  ret_MapVirtualKey : log -> Z -> Z -> Z;
  ret_SendInput : log -> list w32.INPUT -> Z;    (* 0 when blocked *)
  ret_GetDC : log -> Z;                          (* 0 on failure *)
  ret_CreateCompatibleDC : log -> Z;             (* 0 on failure *)
  ret_CreateCompatibleBitmap : log -> Z;         (* 0 on failure *)
  ret_BitBlt : log -> bool;
  ret_GlobalAlloc : log -> Z;
  ret_GlobalLock : log -> Z;
  ret_GetDIBits : log -> Z;                      (* 0 on failure *)
  memory_at : log -> Z -> Z -> Z                 (* byte [i] behind a pointer *)
}.

Definition M (A : Type) : Type := log -> A * log.

Definition ret {A} (a : A) : M A := fun l => (a, l).

Definition bind {A B} (m : M A) (k : A -> M B) : M B :=
  fun l => let (a, l') := m l in k a l'.

Notation "x <- m ;; k" := (bind m (fun x => k))
  (at level 61, m at next level, right associativity).
Notation "m ;;; k" := (bind m (fun _ => k))
  (at level 61, right associativity).

(** Perform the OS call [a]; its result is read off the log before it. *)
Definition syscall {A} (a : action) (r : log -> A) : M A :=
  fun l => (r l, a :: l).

Definition run {A} (m : M A) (l : log) : A * log := m l.

(** How many actions of the log [l] satisfy [p]. *)
Definition count_occ_action (p : action -> bool) (l : log) : nat :=
  List.length (filter p l).

Definition is_CallNextHookEx (a : action) : bool :=
  match a with CallNextHookEx _ _ _ _ => true | _ => false end.

(* ================================================================== *)
(** ** Errors *)

Inductive error : Type :=
| errBlocked        (* "SendInput returned 0, meaning input was blocked" *)
| errSetCursor      (* "SetCursorPos failed" *)
| errorString (msg : string).

(* ================================================================== *)
(** ** State of the dispatcher *)

(** [type events struct]: the snapshot handed to the pump thread. *)
Record events : Type := {
  keyboard : option keyboard_callback;
  mouse : option mouse_callback;
  clipboard : option clipboard_callback
}.

Definition is_nil {A} (o : option A) : bool :=
  match o with None => true | Some _ => false end.

(** [func (e *events) allNil() bool] *)
Definition allNil (e : events) : bool :=
  is_nil (keyboard e) && is_nil (mouse e) && is_nil (clipboard e).

(** [type messageLoop struct]: the process-wide desired-callback record.
    The mutex and the channel [newEvents] are not data: the first is the
    atomicity of [startLoop], the second is the handoff of [system_step]. *)
Record messageLoop : Type := {
  running : bool;
  keyboardEvent : option keyboard_callback;
  mouseEvent : option mouse_callback;
  clipboardEvent : option clipboard_callback
}.

(** [newMessageLoop] *)
Definition newMessageLoop : messageLoop :=
  {| running := false; keyboardEvent := None; mouseEvent := None;
     clipboardEvent := None |}.

(** The variables local to [messageLoop.loop], captured by its closures. *)
Record loop_vars : Type := {
  keyboardCallback : option keyboard_callback;
  mouseCallback : option mouse_callback;
  clipboardCallback : option clipboard_callback;
  keyboardHook : Z;       (* w32.HHOOK, 0 = none *)
  mouseHook : Z;          (* w32.HHOOK, 0 = none *)
  clipboardWindow : Z     (* w32.HWND, 0 = none *)
}.

Definition loop_vars0 : loop_vars :=
  {| keyboardCallback := None; mouseCallback := None;
     clipboardCallback := None;
     keyboardHook := 0; mouseHook := 0; clipboardWindow := 0 |}.

Definition set_keyboardHook (h : Z) (v : loop_vars) : loop_vars :=
  {| keyboardCallback := keyboardCallback v;
     mouseCallback := mouseCallback v;
     clipboardCallback := clipboardCallback v;
     keyboardHook := h; mouseHook := mouseHook v;
     clipboardWindow := clipboardWindow v |}.

Definition set_mouseHook (h : Z) (v : loop_vars) : loop_vars :=
  {| keyboardCallback := keyboardCallback v;
     mouseCallback := mouseCallback v;
     clipboardCallback := clipboardCallback v;
     keyboardHook := keyboardHook v; mouseHook := h;
     clipboardWindow := clipboardWindow v |}.

Definition set_clipboardWindow (h : Z) (v : loop_vars) : loop_vars :=
  {| keyboardCallback := keyboardCallback v;
     mouseCallback := mouseCallback v;
     clipboardCallback := clipboardCallback v;
     keyboardHook := keyboardHook v; mouseHook := mouseHook v;
     clipboardWindow := h |}.

(** The three assignments [keyboardCallback = events.keyboard] ... *)
Definition set_callbacks (ev : events) (v : loop_vars) : loop_vars :=
  {| keyboardCallback := keyboard ev;
     mouseCallback := mouse ev;
     clipboardCallback := clipboard ev;
     keyboardHook := keyboardHook v; mouseHook := mouseHook v;
     clipboardWindow := clipboardWindow v |}.

(** Where the pump thread stands between two steps: at the [select] of the
    outer [for], or blocked in the receive of the inner
    [for events.allNil()] loop. *)
Inductive loop_pc : Type := AtSelect | AwaitNonNil.

Record loop_state : Type := {
  pc : loop_pc;
  vars : loop_vars
}.

Definition loop_state0 : loop_state :=
  {| pc := AtSelect; vars := loop_vars0 |}.

(* ================================================================== *)
(** ** The code running against a fixed operating system *)

Section Dispatcher.

Variable os : OS.

(** [func MousePosition() (x, y int, err error)] *)
Definition MousePosition : M (Z * Z * option error) :=
  r <- syscall GetCursorPos (ret_GetCursorPos os) ;;
  let '(x, y, ok) := r in
  if negb ok
  then ret (0, 0, Some (errorString "GetCursorPos failed"))
  else ret (x, y, None).

(** *** The hook procedures

    The closures handed to [SetWindowsHookEx].  They read the loop's
    variables [v] as these are when the operating system calls them.
    [l] is the address in [lParam]; [kb] (respectively [ms]) is the record
    found there. *)

Definition newKeyboardEvent (kb : w32.KBDLLHOOKSTRUCT) : KeyboardEvent.t :=
  {| KeyboardEvent.Key := uint16 (w32.VkCode kb);
     KeyboardEvent.Down := Z.land (w32.kbFlags kb) 0x80 =? 0;
     KeyboardEvent.Injected := negb (Z.land (w32.kbFlags kb) 0x10 =? 0);
     KeyboardEvent.cancelled := false |}.

Definition keyboardProc (v : loop_vars) (code w l : Z)
    (kb : w32.KBDLLHOOKSTRUCT) : M Z :=
  if 0 <=? code then
    let e := newKeyboardEvent kb in
    e <- match keyboardCallback v with
         | Some f => syscall (CallKeyboardCallback e) (fun _ => f e)
         | None => ret e
         end ;;
    if KeyboardEvent.cancelled e then ret 1
    else syscall (CallNextHookEx 0 code w l)
                 (fun lg => ret_CallNextHookEx os lg code w l)
  else syscall (CallNextHookEx 0 code w l)
               (fun lg => ret_CallNextHookEx os lg code w l).

(** The local [wheel] of the mouse hook procedure. *)
Definition wheelOf (w : Z) (ms : w32.MSLLHOOKSTRUCT) : float :=
  if (w =? w32.WM_MOUSEWHEEL) || (w =? w32.WM_MOUSEHWHEEL) then
    let delta :=
      int16 (Z.shiftr (Z.land (w32.MouseData ms) 0xFFFF0000) 16) in
    PrimFloat.div (float64 delta) 120%float
  else 1%float.

(** [int(mouse.Pt.X)] widens an [int32] and keeps its value. *)
Definition newMouseEvent (w : Z) (ms : w32.MSLLHOOKSTRUCT)
    : M MouseEvent.t :=
  let wheel := wheelOf w ms in
  r <- MousePosition ;;
  let '(x, y, err) := r in
  let '(x, y) :=
    match err with
    | Some _ => (w32.ptX (w32.Pt ms), w32.ptY (w32.Pt ms))
    | None => (x, y)
    end in
  ret {| MouseEvent.Type_ := w;
         MouseEvent.X := x;
         MouseEvent.Y := y;
         MouseEvent.Wheel := wheel;
         MouseEvent.Injected := negb (Z.land (w32.msFlags ms) 1 =? 0);
         MouseEvent.cancelled := false |}.

Definition mouseProc (v : loop_vars) (code w l : Z)
    (ms : w32.MSLLHOOKSTRUCT) : M Z :=
  if 0 <=? code then
    e <- newMouseEvent w ms ;;
    e <- match mouseCallback v with
         | Some f => syscall (CallMouseCallback e) (fun _ => f e)
         | None => ret e
         end ;;
    if MouseEvent.cancelled e then ret 1
    else syscall (CallNextHookEx 0 code w l)
                 (fun lg => ret_CallNextHookEx os lg code w l)
  else syscall (CallNextHookEx 0 code w l)
               (fun lg => ret_CallNextHookEx os lg code w l).

(** The window procedure of the hidden clipboard window. *)
Definition clipboardWndProc (v : loop_vars) (window msg w l : Z) : M Z :=
  if msg =? w32.WM_CLIPBOARDUPDATE then
    match clipboardCallback v with
    | Some f => syscall (CallClipboardCallback f) (fun _ => tt) ;;; ret 0
    | None => ret 0
    end
  else syscall (DefWindowProc window msg w l) (ret_DefWindowProc os).

(** *** The hook state machine *)

Definition hookKeyboard (v : loop_vars) : M loop_vars :=
  let wantHook := negb (is_nil (keyboardCallback v)) in
  let haveHook := negb (keyboardHook v =? 0) in
  if Bool.eqb wantHook haveHook then ret v
  else if wantHook then
    hmod <- syscall (GetModuleHandle "") (ret_GetModuleHandle os) ;;
    h <- syscall (SetWindowsHookEx w32.WH_KEYBOARD_LL hmod)
                 (fun lg => ret_SetWindowsHookEx os lg w32.WH_KEYBOARD_LL) ;;
    ret (set_keyboardHook h v)
  else
    if negb (keyboardHook v =? 0) then
      syscall (UnhookWindowsHookEx (keyboardHook v)) (fun _ => tt) ;;;
      ret (set_keyboardHook 0 v)
    else ret v.

Definition hookMouse (v : loop_vars) : M loop_vars :=
  let wantHook := negb (is_nil (mouseCallback v)) in
  let haveHook := negb (mouseHook v =? 0) in
  if Bool.eqb wantHook haveHook then ret v
  else if wantHook then
    hmod <- syscall (GetModuleHandle "") (ret_GetModuleHandle os) ;;
    h <- syscall (SetWindowsHookEx w32.WH_MOUSE_LL hmod)
                 (fun lg => ret_SetWindowsHookEx os lg w32.WH_MOUSE_LL) ;;
    ret (set_mouseHook h v)
  else
    if negb (mouseHook v =? 0) then
      syscall (UnhookWindowsHookEx (mouseHook v)) (fun _ => tt) ;;;
      ret (set_mouseHook 0 v)
    else ret v.

Definition clipboard_class : string := "auto_clipboard_window".

Definition hookClipboard (v : loop_vars) : M loop_vars :=
  let wantHook := negb (is_nil (clipboardCallback v)) in
  let haveHook := negb (clipboardWindow v =? 0) in
  if Bool.eqb wantHook haveHook then ret v
  else if wantHook then
    syscall (RegisterClassEx clipboard_class) (fun _ => tt) ;;;
    h <- syscall (CreateWindowEx clipboard_class w32.HWND_MESSAGE)
                 (ret_CreateWindowEx os) ;;
    syscall (AddClipboardFormatListener h) (fun _ => tt) ;;;
    ret (set_clipboardWindow h v)
  else
    syscall (RemoveClipboardFormatListener (clipboardWindow v))
            (fun _ => tt) ;;;
    syscall (DestroyWindow (clipboardWindow v)) (fun _ => tt) ;;;
    ret (set_clipboardWindow 0 v).

(** *** The message-pump loop *)

(** The body of [case events := <-m.newEvents] once the inner loop has
    left with a snapshot that is not all nil. *)
Definition reconcile (ev : events) (v : loop_vars) : M loop_vars :=
  let v := set_callbacks ev v in
  v <- hookMouse v ;;
  v <- hookKeyboard v ;;
  hookClipboard v.

(** The pump thread receives [ev] from [m.newEvents]: at the [select], or
    in the inner loop.  An all-nil snapshot sends it (back) to the receive
    of the inner loop, before any assignment or hook call. *)
Definition loop_receive (ev : events) (s : loop_state) : M loop_state :=
  if allNil ev then ret {| pc := AwaitNonNil; vars := vars s |}
  else
    v <- reconcile ev (vars s) ;;
    ret {| pc := AtSelect; vars := v |}.

(** The [default] branch of the [select]: nothing to receive.  It cannot
    be taken while the thread is blocked in the inner loop. *)
Definition loop_default (s : loop_state) : M (option loop_state) :=
  match pc s with
  | AwaitNonNil => ret None
  | AtSelect =>
      msg <- syscall (PeekMessage w32.PM_REMOVE) (ret_PeekMessage os) ;;
      match msg with
      | Some msg =>
          syscall (TranslateMessage msg) (fun _ => tt) ;;;
          syscall (DispatchMessage msg) (fun _ => tt) ;;;
          ret (Some s)
      | None =>
          syscall (Sleep 1) (fun _ => tt) ;;;
          ret (Some s)
      end
  end.

End Dispatcher.

(* ================================================================== *)
(** ** The registration facade *)

(** What a registration call does to other threads, in order. *)
Inductive effect : Type :=
| GoLoop                          (* [go m.loop()] *)
| SendNewEvents (ev : events).    (* [m.newEvents <- ev] *)

(** [func (m *messageLoop) startLoop()] *)
Definition startLoop (m : messageLoop) : messageLoop * list effect :=
  if negb (running m) then
    ({| running := true; keyboardEvent := keyboardEvent m;
        mouseEvent := mouseEvent m; clipboardEvent := clipboardEvent m |},
     [GoLoop])
  else (m, []).

(** [func (m *messageLoop) updateEvents()] *)
Definition updateEvents (m : messageLoop) : messageLoop * list effect :=
  let (m, fx) := startLoop m in
  (m, fx ++ [SendNewEvents {| keyboard := keyboardEvent m;
                              mouse := mouseEvent m;
                              clipboard := clipboardEvent m |}]).

Definition setKeyboardEvent (f : option keyboard_callback) (m : messageLoop)
    : messageLoop * list effect :=
  updateEvents {| running := running m; keyboardEvent := f;
                  mouseEvent := mouseEvent m;
                  clipboardEvent := clipboardEvent m |}.

Definition setMouseEvent (f : option mouse_callback) (m : messageLoop)
    : messageLoop * list effect :=
  updateEvents {| running := running m; keyboardEvent := keyboardEvent m;
                  mouseEvent := f;
                  clipboardEvent := clipboardEvent m |}.

Definition setClipboardEvent (f : option clipboard_callback)
    (m : messageLoop) : messageLoop * list effect :=
  updateEvents {| running := running m; keyboardEvent := keyboardEvent m;
                  mouseEvent := mouseEvent m;
                  clipboardEvent := f |}.

(** The snapshot of the desired record: the [events{...}] literal that
    [updateEvents] sends. *)
Definition snapshot (m : messageLoop) : events :=
  {| keyboard := keyboardEvent m;
     mouse := mouseEvent m;
     clipboard := clipboardEvent m |}.

(** The three exported entry points, on the package variable [loop]. *)
Inductive registration : Type :=
| SetOnKeyboardEvent (f : option keyboard_callback)
| SetOnMouseEvent (f : option mouse_callback)
| SetOnClipboardChange (f : option clipboard_callback).

Definition register (c : registration) (m : messageLoop)
    : messageLoop * list effect :=
  match c with
  | SetOnKeyboardEvent f => setKeyboardEvent f m
  | SetOnMouseEvent f => setMouseEvent f m
  | SetOnClipboardChange f => setClipboardEvent f m
  end.

(* ================================================================== *)
(** ** Caller thread and pump thread together

    [newEvents] is made by [make(chan events)]: it has no buffer, so a send
    completes in the very step in which the pump thread receives. *)

Inductive caller_state : Type :=
| Outside                        (* not inside a registration call *)
| Pending (fx : list effect).    (* inside one, with [fx] still to do *)

Record system : Type := {
  loop : messageLoop;                (* [var loop = newMessageLoop()] *)
  caller : caller_state;
  pump : option loop_state           (* [None]: goroutine not started *)
}.

Definition system0 : system :=
  {| loop := newMessageLoop; caller := Outside; pump := None |}.

Section System.

Variable os : OS.

Inductive system_step : system * log -> system * log -> Prop :=
| step_enter (c : registration) (s : system) (lg : log) :
    caller s = Outside ->
    system_step (s, lg)
      ({| loop := fst (register c (loop s));
          caller := Pending (snd (register c (loop s)));
          pump := pump s |}, lg)
| step_go (s : system) (fx : list effect) (lg : log) :
    caller s = Pending (GoLoop :: fx) ->
    system_step (s, lg)
      ({| loop := loop s; caller := Pending fx;
          pump := Some loop_state0 |}, lg)
| step_handoff (s : system) (ev : events) (fx : list effect)
    (ps : loop_state) (lg : log) :
    caller s = Pending (SendNewEvents ev :: fx) ->
    pump s = Some ps ->
    system_step (s, lg)
      ({| loop := loop s; caller := Pending fx;
          pump := Some (fst (loop_receive os ev ps lg)) |},
       snd (loop_receive os ev ps lg))
| step_return (s : system) (lg : log) :
    caller s = Pending [] ->
    system_step (s, lg)
      ({| loop := loop s; caller := Outside; pump := pump s |}, lg)
| step_default (s : system) (ps ps' : loop_state) (lg lg' : log) :
    pump s = Some ps ->
    (forall ev fx, caller s <> Pending (SendNewEvents ev :: fx)) ->
    loop_default os ps lg = (Some ps', lg') ->
    system_step (s, lg)
      ({| loop := loop s; caller := caller s; pump := Some ps' |}, lg').

(** One registration call run to its return with the pump thread taking
    the snapshot: enter, start the goroutine if needed, hand off. *)
Definition call (c : registration) (s : system) : M system :=
  let (m, _) := register c (loop s) in
  let ps := match pump s with Some ps => ps | None => loop_state0 end in
  ps <- loop_receive os (snapshot m) ps ;;
  ret {| loop := m; caller := Outside; pump := Some ps |}.

Fixpoint calls (cs : list registration) (s : system) : M system :=
  match cs with
  | [] => ret s
  | c :: cs => s <- call c s ;; calls cs s
  end.

End System.

(* ================================================================== *)
(** ** Typing text: [Type] and [TypeWithDelay] *)

(** *** Go strings

    A Go string is its bytes; a Rocq [string] is read the same way. *)

Definition bytes_of_string (s : string) : list Z :=
  map (fun c => Z.of_N (N_of_ascii c)) (list_ascii_of_string s).

(** [strings.Replace(s, old, new, -1)] for a non-empty [old]: every
    non-overlapping occurrence, left to right.  [skip] counts the bytes of
    an occurrence already replaced that are still to be dropped. *)
Fixpoint is_prefix (p s : list Z) : bool :=
  match p, s with
  | [], _ => true
  | _ :: _, [] => false
  | a :: p', b :: s' => (a =? b) && is_prefix p' s'
  end.

Fixpoint Replace_from (skip : nat) (s old new : list Z) : list Z :=
  match s with
  | [] => []
  | b :: s' =>
      match skip with
      | S k => Replace_from k s' old new
      | O =>
          if is_prefix old s
          then new ++ Replace_from (List.length old - 1) s' old new
          else b :: Replace_from O s' old new
      end
  end.

Definition Replace (s old new : list Z) : list Z := Replace_from O s old new.

(** *** Ranging over a string

    [for _, r := range s] decodes UTF-8; a byte that starts no valid
    encoding yields [RuneError] and advances by one byte. *)

Definition RuneError : Z := 0xFFFD.

Definition continuation (b : Z) : bool := (0x80 <=? b) && (b <=? 0xBF).

Definition decodeRune (s : list Z) : Z * nat :=
  match s with
  | [] => (RuneError, 0%nat)
  | s0 :: t =>
      if s0 <? 0x80 then (s0, 1%nat)
      else if (s0 <? 0xC2) || (0xF4 <? s0) then (RuneError, 1%nat)
      else
        let size : nat :=
          if s0 <? 0xE0 then 2%nat else if s0 <? 0xF0 then 3%nat else 4%nat in
        let lo :=
          if s0 =? 0xE0 then 0xA0 else if s0 =? 0xF0 then 0x90 else 0x80 in
        let hi :=
          if s0 =? 0xED then 0x9F else if s0 =? 0xF4 then 0x8F else 0xBF in
        if (List.length s <? size)%nat then (RuneError, 1%nat)
        else
          match t with
          | s1 :: t1 =>
              if (s1 <? lo) || (hi <? s1) then (RuneError, 1%nat)
              else if (size <=? 2)%nat then
                (Z.lor (Z.shiftl (Z.land s0 0x1F) 6) (Z.land s1 0x3F), 2%nat)
              else
                match t1 with
                | s2 :: t2 =>
                    if negb (continuation s2) then (RuneError, 1%nat)
                    else if (size <=? 3)%nat then
                      (Z.lor (Z.lor (Z.shiftl (Z.land s0 0x0F) 12)
                                    (Z.shiftl (Z.land s1 0x3F) 6))
                             (Z.land s2 0x3F), 3%nat)
                    else
                      match t2 with
                      | s3 :: _ =>
                          if negb (continuation s3) then (RuneError, 1%nat)
                          else
                            (Z.lor (Z.lor (Z.lor
                                (Z.shiftl (Z.land s0 0x07) 18)
                                (Z.shiftl (Z.land s1 0x3F) 12))
                                (Z.shiftl (Z.land s2 0x3F) 6))
                                (Z.land s3 0x3F), 4%nat)
                      | [] => (RuneError, 1%nat)
                      end
                | [] => (RuneError, 1%nat)
                end
          | [] => (RuneError, 1%nat)
          end
  end.

Fixpoint runes_from (skip : nat) (s : list Z) : list Z :=
  match s with
  | [] => []
  | _ :: s' =>
      match skip with
      | S k => runes_from k s'
      | O => let (r, size) := decodeRune s in r :: runes_from (size - 1) s'
      end
  end.

Definition runes (s : list Z) : list Z := runes_from O s.

(** [fmt.Sprint(int(r))] of a rune, as the values [digit - '0']. *)
Fixpoint digits_of_uint (u : Decimal.uint) : list Z :=
  match u with
  | Decimal.Nil => []
  | Decimal.D0 u => 0 :: digits_of_uint u
  | Decimal.D1 u => 1 :: digits_of_uint u
  | Decimal.D2 u => 2 :: digits_of_uint u
  | Decimal.D3 u => 3 :: digits_of_uint u
  | Decimal.D4 u => 4 :: digits_of_uint u
  | Decimal.D5 u => 5 :: digits_of_uint u
  | Decimal.D6 u => 6 :: digits_of_uint u
  | Decimal.D7 u => 7 :: digits_of_uint u
  | Decimal.D8 u => 8 :: digits_of_uint u
  | Decimal.D9 u => 9 :: digits_of_uint u
  end.

Definition decimal_digits (r : Z) : list Z :=
  digits_of_uint (N.to_uint (Z.to_N r)).

Section Typing.

Variable os : OS.

(** [func PressKey(key uint16) error] *)
Definition PressKey (key : Z) : M (option error) :=
  n <- syscall
         (SendInput [w32.KeyboardInput
                       {| w32.Vk := key; w32.Scan := 0; w32.kiFlags := 0 |}])
         (fun lg => ret_SendInput os lg
            [w32.KeyboardInput
               {| w32.Vk := key; w32.Scan := 0; w32.kiFlags := 0 |}]) ;;
  if n =? 0 then ret (Some errBlocked) else ret None.

(** The closure [toScanCode]. *)
Definition toScanCode (vk : Z) : M Z :=
  r <- syscall (MapVirtualKey vk w32.MAPVK_VK_TO_VSC)
               (fun lg => ret_MapVirtualKey os lg vk w32.MAPVK_VK_TO_VSC) ;;
  ret (uint16 r).

(** The closure [upDown]: the pair (index [down], index [up]). *)
Definition upDown (vk : Z) : M (w32.INPUT * w32.INPUT) :=
  sd <- toScanCode vk ;;
  su <- toScanCode vk ;;
  ret (w32.KeyboardInput
         {| w32.Vk := 0; w32.Scan := sd;
            w32.kiFlags := w32.KEYEVENTF_SCANCODE |},
       w32.KeyboardInput
         {| w32.Vk := 0; w32.Scan := su;
            w32.kiFlags :=
              Z.lor w32.KEYEVENTF_SCANCODE w32.KEYEVENTF_KEYUP |}).

Fixpoint upDowns (vks : list Z) : M (list (w32.INPUT * w32.INPUT)) :=
  match vks with
  | [] => ret []
  | vk :: vks =>
      p <- upDown vk ;;
      ps <- upDowns vks ;;
      ret (p :: ps)
  end.

(** [w32.VK_NUMPAD0] ... [w32.VK_NUMPAD9] *)
Definition numpad_keys : list Z :=
  map (fun i => w32.VK_NUMPAD0 + Z.of_nat i) (seq 0 10).

Definition no_input : w32.INPUT :=
  w32.KeyboardInput {| w32.Vk := 0; w32.Scan := 0; w32.kiFlags := 0 |}.

Definition num (nums : list (w32.INPUT * w32.INPUT)) (d : Z)
    : w32.INPUT * w32.INPUT :=
  nth (Z.to_nat d) nums (no_input, no_input).

(** The inputs sent for one rune that is neither '\r' nor '\b'. *)
Definition rune_keys (alt : w32.INPUT * w32.INPUT)
    (nums : list (w32.INPUT * w32.INPUT)) (r : Z) : list w32.INPUT :=
  [fst alt; fst (num nums 0); snd (num nums 0)]
  ++ flat_map (fun d => [fst (num nums d); snd (num nums d)])
              (decimal_digits r)
  ++ [snd alt].

(** The body of [for _, r := range s], rune by rune. *)
Fixpoint typeRunes (alt : w32.INPUT * w32.INPUT)
    (nums : list (w32.INPUT * w32.INPUT)) (delay : Z) (rs : list Z)
    : M (option error) :=
  match rs with
  | [] => ret None
  | r :: rs =>
      err <- (if r =? 13 then PressKey w32.VK_RETURN
              else if r =? 8 then PressKey w32.VK_BACK
              else
                n <- syscall (SendInput (rune_keys alt nums r))
                       (fun lg =>
                          ret_SendInput os lg (rune_keys alt nums r)) ;;
                if n =? 0 then ret (Some errBlocked) else ret None) ;;
      match err with
      | Some e => ret (Some e)
      | None =>
          syscall (Sleep delay) (fun _ => tt) ;;;
          typeRunes alt nums delay rs
      end
  end.

(** [func TypeWithDelay(s string, delay time.Duration) error] *)
Definition TypeWithDelay (s : string) (delay : Z) : M (option error) :=
  alt <- upDown w32.VK_LMENU ;;
  nums <- upDowns numpad_keys ;;
  let s := Replace (bytes_of_string s) [13; 10] [13] in
  let s := Replace s [10] [13] in
  typeRunes alt nums delay (runes s).

(** [func Type(s string) error] *)
Definition Type_ (s : string) : M (option error) :=
  TypeWithDelay s 1.

End Typing.

(* ================================================================== *)
(** ** Screen shots: [CaptureScreen] and [CaptureMonitors] *)

Record Rectangle : Type := {
  X : Z;
  Y : Z;
  Width : Z;
  Height : Z
}.

Record Monitor : Type := {
  Rectangle_ : Rectangle;     (* the embedded [Rectangle] *)
  WorkArea : Rectangle;
  Primary : bool
}.

(** [image.Rectangle] and [image.RGBA] of the Go library. *)
Record image_Rectangle : Type := {
  MinX : Z; MinY : Z; MaxX : Z; MaxY : Z
}.

Record RGBA : Type := {
  Pix : list Z;
  Stride : Z;
  Rect : image_Rectangle
}.

(** [&image.RGBA{}] *)
Definition RGBA0 : RGBA :=
  {| Pix := []; Stride := 0;
     Rect := {| MinX := 0; MinY := 0; MaxX := 0; MaxY := 0 |} |}.

(** [image.Rect(x0, y0, x1, y1)] orders its corners. *)
Definition image_Rect (x0 y0 x1 y1 : Z) : image_Rectangle :=
  {| MinX := if x1 <? x0 then x1 else x0;
     MinY := if y1 <? y0 then y1 else y0;
     MaxX := if x1 <? x0 then x0 else x1;
     MaxY := if y1 <? y0 then y0 else y1 |}.

(** How a call ends: it returns, or it panics. *)
Inductive outcome (A : Type) : Type :=
| Returns (a : A)
| Panics (msg : string).
Arguments Returns {A} a.
Arguments Panics {A} msg.

(** "Windows gives us BRGA, we want RGBA, so we swap 2 of the 4 bytes." *)
Fixpoint swapBR (p : list Z) : list Z :=
  match p with
  | b :: g :: r :: a :: rest => r :: g :: b :: a :: swapBR rest
  | other => other
  end.

(** Read what the operating system holds, without calling it. *)
Definition peek {A} (r : log -> A) : M A := fun l => (r l, l).

(** The bounding box under construction in [CaptureMonitors]. *)
Record hull : Type := {
  hullLeft : Z;
  hullTop : Z;
  hullRight : Z;
  hullBottom : Z
}.

(** The edges of a monitor as the loop body computes them. *)
Definition left (m : Monitor) : Z := X (Rectangle_ m).
Definition top (m : Monitor) : Z := Y (Rectangle_ m).
Definition right (m : Monitor) : Z :=
  int (X (Rectangle_ m) + Width (Rectangle_ m)).
Definition bottom (m : Monitor) : Z :=
  int (Y (Rectangle_ m) + Height (Rectangle_ m)).

(** One round of [for _, m := range monitors]. *)
Definition hull_step (h : hull) (m : Monitor) : hull :=
  {| hullLeft := if left m <? hullLeft h then left m else hullLeft h;
     hullTop := if top m <? hullTop h then top m else hullTop h;
     hullRight := if hullRight h <? right m then right m else hullRight h;
     hullBottom :=
       if hullBottom h <? bottom m then bottom m else hullBottom h |}.

(** The rectangle [r] that [CaptureMonitors] builds for [m0 :: rest]. *)
Definition hull_rectangle (monitors : list Monitor) (m0 : Monitor)
    : Rectangle :=
  let h := fold_left hull_step monitors
             {| hullLeft := left m0; hullTop := top m0;
                hullRight := right m0; hullBottom := bottom m0 |} in
  {| X := hullLeft h;
     Y := hullTop h;
     Width := int (hullRight h - hullLeft h);
     Height := int (hullBottom h - hullTop h) |}.

Section Capture.

Variable os : OS.

Definition image_result : Type := outcome (option RGBA * option error).

(** [func CaptureScreen(x, y, width, height int) (image.Image, error)].
    The deferred calls are written out, last deferred first, on every way
    out of the function. *)
Definition CaptureScreen (x y width height : Z) : M image_result :=
  screenDC <- syscall (GetDC 0) (ret_GetDC os) ;;
  if screenDC =? 0
  then ret (Returns (None, Some (errorString "GetDC failed")))
  else
  memDC <- syscall (CreateCompatibleDC screenDC)
                   (ret_CreateCompatibleDC os) ;;
  if memDC =? 0 then
    syscall (ReleaseDC 0 screenDC) (fun _ => tt) ;;;
    ret (Panics "CreateCompatibleDC failed")
  else
  screenBitmap <- syscall (CreateCompatibleBitmap screenDC width height)
                          (ret_CreateCompatibleBitmap os) ;;
  if screenBitmap =? 0 then
    syscall (DeleteDC memDC) (fun _ => tt) ;;;
    syscall (ReleaseDC 0 screenDC) (fun _ => tt) ;;;
    ret (Panics "CreateCompatibleDC failed")
  else
  syscall (SelectObject memDC screenBitmap) (fun _ => tt) ;;;
  blitted <- syscall (BitBlt memDC 0 0 width height screenDC x y)
                     (ret_BitBlt os) ;;
  if negb blitted then
    syscall (DeleteObject screenBitmap) (fun _ => tt) ;;;
    syscall (DeleteDC memDC) (fun _ => tt) ;;;
    syscall (ReleaseDC 0 screenDC) (fun _ => tt) ;;;
    ret (Panics "BitBlt failed")
  else
  let byteCount := int (int (4 * width) * height) in
  memory <- syscall (GlobalAlloc (uint32 byteCount)) (ret_GlobalAlloc os) ;;
  memoryPointer <- syscall (GlobalLock memory) (ret_GlobalLock os) ;;
  n <- syscall (GetDIBits screenDC screenBitmap 0 (height mod 2 ^ 64)
                          memoryPointer)
               (ret_GetDIBits os) ;;
  raw <- peek (fun lg =>
                 map (fun i => memory_at os lg memoryPointer (Z.of_nat i))
                     (seq 0 (Z.to_nat byteCount))) ;;
  let leave (r : image_result) : M image_result :=
    syscall (GlobalUnlock memory) (fun _ => tt) ;;;
    syscall (GlobalFree memory) (fun _ => tt) ;;;
    syscall (DeleteObject screenBitmap) (fun _ => tt) ;;;
    syscall (DeleteDC memDC) (fun _ => tt) ;;;
    syscall (ReleaseDC 0 screenDC) (fun _ => tt) ;;;
    ret r in
  if n =? 0 then leave (Panics "GetDIBits failed")
  else if byteCount <? 0 then leave (Panics "makeslice: len out of range")
  else
    leave (Returns
             (Some {| Pix := swapBR raw;
                      Stride := int (4 * width);
                      Rect := image_Rect x y (int (x + width))
                                              (int (y + height)) |},
              None)).

(** [func CaptureScreenRect(r Rectangle) (image.Image, error)] *)
Definition CaptureScreenRect (r : Rectangle) : M image_result :=
  CaptureScreen (X r) (Y r) (Width r) (Height r).

(** [func CaptureMonitors(monitors []Monitor) (image.Image, error)] *)
Definition CaptureMonitors (monitors : list Monitor) : M image_result :=
  match monitors with
  | [] => ret (Returns (Some RGBA0, Some (errorString "now monitor given")))
  | m0 :: _ => CaptureScreenRect (hull_rectangle monitors m0)
  end.

End Capture.

(* ================================================================== *)
(** ** Concrete operating systems and callbacks, to run the code on *)

(** An operating system whose hook and window installations return [hook]
    and whose cursor query answers [cursor]. *)
Definition sample_os (hook : Z) (cursor : Z * Z * bool) : OS :=
  {| ret_GetModuleHandle := fun _ => 0x400000;
     ret_SetWindowsHookEx := fun _ _ => hook;
     ret_CallNextHookEx := fun _ _ _ _ => 0;
     ret_GetCursorPos := fun _ => cursor;
     ret_CreateWindowEx := fun _ => hook;
     ret_DefWindowProc := fun _ => 0;
     ret_PeekMessage := fun _ => None;
     ret_MapVirtualKey := fun _ vk _ => vk;
     ret_SendInput := fun _ inputs => Z.of_nat (List.length inputs);
     ret_GetDC := fun _ => 1;
     ret_CreateCompatibleDC := fun _ => 2;
     ret_CreateCompatibleBitmap := fun _ => 3;
     ret_BitBlt := fun _ => true;
     ret_GlobalAlloc := fun _ => 4;
     ret_GlobalLock := fun _ => 5;
     ret_GetDIBits := fun _ => 1;
     memory_at := fun _ _ i => i mod 256 |}.

(** A well-behaved operating system: installations succeed. *)
Definition os_ok : OS := sample_os 77 (100, 200, true).

(** One whose installations fail. *)
Definition os_refusing : OS := sample_os 0 (100, 200, true).

(** One whose cursor query fails. *)
Definition os_no_cursor : OS := sample_os 77 (0, 0, false).

(** Callbacks: one that cancels every event, one that only looks. *)
Definition cancel_keys : keyboard_callback := KeyboardEvent.Cancel.
Definition watch_keys : keyboard_callback := fun e => e.
Definition cancel_mouse : mouse_callback := MouseEvent.Cancel.
Definition watch_mouse : mouse_callback := fun e => e.

Definition sample_kb : w32.KBDLLHOOKSTRUCT :=
  {| w32.VkCode := 0x41; w32.ScanCode := 30; w32.kbFlags := 0x90;
     w32.kbTime := 0; w32.kbExtraInfo := 0 |}.

Definition sample_ms : w32.MSLLHOOKSTRUCT :=
  {| w32.Pt := {| w32.ptX := -5; w32.ptY := 7 |};
     w32.MouseData := 0xFF880000; w32.msFlags := 1;
     w32.msTime := 0; w32.msExtraInfo := 0 |}.

Definition vars_with (k : option keyboard_callback)
    (m : option mouse_callback) : loop_vars :=
  {| keyboardCallback := k; mouseCallback := m; clipboardCallback := None;
     keyboardHook := if is_nil k then 0 else 77;
     mouseHook := if is_nil m then 0 else 77;
     clipboardWindow := 0 |}.

(* ================================================================== *)
(** ** More of the package on the same operating system *)

Section Keys.

Variable os : OS.

(** [func ReleaseKey(key uint16) error] *)
Definition ReleaseKey (key : Z) : M (option error) :=
  n <- syscall
         (SendInput [w32.KeyboardInput
                       {| w32.Vk := key; w32.Scan := 0;
                          w32.kiFlags := w32.KEYEVENTF_KEYUP |}])
         (fun lg => ret_SendInput os lg
            [w32.KeyboardInput
               {| w32.Vk := key; w32.Scan := 0;
                  w32.kiFlags := w32.KEYEVENTF_KEYUP |}]) ;;
  if n =? 0 then ret (Some errBlocked) else ret None.

(** [func TypeKey(key uint16) error] *)
Definition TypeKey (key : Z) : M (option error) :=
  n <- syscall
         (SendInput [w32.KeyboardInput
                       {| w32.Vk := key; w32.Scan := 0; w32.kiFlags := 0 |};
                     w32.KeyboardInput
                       {| w32.Vk := key; w32.Scan := 0;
                          w32.kiFlags := w32.KEYEVENTF_KEYUP |}])
         (fun lg => ret_SendInput os lg
            [w32.KeyboardInput
               {| w32.Vk := key; w32.Scan := 0; w32.kiFlags := 0 |};
             w32.KeyboardInput
               {| w32.Vk := key; w32.Scan := 0;
                  w32.kiFlags := w32.KEYEVENTF_KEYUP |}]) ;;
  if n =? 0 then ret (Some errBlocked) else ret None.

(** [func CaptureMonitor(m Monitor) (image.Image, error)] *)
Definition CaptureMonitor (m : Monitor) : M image_result :=
  CaptureScreenRect os (Rectangle_ m).

End Keys.

(** Registration calls one after the other on the desired record, with
    the effects of all of them in order. *)
Fixpoint registers (cs : list registration) (m : messageLoop)
    : messageLoop * list effect :=
  match cs with
  | [] => (m, [])
  | c :: cs =>
      let (m1, fx1) := register c m in
      let (m2, fx2) := registers cs m1 in
      (m2, fx1 ++ fx2)
  end.

(** The callback each category was last given in [cs], [d] when none. *)
Fixpoint last_keyboard (cs : list registration)
    (d : option keyboard_callback) : option keyboard_callback :=
  match cs with
  | [] => d
  | SetOnKeyboardEvent f :: cs => last_keyboard cs f
  | _ :: cs => last_keyboard cs d
  end.

Fixpoint last_mouse (cs : list registration)
    (d : option mouse_callback) : option mouse_callback :=
  match cs with
  | [] => d
  | SetOnMouseEvent f :: cs => last_mouse cs f
  | _ :: cs => last_mouse cs d
  end.

Fixpoint last_clipboard (cs : list registration)
    (d : option clipboard_callback) : option clipboard_callback :=
  match cs with
  | [] => d
  | SetOnClipboardChange f :: cs => last_clipboard cs f
  | _ :: cs => last_clipboard cs d
  end.

Definition is_GoLoop (e : effect) : bool :=
  match e with GoLoop => true | _ => false end.

Definition is_SendNewEvents (e : effect) : bool :=
  match e with SendNewEvents _ => true | _ => false end.

Definition is_SendInput (a : action) : bool :=
  match a with SendInput _ => true | _ => false end.

Definition is_Sleep (a : action) : bool :=
  match a with Sleep _ => true | _ => false end.

Definition is_callback (a : action) : bool :=
  match a with
  | CallKeyboardCallback _ | CallMouseCallback _ | CallClipboardCallback _ =>
      true
  | _ => false
  end.

(** The bytes [TypeWithDelay] ranges over: its two [strings.Replace]. *)
Definition unify_line_breaks (s : list Z) : list Z :=
  Replace (Replace s [13; 10] [13]) [10] [13].

(** A byte of a Go string. *)
Definition is_byte (b : Z) : Prop := 0 <= b < 256.


(** An operating system that never blocks input, and one that always
    does. *)
Definition accepts_input (os : OS) : Prop :=
  forall l inputs, ret_SendInput os l inputs <> 0.

Definition blocks_input (os : OS) : Prop :=
  forall l inputs, ret_SendInput os l inputs = 0.

Definition typing_os (sent : Z) : OS :=
  {| ret_GetModuleHandle := fun _ => 0x400000;
     ret_SetWindowsHookEx := fun _ _ => 77;
     ret_CallNextHookEx := fun _ _ _ _ => 0;
     ret_GetCursorPos := fun _ => (0, 0, true);
     ret_CreateWindowEx := fun _ => 77;
     ret_DefWindowProc := fun _ => 0;
     ret_PeekMessage := fun _ => None;
     ret_MapVirtualKey := fun _ vk _ => vk;
     ret_SendInput := fun _ _ => sent;
     ret_GetDC := fun _ => 0;
     ret_CreateCompatibleDC := fun _ => 0;
     ret_CreateCompatibleBitmap := fun _ => 0;
     ret_BitBlt := fun _ => false;
     ret_GlobalAlloc := fun _ => 0;
     ret_GlobalLock := fun _ => 0;
     ret_GetDIBits := fun _ => 0;
     memory_at := fun _ _ _ => 0 |}.

Definition os_accepting : OS := typing_os 1.
Definition os_blocking : OS := typing_os 0.


Definition sample_monitor (x y w h : Z) (primary : bool) : Monitor :=
  {| Rectangle_ := {| X := x; Y := y; Width := w; Height := h |};
     WorkArea := {| X := x; Y := y; Width := w; Height := h - 40 |};
     Primary := primary |}.

(** An operating system that grants every hook and every window. *)
Definition grants (os : OS) : Prop :=
  (forall l id, ret_SetWindowsHookEx os l id <> 0)
  /\ (forall l, ret_CreateWindowEx os l <> 0).

(* ================================================================== *)
(** ** Mouse, windows, monitors and message boxes

    The rest of the package calls other parts of the operating system.
    These calls have a log and oracles of their own, in module [Desktop],
    built like [action], [OS] and [M] above. *)

Module Window.

(** [type Window struct] *)
Record t : Type := mk {
  Rectangle_ : Rectangle;     (* the embedded [Rectangle] *)
  Content : Rectangle;
  Visible : bool;
  Title : string;
  ClassName : string;
  Maximized : bool;
  Minimized : bool;
  Handle : Z                  (* w32.HWND *)
}.

(** [Window{}] *)
Definition zero : t :=
  {| Rectangle_ := {| X := 0; Y := 0; Width := 0; Height := 0 |};
     Content := {| X := 0; Y := 0; Width := 0; Height := 0 |};
     Visible := false; Title := ""; ClassName := "";
     Maximized := false; Minimized := false; Handle := 0 |}.

End Window.

(** [Monitor{}] *)
Definition Monitor_zero : Monitor :=
  {| Rectangle_ := {| X := 0; Y := 0; Width := 0; Height := 0 |};
     WorkArea := {| X := 0; Y := 0; Width := 0; Height := 0 |};
     Primary := false |}.

Definition int32 (z : Z) : Z :=
  let u := z mod 2 ^ 32 in
  if u <? 2 ^ 31 then u else u - 2 ^ 32.

Module Desktop.

(** Constants of package w32 (the Windows SDK values). *)
Definition MOUSEEVENTF_LEFTDOWN : Z := 0x0002.
Definition MOUSEEVENTF_LEFTUP : Z := 0x0004.
Definition MOUSEEVENTF_RIGHTDOWN : Z := 0x0008.
Definition MOUSEEVENTF_RIGHTUP : Z := 0x0010.
Definition MOUSEEVENTF_MIDDLEDOWN : Z := 0x0020.
Definition MOUSEEVENTF_MIDDLEUP : Z := 0x0040.

Definition SW_HIDE : Z := 0.
Definition SW_SHOWMINIMIZED : Z := 2.
Definition SW_MAXIMIZE : Z := 3.
Definition SW_SHOW : Z := 5.
Definition SW_MINIMIZE : Z := 6.
Definition SW_RESTORE : Z := 9.
Definition SW_FORCEMINIMIZE : Z := 11.

Definition SWP_NOZORDER : Z := 0x0004.
Definition SWP_NOACTIVATE : Z := 0x0010.
Definition SWP_NOOWNERZORDER : Z := 0x0200.

Definition GWL_STYLE : Z := -16.
Definition GWL_EXSTYLE : Z := -20.

Definition MONITOR_DEFAULTTOPRIMARY : Z := 1.
Definition MONITORINFOF_PRIMARY : Z := 1.

Definition MB_OK : Z := 0.
Definition MB_ICONINFORMATION : Z := 0x40.
Definition MB_TOPMOST : Z := 0x40000.

(** [w32.RECT], four [int32], with its methods [Width] and [Height]
    (right minus left, bottom minus top, in [int32]). *)
Record RECT : Type := {
  Left : Z;
  Top : Z;
  Right : Z;
  Bottom : Z
}.

Definition RECT_Width (r : RECT) : Z := int32 (Right r - Left r).
Definition RECT_Height (r : RECT) : Z := int32 (Bottom r - Top r).

Record MONITORINFO : Type := {
  RcMonitor : RECT;
  RcWork : RECT;
  DwFlags : Z
}.

Inductive call : Type :=
| SetCursorPos (x y : Z)
| GetCursorPos
| SendInput (inputs : list w32.INPUT)
| GetForegroundWindow
| SetForegroundWindow (hwnd : Z)
| ShowWindow (hwnd cmd : Z)
| GetClassName (hwnd : Z)
| GetWindowRect (hwnd : Z)
| GetClientRect (hwnd : Z)
| ClientToScreen (hwnd x y : Z)
| GetWindowPlacement (hwnd : Z)
| IsWindowVisible (hwnd : Z)
| GetWindowText (hwnd : Z)
| DwmGetWindowAttributeEXTENDED_FRAME_BOUNDS (hwnd : Z)
| GetWindowLong (hwnd index : Z)
| GetMenu (hwnd : Z)
| AdjustWindowRectEx (r : RECT) (style : Z) (menu : bool) (exStyle : Z)
| SetWindowPos (hwnd after x y width height flags : Z)
| EnumWindows
| MonitorFromPoint (x y flags : Z)
| EnumDisplayMonitors
| GetMonitorInfo (monitor : Z)
| MessageBox (hwnd : Z) (message caption : list Z) (flags : Z).

Definition calls : Type := list call.

(** What the operating system returns, given the calls so far. *)
Record OS : Type := {
  ret_SetCursorPos : calls -> bool;
  ret_GetCursorPos : calls -> Z * Z * bool;
  ret_SendInput : calls -> list w32.INPUT -> Z;       (* 0 when blocked *)
  ret_GetForegroundWindow : calls -> Z;               (* 0: none *)
  ret_SetForegroundWindow : calls -> bool;
  ret_GetClassName : calls -> string;
  ret_GetWindowRect : calls -> RECT;
  ret_GetClientRect : calls -> RECT;
  ret_ClientToScreen : calls -> Z * Z;
  ret_GetWindowPlacement : calls -> Z;                (* [ShowCmd] *)
  ret_IsWindowVisible : calls -> bool;
  ret_GetWindowText : calls -> string;
  ret_DwmFrameBounds : calls -> bool * RECT;
  ret_GetWindowLong : calls -> Z;                     (* int32 *)
  ret_GetMenu : calls -> Z;
  ret_AdjustWindowRectEx : calls -> bool * RECT;      (* the adjusted rect *)
  ret_SetWindowPos : calls -> bool;
  ret_EnumWindows : calls -> list Z * bool;           (* handles shown *)
  ret_MonitorFromPoint : calls -> Z;                  (* 0 on failure *)
  ret_EnumDisplayMonitors : calls -> list Z * bool;   (* handles shown *)
  ret_GetMonitorInfo : calls -> bool * MONITORINFO
}.

Definition D (A : Type) : Type := calls -> A * calls.

Definition dret {A} (a : A) : D A := fun l => (a, l).

Definition dbind {A B} (m : D A) (k : A -> D B) : D B :=
  fun l => let (a, l') := m l in k a l'.

Notation "x <~ m ;; k" := (dbind m (fun x => k))
  (at level 61, m at next level, right associativity).
Notation "m ;;~ k" := (dbind m (fun _ => k))
  (at level 61, right associativity).

Definition os_call {A} (c : call) (r : calls -> A) : D A :=
  fun l => (r l, c :: l).

Definition drun {A} (m : D A) (l : calls) : A * calls := m l.

Section Code.

Variable os : OS.

(** *** The mouse *)

(** [func MoveMouseTo(x, y int) error] *)
Definition MoveMouseTo (x y : Z) : D (option error) :=
  ok <~ os_call (SetCursorPos x y) (ret_SetCursorPos os) ;;
  if negb ok then dret (Some errSetCursor) else dret None.

(** [func MoveMouseBy(dx, dy int) error] *)
Definition MoveMouseBy (dx dy : Z) : D (option error) :=
  r <~ os_call GetCursorPos (ret_GetCursorPos os) ;;
  let '(x, y, ok) := r in
  if negb ok then dret (Some (errorString "GetCursorPos failed"))
  else
    ok <~ os_call (SetCursorPos (int (x + dx)) (int (y + dy)))
                  (ret_SetCursorPos os) ;;
    if negb ok then dret (Some errSetCursor) else dret None.

Definition mouse_input (flags : Z) : w32.INPUT :=
  w32.MouseInput {| w32.miData := 0; w32.miFlags := flags |}.

(** [func click(down, up uint32) error] *)
Definition click (down up : Z) : D (option error) :=
  n <~ os_call (SendInput [mouse_input down; mouse_input up])
               (fun l => ret_SendInput os l
                           [mouse_input down; mouse_input up]) ;;
  if n =? 0 then dret (Some errBlocked) else dret None.

(** [func clickAt(x, y int, down, up uint32) error] *)
Definition clickAt (x y down up : Z) : D (option error) :=
  ok <~ os_call (SetCursorPos x y) (ret_SetCursorPos os) ;;
  if negb ok then dret (Some errSetCursor) else click down up.

(** [func mouseInput(flags uint32) error] *)
Definition mouseInput (flags : Z) : D (option error) :=
  n <~ os_call (SendInput [mouse_input flags])
               (fun l => ret_SendInput os l [mouse_input flags]) ;;
  if n =? 0 then dret (Some errBlocked) else dret None.

(** [func mouseInputAt(x, y int, flags uint32) error] *)
Definition mouseInputAt (x y flags : Z) : D (option error) :=
  ok <~ os_call (SetCursorPos x y) (ret_SetCursorPos os) ;;
  if negb ok then dret (Some errSetCursor) else mouseInput flags.

Definition ClickLeftMouseAt (x y : Z) : D (option error) :=
  clickAt x y MOUSEEVENTF_LEFTDOWN MOUSEEVENTF_LEFTUP.
Definition ClickLeftMouse : D (option error) :=
  click MOUSEEVENTF_LEFTDOWN MOUSEEVENTF_LEFTUP.
Definition PressLeftMouseAt (x y : Z) : D (option error) :=
  mouseInputAt x y MOUSEEVENTF_LEFTDOWN.
Definition PressLeftMouse : D (option error) :=
  mouseInput MOUSEEVENTF_LEFTDOWN.
Definition ReleaseLeftMouseAt (x y : Z) : D (option error) :=
  mouseInputAt x y MOUSEEVENTF_LEFTUP.
Definition ReleaseLeftMouse : D (option error) :=
  mouseInput MOUSEEVENTF_LEFTUP.

Definition ClickRightMouseAt (x y : Z) : D (option error) :=
  clickAt x y MOUSEEVENTF_RIGHTDOWN MOUSEEVENTF_RIGHTUP.
Definition ClickRightMouse : D (option error) :=
  click MOUSEEVENTF_RIGHTDOWN MOUSEEVENTF_RIGHTUP.
Definition PressRightMouseAt (x y : Z) : D (option error) :=
  mouseInputAt x y MOUSEEVENTF_RIGHTDOWN.
Definition PressRightMouse : D (option error) :=
  mouseInput MOUSEEVENTF_RIGHTDOWN.
Definition ReleaseRightMouseAt (x y : Z) : D (option error) :=
  mouseInputAt x y MOUSEEVENTF_RIGHTUP.
Definition ReleaseRightMouse : D (option error) :=
  mouseInput MOUSEEVENTF_RIGHTUP.

Definition ClickMiddleMouseAt (x y : Z) : D (option error) :=
  clickAt x y MOUSEEVENTF_MIDDLEDOWN MOUSEEVENTF_MIDDLEUP.
Definition ClickMiddleMouse : D (option error) :=
  click MOUSEEVENTF_MIDDLEDOWN MOUSEEVENTF_MIDDLEUP.
Definition PressMiddleMouseAt (x y : Z) : D (option error) :=
  mouseInputAt x y MOUSEEVENTF_MIDDLEDOWN.
Definition PressMiddleMouse : D (option error) :=
  mouseInput MOUSEEVENTF_MIDDLEDOWN.
Definition ReleaseMiddleMouseAt (x y : Z) : D (option error) :=
  mouseInputAt x y MOUSEEVENTF_MIDDLEUP.
Definition ReleaseMiddleMouse : D (option error) :=
  mouseInput MOUSEEVENTF_MIDDLEUP.

(** *** Windows *)

(** [func windowHandleToWindow(window w32.HWND) Window] *)
Definition windowHandleToWindow (window : Z) : D Window.t :=
  className <~ os_call (GetClassName window) (ret_GetClassName os) ;;
  bounds <~ os_call (GetWindowRect window) (ret_GetWindowRect os) ;;
  client <~ os_call (GetClientRect window) (ret_GetClientRect os) ;;
  cl <~ os_call (ClientToScreen window 0 0) (ret_ClientToScreen os) ;;
  showCmd <~ os_call (GetWindowPlacement window)
                     (ret_GetWindowPlacement os) ;;
  visible <~ os_call (IsWindowVisible window) (ret_IsWindowVisible os) ;;
  title <~ os_call (GetWindowText window) (ret_GetWindowText os) ;;
  dret {| Window.Handle := window;
          Window.Visible := visible;
          Window.Title := title;
          Window.ClassName := className;
          Window.Maximized := showCmd =? SW_MAXIMIZE;
          Window.Minimized := (showCmd =? SW_SHOWMINIMIZED)
                              || (showCmd =? SW_MINIMIZE)
                              || (showCmd =? SW_FORCEMINIMIZE);
          Window.Rectangle_ := {| X := Left bounds;
                                  Y := Top bounds;
                                  Width := RECT_Width bounds;
                                  Height := RECT_Height bounds |};
          Window.Content := {| X := fst cl;
                               Y := snd cl;
                               Width := RECT_Width client;
                               Height := RECT_Height client |} |}.

(** [func ForegroundWindow() (Window, error)] *)
Definition ForegroundWindow : D (Window.t * option error) :=
  w <~ os_call GetForegroundWindow (ret_GetForegroundWindow os) ;;
  if w =? 0
  then dret (Window.zero, Some (errorString "no window is active"))
  else
    win <~ windowHandleToWindow w ;;
    dret (win, None).

(** [func (w *Window) Update()]: the window after the call. *)
Definition Update (w : Window.t) : D Window.t :=
  windowHandleToWindow (Window.Handle w).

(** [func (w *Window) BringToForeground() error] *)
Definition BringToForeground (w : Window.t) : D (Window.t * option error) :=
  ok <~ os_call (SetForegroundWindow (Window.Handle w))
                (ret_SetForegroundWindow os) ;;
  if negb ok
  then dret (w, Some (errorString "SetForegroundWindow failed"))
  else
    w <~ Update w ;;
    dret (w, None).

(** The body shared by [Restore], [Maximize], [Minimize], [Hide] and
    [Show]: [w32.ShowWindow(w.Handle, cmd)], then [w.Update()]. *)
Definition showWindow (cmd : Z) (w : Window.t) : D Window.t :=
  os_call (ShowWindow (Window.Handle w) cmd) (fun _ => tt) ;;~
  Update w.

Definition Restore : Window.t -> D Window.t := showWindow SW_RESTORE.
Definition Maximize : Window.t -> D Window.t := showWindow SW_MAXIMIZE.
Definition Minimize : Window.t -> D Window.t := showWindow SW_MINIMIZE.
Definition Hide : Window.t -> D Window.t := showWindow SW_HIDE.
Definition Show_ : Window.t -> D Window.t := showWindow SW_SHOW.

Definition position_flags : Z :=
  Z.lor (Z.lor SWP_NOACTIVATE SWP_NOOWNERZORDER) SWP_NOZORDER.

(** [func (w *Window) OuterPosition() (x, y, width, height int, err error)] *)
Definition OuterPosition (w : Window.t)
    : D (Z * Z * Z * Z * option error) :=
  q <~ os_call (DwmGetWindowAttributeEXTENDED_FRAME_BOUNDS (Window.Handle w))
               (ret_DwmFrameBounds os) ;;
  let (ok, r) := q in
  r <~ (if negb ok
        then os_call (GetWindowRect (Window.Handle w)) (ret_GetWindowRect os)
        else dret r) ;;
  dret (Left r, Top r, RECT_Width r, RECT_Height r, None).

(** [func (w *Window) SetOuterPosition(x, y, width, height int) error] *)
Definition SetOuterPosition (w : Window.t) (x y width height : Z)
    : D (Window.t * option error) :=
  oldBounds <~ os_call (GetWindowRect (Window.Handle w))
                       (ret_GetWindowRect os) ;;
  q <~ os_call (DwmGetWindowAttributeEXTENDED_FRAME_BOUNDS (Window.Handle w))
               (ret_DwmFrameBounds os) ;;
  let (ok, newBounds) := q in
  let newBounds := if negb ok then oldBounds else newBounds in
  let dx := int32 (Left oldBounds - Left newBounds) in
  let dy := int32 (Top oldBounds - Top newBounds) in
  let dWidth := int32 (RECT_Width oldBounds - RECT_Width newBounds) in
  let dHeight := int32 (RECT_Height oldBounds - RECT_Height newBounds) in
  ok <~ os_call (SetWindowPos (Window.Handle w) 0
                   (int (x + dx)) (int (y + dy))
                   (int (width + dWidth)) (int (height + dHeight))
                   position_flags)
                (ret_SetWindowPos os) ;;
  if negb ok then dret (w, Some (errorString "SetWindowPos failed"))
  else
    w <~ Update w ;;
    dret (w, None).

(** [func (w *Window) SetInnerPosition(x, y, width, height int) error] *)
Definition SetInnerPosition (w : Window.t) (x y width height : Z)
    : D (Window.t * option error) :=
  let r := {| Left := int32 x; Top := int32 y;
              Right := int32 (int (x + width));
              Bottom := int32 (int (y + height)) |} in
  style <~ os_call (GetWindowLong (Window.Handle w) GWL_STYLE)
                   (ret_GetWindowLong os) ;;
  extendedStyle <~ os_call (GetWindowLong (Window.Handle w) GWL_EXSTYLE)
                           (ret_GetWindowLong os) ;;
  menu <~ os_call (GetMenu (Window.Handle w)) (ret_GetMenu os) ;;
  let hasMenu := negb (menu =? 0) in
  q <~ os_call (AdjustWindowRectEx r (style mod 2 ^ 64) hasMenu
                                   (extendedStyle mod 2 ^ 64))
               (ret_AdjustWindowRectEx os) ;;
  let (ok, r) := q in
  if negb ok then dret (w, Some (errorString "AdjustWindowRectEx failed"))
  else
    ok <~ os_call (SetWindowPos (Window.Handle w) 0
                     (Left r) (Top r) (RECT_Width r) (RECT_Height r)
                     position_flags)
                  (ret_SetWindowPos os) ;;
    if negb ok then dret (w, Some (errorString "SetWindowPos failed"))
    else
      w <~ Update w ;;
      dret (w, None).



(** *** Monitors *)

Definition rectangle_of (r : RECT) : Rectangle :=
  {| X := Left r; Y := Top r;
     Width := RECT_Width r; Height := RECT_Height r |}.

(** [func monitorHandleToMonitor(monitor w32.HMONITOR) (Monitor, error)] *)
Definition monitorHandleToMonitor (monitor : Z)
    : D (Monitor * option error) :=
  q <~ os_call (GetMonitorInfo monitor) (ret_GetMonitorInfo os) ;;
  let (ok, info) := q in
  if negb ok
  then dret (Monitor_zero, Some (errorString "GetMonitorInfo failed"))
  else
    dret ({| Rectangle_ := rectangle_of (RcMonitor info);
             WorkArea := rectangle_of (RcWork info);
             Primary :=
               negb (Z.land (DwFlags info) MONITORINFOF_PRIMARY =? 0) |},
          None).

(** [func PrimaryMonitor() (Monitor, error)] *)
Definition PrimaryMonitor : D (Monitor * option error) :=
  m <~ os_call (MonitorFromPoint 0 0 MONITOR_DEFAULTTOPRIMARY)
               (ret_MonitorFromPoint os) ;;
  if m =? 0
  then dret (Monitor_zero,
             Some (errorString
                     "MonitorFromPoint with MONITOR_DEFAULTTOPRIMARY failed"))
  else monitorHandleToMonitor m.

(** The loop [for i := range monitors] of [Monitors]: the monitors built
    so far are dropped at the first error. *)
Fixpoint monitorsOf (handles : list Z)
    : D (option (list Monitor) * option error) :=
  match handles with
  | [] => dret (Some [], None)
  | h :: handles =>
      q <~ monitorHandleToMonitor h ;;
      match snd q with
      | Some err => dret (None, Some err)
      | None =>
          r <~ monitorsOf handles ;;
          match fst r with
          | Some ms => dret (Some (fst q :: ms), None)
          | None => dret r
          end
      end
  end.

(** [func Monitors() ([]Monitor, error)] *)
Definition Monitors : D (option (list Monitor) * option error) :=
  q <~ os_call EnumDisplayMonitors (ret_EnumDisplayMonitors os) ;;
  let (handles, ok) := q in
  if negb ok then dret (None, Some (errorString "EnumDisplayMonitors failed"))
  else monitorsOf handles.

(** *** Message boxes *)

(** The two [strings.ReplaceAll] of [ShowMessage]. *)
Definition windows_line_breaks (message : list Z) : list Z :=
  Replace (Replace message [13] []) [10] [13; 10].

(** [func ShowMessage(caption, message string)] *)
Definition ShowMessage (caption message : string) : D unit :=
  os_call (MessageBox 0 (windows_line_breaks (bytes_of_string message))
                      (bytes_of_string caption)
                      (Z.lor (Z.lor MB_OK MB_TOPMOST) MB_ICONINFORMATION))
          (fun _ => tt).

End Code.

End Desktop.

(** Text in which carriage return and line feed occur only as the pair
    "\r\n". *)
Inductive crlf_only : list Z -> Prop :=
| crlf_nil : crlf_only []
| crlf_break (s : list Z) : crlf_only s -> crlf_only (13 :: 10 :: s)
| crlf_other (b : Z) (s : list Z) :
    b <> 13 -> b <> 10 -> crlf_only s -> crlf_only (b :: s).

Definition is_SetCursorPos (c : Desktop.call) : bool :=
  match c with Desktop.SetCursorPos _ _ => true | _ => false end.

Definition is_desktop_SendInput (c : Desktop.call) : bool :=
  match c with Desktop.SendInput _ => true | _ => false end.

Definition is_GetMonitorInfo (c : Desktop.call) : bool :=
  match c with Desktop.GetMonitorInfo _ => true | _ => false end.

(** A desktop that answers every call with the same values. *)
Definition sample_rect : Desktop.RECT :=
  {| Desktop.Left := 10; Desktop.Top := 20;
     Desktop.Right := 810; Desktop.Bottom := 620 |}.

Definition sample_desktop (ok : bool) (showCmd : Z) : Desktop.OS :=
  {| Desktop.ret_SetCursorPos := fun _ => ok;
     Desktop.ret_GetCursorPos := fun _ => (100, 200, ok);
     Desktop.ret_SendInput := fun _ inputs => Z.of_nat (List.length inputs);
     Desktop.ret_GetForegroundWindow := fun _ => if ok then 42 else 0;
     Desktop.ret_SetForegroundWindow := fun _ => ok;
     Desktop.ret_GetClassName := fun _ => "Notepad"%string;
     Desktop.ret_GetWindowRect := fun _ => sample_rect;
     Desktop.ret_GetClientRect := fun _ => sample_rect;
     Desktop.ret_ClientToScreen := fun _ => (18, 51);
     Desktop.ret_GetWindowPlacement := fun _ => showCmd;
     Desktop.ret_IsWindowVisible := fun _ => true;
     Desktop.ret_GetWindowText := fun _ => "Untitled"%string;
     Desktop.ret_DwmFrameBounds := fun _ => (ok, sample_rect);
     Desktop.ret_GetWindowLong := fun _ => 0;
     Desktop.ret_GetMenu := fun _ => 0;
     Desktop.ret_AdjustWindowRectEx := fun _ => (ok, sample_rect);
     Desktop.ret_SetWindowPos := fun _ => ok;
     Desktop.ret_EnumWindows := fun _ => ([42; 43], ok);
     Desktop.ret_MonitorFromPoint := fun _ => if ok then 7 else 0;
     Desktop.ret_EnumDisplayMonitors := fun _ => ([7; 8], true);
     Desktop.ret_GetMonitorInfo :=
       fun l => (ok || (List.length l <? 2)%nat,
                 {| Desktop.RcMonitor := sample_rect;
                    Desktop.RcWork := sample_rect;
                    Desktop.DwFlags := 1 |}) |}.

(** A byte that is neither a carriage return nor a line feed. *)
Definition plain_byte (b : Z) : bool := negb (10 =? b) && negb (13 =? b).

(** [w'] is [w], or what [windowHandleToWindow] builds for [w]'s handle. *)
Definition refreshed (os : Desktop.OS) (w w' : Window.t) : Prop :=
  w' = w
  \/ exists l, w' = fst (Desktop.drun (Desktop.windowHandleToWindow os
                                         (Window.Handle w)) l).

(* ================================================================== *)
(** * Properties *)

Unset Implicit Arguments.

(** ** The event model *)

Lemma KeyboardEvent_Cancel_iter (n : nat) (e : KeyboardEvent.t) :
  Nat.iter (S n) KeyboardEvent.Cancel e = KeyboardEvent.Cancel e.
Proof.
  induction n as [|n IH]; [reflexivity|].
  change (Nat.iter (S (S n)) KeyboardEvent.Cancel e)
    with (KeyboardEvent.Cancel (Nat.iter (S n) KeyboardEvent.Cancel e)).
  rewrite IH. reflexivity.
Qed.

Lemma MouseEvent_Cancel_iter (n : nat) (e : MouseEvent.t) :
  Nat.iter (S n) MouseEvent.Cancel e = MouseEvent.Cancel e.
Proof.
  induction n as [|n IH]; [reflexivity|].
  change (Nat.iter (S (S n)) MouseEvent.Cancel e)
    with (MouseEvent.Cancel (Nat.iter (S n) MouseEvent.Cancel e)).
  rewrite IH. reflexivity.
Qed.

(** C6.  On a [KeyboardEvent] and on a [MouseEvent], one or more calls of
    [Cancel] leave the cancellation flag true; a further call changes
    nothing; and every other field ([Key], [Down], [Injected], respectively
    [Type], [X], [Y], [Wheel], [Injected]) keeps the value it had. *)
Theorem Cancel_idempotent_and_frame :
  forall (n : nat) (k : KeyboardEvent.t) (m : MouseEvent.t),
    let k' := Nat.iter (S n) KeyboardEvent.Cancel k in
    let m' := Nat.iter (S n) MouseEvent.Cancel m in
    (KeyboardEvent.cancelled k' = true
     /\ KeyboardEvent.Cancel k' = k'
     /\ KeyboardEvent.Key k' = KeyboardEvent.Key k
     /\ KeyboardEvent.Down k' = KeyboardEvent.Down k
     /\ KeyboardEvent.Injected k' = KeyboardEvent.Injected k)
    /\
    (MouseEvent.cancelled m' = true
     /\ MouseEvent.Cancel m' = m'
     /\ MouseEvent.Type_ m' = MouseEvent.Type_ m
     /\ MouseEvent.X m' = MouseEvent.X m
     /\ MouseEvent.Y m' = MouseEvent.Y m
     /\ MouseEvent.Wheel m' = MouseEvent.Wheel m
     /\ MouseEvent.Injected m' = MouseEvent.Injected m).
Proof.
  intros n k m k' m'; subst k' m'.
  rewrite KeyboardEvent_Cancel_iter, MouseEvent_Cancel_iter.
  destruct k, m; cbn. repeat split.
Qed.

(** ** Reading the raw hook records *)

Lemma land_pow2_eqb (x n : Z) :
  0 <= n -> (Z.land x (2 ^ n) =? 0) = negb (Z.testbit x n).
Proof.
  intros Hn. destruct (Z.testbit x n) eqn:E; cbn.
  - apply Z.eqb_neq. intros H0.
    assert (Hb : Z.testbit (Z.land x (2 ^ n)) n = true)
      by (rewrite Z.land_spec, E, Z.pow2_bits_true by assumption;
          reflexivity).
    rewrite H0, Z.bits_0 in Hb. discriminate.
  - apply Z.eqb_eq. apply Z.bits_inj'. intros m Hm.
    rewrite Z.land_spec, Z.bits_0.
    destruct (Z.eq_dec n m) as [->|Hne].
    + rewrite E. reflexivity.
    + rewrite Z.pow2_bits_false by assumption. apply andb_false_r.
Qed.

Lemma newKeyboardEvent_fields (kb : w32.KBDLLHOOKSTRUCT) :
  newKeyboardEvent kb =
  KeyboardEvent.mk (w32.VkCode kb mod 2 ^ 16)
                   (negb (Z.testbit (w32.kbFlags kb) 7))
                   (Z.testbit (w32.kbFlags kb) 4)
                   false.
Proof.
  unfold newKeyboardEvent, uint16.
  change 0x80 with (2 ^ 7). change 0x10 with (2 ^ 4).
  rewrite !land_pow2_eqb by lia. rewrite negb_involutive. reflexivity.
Qed.

(** C8.  The event the keyboard hook procedure builds from a raw record
    has [Key] the virtual key code truncated to 16 bits, [Down] true
    exactly when bit 0x80 (bit 7) of the record's flags is clear,
    [Injected] true exactly when bit 0x10 (bit 4) is set, and the
    cancellation flag clear; called with a non-negative code while a
    callback is set, the procedure hands exactly that event to the
    callback. *)
Theorem keyboard_event_from_record :
  forall (os : OS) (v : loop_vars) (f : keyboard_callback)
         (code w l : Z) (kb : w32.KBDLLHOOKSTRUCT) (lg : log),
    0 <= code ->
    keyboardCallback v = Some f ->
    let e := newKeyboardEvent kb in
    KeyboardEvent.Key e = w32.VkCode kb mod 2 ^ 16
    /\ KeyboardEvent.Down e = negb (Z.testbit (w32.kbFlags kb) 7)
    /\ KeyboardEvent.Injected e = Z.testbit (w32.kbFlags kb) 4
    /\ KeyboardEvent.cancelled e = false
    /\ exists rest,
         snd (run (keyboardProc os v code w l kb) lg) =
         rest ++ CallKeyboardCallback e :: lg
         /\ forall e', In (CallKeyboardCallback e') rest -> False.
Proof.
  intros os v f code w l kb lg Hc Hf e. subst e.
  rewrite newKeyboardEvent_fields. cbn [KeyboardEvent.Key KeyboardEvent.Down
    KeyboardEvent.Injected KeyboardEvent.cancelled].
  repeat (split; [reflexivity|]).
  unfold keyboardProc, run. apply Z.leb_le in Hc. rewrite Hc, Hf.
  rewrite newKeyboardEvent_fields.
  unfold bind, syscall, ret.
  destruct (KeyboardEvent.cancelled _).
  - exists []. split; [reflexivity|]. intros e' [].
  - exists [CallNextHookEx 0 code w l]. split; [reflexivity|].
    intros e' [H|[]]. discriminate H.
Qed.

Lemma keyboard_event_from_record_witness :
  KeyboardEvent.Key (newKeyboardEvent sample_kb) = 0x41
  /\ KeyboardEvent.Down (newKeyboardEvent sample_kb) = false
  /\ KeyboardEvent.Injected (newKeyboardEvent sample_kb) = true
  /\ KeyboardEvent.cancelled (newKeyboardEvent sample_kb) = false
  /\ exists rest,
       snd (run (keyboardProc os_ok (vars_with (Some watch_keys) None)
                              0 0x100 0 sample_kb) []) =
       rest ++ CallKeyboardCallback (newKeyboardEvent sample_kb) :: []
       /\ forall e', In (CallKeyboardCallback e') rest -> False.
Proof.
  apply (keyboard_event_from_record os_ok
           (vars_with (Some watch_keys) None) watch_keys 0 0x100 0
           sample_kb []).
  - lia.
  - reflexivity.
Defined.

(** ** The mouse event *)

Lemma newMouseEvent_run (os : OS) (w : Z) (ms : w32.MSLLHOOKSTRUCT)
    (lg : log) :
  run (newMouseEvent os w ms) lg =
  (let '(x, y, ok) := ret_GetCursorPos os lg in
   {| MouseEvent.Type_ := w;
      MouseEvent.X := if ok then x else w32.ptX (w32.Pt ms);
      MouseEvent.Y := if ok then y else w32.ptY (w32.Pt ms);
      MouseEvent.Wheel := wheelOf w ms;
      MouseEvent.Injected := negb (Z.land (w32.msFlags ms) 1 =? 0);
      MouseEvent.cancelled := false |},
   GetCursorPos :: lg).
Proof.
  unfold run, newMouseEvent, MousePosition, bind, syscall, ret.
  destruct (ret_GetCursorPos os lg) as [[x y] ok].
  destruct ok; reflexivity.
Qed.

Lemma float_one_not_zero : 1%float <> 0%float.
Proof.
  intros H.
  assert (E : PrimFloat.eqb 1%float 1%float = PrimFloat.eqb 0%float 1%float)
    by (rewrite H; reflexivity).
  vm_compute in E. discriminate E.
Qed.

(** The high word of a 32-bit [MouseData], as [wheelOf] extracts it. *)
Lemma high_word (d : Z) :
  Z.shiftr (Z.land d 0xFFFF0000) 16 = (d / 2 ^ 16) mod 2 ^ 16.
Proof.
  change 0xFFFF0000 with (Z.shiftl (Z.ones 16) 16).
  rewrite Z.shiftr_land, Z.shiftr_shiftl_l by lia.
  rewrite Z.sub_diag, Z.shiftl_0_r, Z.land_ones, Z.shiftr_div_pow2 by lia.
  reflexivity.
Qed.

(** C2.  What the code does: the event built by the mouse hook procedure
    has [Wheel] equal to the signed 16-bit high word of [MouseData] divided
    by 120 for [MouseWheel] and [MouseWheelHorizontal], and equal to 1, not
    0, for every other event type, among them the six button types and
    [MouseMove]. *)
Theorem mouse_event_wheel :
  forall (os : OS) (w : Z) (ms : w32.MSLLHOOKSTRUCT) (lg : log),
    MouseEvent.Wheel (fst (run (newMouseEvent os w ms) lg)) =
      (if (w =? MouseWheel) || (w =? MouseWheelHorizontal)
       then PrimFloat.div
              (float64 (int16 ((w32.MouseData ms / 2 ^ 16) mod 2 ^ 16)))
              120%float
       else 1%float)
    /\ Forall
         (fun t =>
            MouseEvent.Wheel (fst (run (newMouseEvent os t ms) lg))
            = 1%float)
         [LeftMouseDown; LeftMouseUp; RightMouseDown; RightMouseUp;
          MiddleMouseDown; MiddleMouseUp; MouseMove]
    /\ 1%float <> 0%float.
Proof.
  intros os w ms lg. split; [|split].
  - rewrite newMouseEvent_run.
    destruct (ret_GetCursorPos os lg) as [[x y] ok]. cbn [fst MouseEvent.Wheel].
    unfold wheelOf, MouseWheel, MouseWheelHorizontal.
    rewrite high_word. reflexivity.
  - repeat constructor; rewrite newMouseEvent_run;
      destruct (ret_GetCursorPos os lg) as [[x y] ok]; reflexivity.
  - exact float_one_not_zero.
Qed.

(** C5.  The event built by the mouse hook procedure carries the
    coordinates answered by the cursor-position query when the query
    succeeds and the coordinates of the raw hook record when it fails;
    [MousePosition] reports the failure as an error, and in both cases the
    callback is called, with that event and nothing else. *)
Theorem mouse_event_coordinates :
  forall (os : OS) (v : loop_vars) (f : mouse_callback)
         (code w l : Z) (ms : w32.MSLLHOOKSTRUCT) (lg : log) (x y : Z)
         (ok : bool),
    0 <= code ->
    mouseCallback v = Some f ->
    ret_GetCursorPos os lg = (x, y, ok) ->
    let e := fst (run (newMouseEvent os w ms) lg) in
    (ok = true -> MouseEvent.X e = x /\ MouseEvent.Y e = y)
    /\ (ok = false ->
        MouseEvent.X e = w32.ptX (w32.Pt ms)
        /\ MouseEvent.Y e = w32.ptY (w32.Pt ms)
        /\ exists err, fst (run (MousePosition os) lg) = (0, 0, Some err))
    /\ exists rest,
         snd (run (mouseProc os v code w l ms) lg) =
         rest ++ [CallMouseCallback e; GetCursorPos] ++ lg
         /\ forall e', In (CallMouseCallback e') rest -> False.
Proof.
  intros os v f code w l ms lg x y ok Hc Hf Hq e. subst e.
  split; [|split].
  - intros ->. rewrite newMouseEvent_run, Hq. cbn. auto.
  - intros ->. rewrite newMouseEvent_run, Hq. cbn.
    repeat split.
    unfold run, MousePosition, bind, syscall, ret. rewrite Hq. cbn.
    eexists. reflexivity.
  - unfold mouseProc, run, bind. apply Z.leb_le in Hc. rewrite Hc.
    pose proof (newMouseEvent_run os w ms lg) as Hn. unfold run in Hn.
    rewrite Hn. cbn [fst]. rewrite Hf.
    unfold syscall, ret.
    destruct (MouseEvent.cancelled _).
    + exists []. split; [reflexivity|]. intros e' [].
    + exists [CallNextHookEx 0 code w l]. split; [reflexivity|].
      intros e' [H|[]]. discriminate H.
Qed.

Lemma mouse_event_coordinates_witness :
  (false = true ->
   MouseEvent.X (fst (run (newMouseEvent os_no_cursor MouseMove sample_ms) []))
   = 0
   /\ MouseEvent.Y
        (fst (run (newMouseEvent os_no_cursor MouseMove sample_ms) [])) = 0)
  /\ (false = false ->
      MouseEvent.X
        (fst (run (newMouseEvent os_no_cursor MouseMove sample_ms) [])) = -5
      /\ MouseEvent.Y
           (fst (run (newMouseEvent os_no_cursor MouseMove sample_ms) [])) = 7
      /\ exists err,
           fst (run (MousePosition os_no_cursor) []) = (0, 0, Some err))
  /\ exists rest,
       snd (run (mouseProc os_no_cursor (vars_with None (Some watch_mouse))
                           0 MouseMove 0 sample_ms) []) =
       rest
       ++ [CallMouseCallback
             (fst (run (newMouseEvent os_no_cursor MouseMove sample_ms) []));
           GetCursorPos] ++ []
       /\ forall e', In (CallMouseCallback e') rest -> False.
Proof.
  apply (mouse_event_coordinates os_no_cursor
           (vars_with None (Some watch_mouse)) watch_mouse
           0 MouseMove 0 sample_ms [] 0 0 false).
  - lia.
  - reflexivity.
  - reflexivity.
Defined.

(** ** Cancelling an event *)

(** C3.  A keyboard or mouse hook procedure called with a non-negative
    code: when the callback leaves the event's cancellation flag set, the
    procedure returns 1 and does not call [CallNextHookEx]; when the flag
    is clear after the callback (or no callback is set), it calls
    [CallNextHookEx] exactly once, last, and returns what that returns. *)
Theorem hook_cancellation :
  forall (os : OS) (v : loop_vars) (code w l : Z)
         (kb : w32.KBDLLHOOKSTRUCT) (ms : w32.MSLLHOOKSTRUCT) (lg : log),
    0 <= code ->
    let ke := match keyboardCallback v with
              | Some f => f (newKeyboardEvent kb)
              | None => newKeyboardEvent kb
              end in
    let me := match mouseCallback v with
              | Some f => f (fst (run (newMouseEvent os w ms) lg))
              | None => fst (run (newMouseEvent os w ms) lg)
              end in
    let kr := run (keyboardProc os v code w l kb) lg in
    let mr := run (mouseProc os v code w l ms) lg in
    let calls := count_occ_action is_CallNextHookEx in
    (KeyboardEvent.cancelled ke = true ->
     fst kr = 1 /\ calls (snd kr) = calls lg)
    /\ (KeyboardEvent.cancelled ke = false ->
        exists before,
          kr = (ret_CallNextHookEx os before code w l,
                CallNextHookEx 0 code w l :: before)
          /\ calls (snd kr) = S (calls lg))
    /\ (MouseEvent.cancelled me = true ->
        fst mr = 1 /\ calls (snd mr) = calls lg)
    /\ (MouseEvent.cancelled me = false ->
        exists before,
          mr = (ret_CallNextHookEx os before code w l,
                CallNextHookEx 0 code w l :: before)
          /\ calls (snd mr) = S (calls lg)).
Proof.
  intros os v code w l kb ms lg Hc ke me kr mr calls.
  subst ke me kr mr calls.
  apply Z.leb_le in Hc.
  pose proof (newMouseEvent_run os w ms lg) as Hn. unfold run in Hn.
  unfold keyboardProc, mouseProc, run, bind. rewrite Hc, Hn. cbn [fst].
  unfold syscall, ret, count_occ_action.
  split; [|split; [|split]].
  - destruct (keyboardCallback v); intros ->; split; reflexivity.
  - destruct (keyboardCallback v); intros ->;
      eexists; (split; [reflexivity|reflexivity]).
  - destruct (mouseCallback v); intros ->; split; reflexivity.
  - destruct (mouseCallback v); intros ->;
      eexists; (split; [reflexivity|reflexivity]).
Qed.

Lemma hook_cancellation_witness :
  (true = true ->
   fst (run (keyboardProc os_ok
               (vars_with (Some cancel_keys) (Some watch_mouse))
               0 0x100 0 sample_kb) []) = 1
   /\ count_occ_action is_CallNextHookEx
        (snd (run (keyboardProc os_ok
                     (vars_with (Some cancel_keys) (Some watch_mouse))
                     0 0x100 0 sample_kb) [])) = 0%nat)
  /\ (false = false ->
      exists before,
        run (mouseProc os_ok
               (vars_with (Some cancel_keys) (Some watch_mouse))
               0 MouseMove 0 sample_ms) [] =
        (0, CallNextHookEx 0 0 MouseMove 0 :: before)
        /\ count_occ_action is_CallNextHookEx
             (snd (run (mouseProc os_ok
                          (vars_with (Some cancel_keys) (Some watch_mouse))
                          0 MouseMove 0 sample_ms) [])) = 1%nat).
Proof.
  pose proof (hook_cancellation os_ok
                (vars_with (Some cancel_keys) (Some watch_mouse))
                0 0x100 0 sample_kb sample_ms [] ltac:(lia)) as H.
  pose proof (hook_cancellation os_ok
                (vars_with (Some cancel_keys) (Some watch_mouse))
                0 MouseMove 0 sample_kb sample_ms [] ltac:(lia)) as H'.
  split.
  - exact (proj1 H).
  - exact (proj2 (proj2 (proj2 H'))).
Defined.

(** ** The hook state machine *)

Ltac run_hook :=
  unfold run, hookKeyboard, hookMouse, hookClipboard,
    bind, syscall, ret; cbn.

Lemma hookKeyboard_balanced (os : OS) (v : loop_vars) (lg : log) :
  is_nil (keyboardCallback v) = (keyboardHook v =? 0) ->
  run (hookKeyboard os v) lg = (v, lg).
Proof.
  intros H. run_hook. rewrite H, eqb_reflx. reflexivity.
Qed.

Lemma hookMouse_balanced (os : OS) (v : loop_vars) (lg : log) :
  is_nil (mouseCallback v) = (mouseHook v =? 0) ->
  run (hookMouse os v) lg = (v, lg).
Proof.
  intros H. run_hook. rewrite H, eqb_reflx. reflexivity.
Qed.

Lemma hookClipboard_balanced (os : OS) (v : loop_vars) (lg : log) :
  is_nil (clipboardCallback v) = (clipboardWindow v =? 0) ->
  run (hookClipboard os v) lg = (v, lg).
Proof.
  intros H. run_hook. rewrite H, eqb_reflx. reflexivity.
Qed.

(** Each hook function touches its own handle only, and leaves that handle
    absent where the callback is absent. *)
Lemma hookMouse_fields (os : OS) (v : loop_vars) (lg : log) :
  let v' := fst (run (hookMouse os v) lg) in
  keyboardCallback v' = keyboardCallback v
  /\ mouseCallback v' = mouseCallback v
  /\ clipboardCallback v' = clipboardCallback v
  /\ keyboardHook v' = keyboardHook v
  /\ clipboardWindow v' = clipboardWindow v
  /\ (is_nil (mouseCallback v) = true -> mouseHook v' = 0).
Proof.
  unfold run, hookMouse, bind, syscall, ret.
  destruct (is_nil (mouseCallback v)) eqn:Ec, (mouseHook v =? 0) eqn:Eh;
    cbn; repeat split; try discriminate.
  intros _. apply Z.eqb_eq. exact Eh.
Qed.

Lemma hookKeyboard_fields (os : OS) (v : loop_vars) (lg : log) :
  let v' := fst (run (hookKeyboard os v) lg) in
  keyboardCallback v' = keyboardCallback v
  /\ mouseCallback v' = mouseCallback v
  /\ clipboardCallback v' = clipboardCallback v
  /\ mouseHook v' = mouseHook v
  /\ clipboardWindow v' = clipboardWindow v
  /\ (is_nil (keyboardCallback v) = true -> keyboardHook v' = 0).
Proof.
  unfold run, hookKeyboard, bind, syscall, ret.
  destruct (is_nil (keyboardCallback v)) eqn:Ec,
           (keyboardHook v =? 0) eqn:Eh;
    cbn; repeat split; try discriminate.
  intros _. apply Z.eqb_eq. exact Eh.
Qed.

Lemma hookClipboard_fields (os : OS) (v : loop_vars) (lg : log) :
  let v' := fst (run (hookClipboard os v) lg) in
  keyboardCallback v' = keyboardCallback v
  /\ mouseCallback v' = mouseCallback v
  /\ clipboardCallback v' = clipboardCallback v
  /\ keyboardHook v' = keyboardHook v
  /\ mouseHook v' = mouseHook v
  /\ (is_nil (clipboardCallback v) = true -> clipboardWindow v' = 0).
Proof.
  unfold run, hookClipboard, bind, syscall, ret.
  destruct (is_nil (clipboardCallback v)) eqn:Ec,
           (clipboardWindow v =? 0) eqn:Eh;
    cbn; repeat split; try discriminate.
  intros _. apply Z.eqb_eq. exact Eh.
Qed.

Lemma set_callbacks_same (ev : events) (v : loop_vars) :
  keyboardCallback v = keyboard ev ->
  mouseCallback v = mouse ev ->
  clipboardCallback v = clipboard ev ->
  set_callbacks ev v = v.
Proof.
  destruct v, ev; cbn; intros -> -> ->; reflexivity.
Qed.

Lemma presence_balanced (A : Type) (cb : option A) (h : Z) :
  (is_nil cb = true -> h = 0) ->
  (is_nil cb = false -> h <> 0) ->
  is_nil cb = (h =? 0).
Proof.
  intros H0 H1. destruct (is_nil cb).
  - rewrite H0; reflexivity.
  - symmetry. apply Z.eqb_neq. auto.
Qed.

(** A second run of [reconcile] on the same snapshot does nothing, unless
    an installation of the first run failed. *)
Lemma reconcile_twice (os : OS) (ev : events) (v : loop_vars) (lg : log) :
  let r := run (reconcile os ev v) lg in
  (is_nil (keyboard ev) = false -> keyboardHook (fst r) <> 0) ->
  (is_nil (mouse ev) = false -> mouseHook (fst r) <> 0) ->
  (is_nil (clipboard ev) = false -> clipboardWindow (fst r) <> 0) ->
  run (reconcile os ev (fst r)) (snd r) = r.
Proof.
  unfold run, reconcile, bind.
  pose proof (hookMouse_fields os (set_callbacks ev v) lg) as F1.
  unfold run in F1.
  destruct (hookMouse os (set_callbacks ev v) lg) as [v1 l1].
  pose proof (hookKeyboard_fields os v1 l1) as F2. unfold run in F2.
  destruct (hookKeyboard os v1 l1) as [v2 l2].
  pose proof (hookClipboard_fields os v2 l2) as F3. unfold run in F3.
  destruct (hookClipboard os v2 l2) as [v3 l3].
  cbn [fst snd] in *.
  destruct F1 as (A1 & B1 & C1 & D1 & E1 & Z1).
  destruct F2 as (A2 & B2 & C2 & D2 & E2 & Z2).
  destruct F3 as (A3 & B3 & C3 & D3 & E3 & Z3).
  cbn [set_callbacks keyboardCallback mouseCallback clipboardCallback
       keyboardHook mouseHook clipboardWindow] in *.
  intros Hk Hm Hc.
  assert (Ek : keyboardCallback v3 = keyboard ev) by congruence.
  assert (Em : mouseCallback v3 = mouse ev) by congruence.
  assert (Ec : clipboardCallback v3 = clipboard ev) by congruence.
  rewrite (set_callbacks_same ev v3 Ek Em Ec).
  pose proof (hookMouse_balanced os v3 l3) as R1. unfold run in R1.
  rewrite R1.
  - pose proof (hookKeyboard_balanced os v3 l3) as R2. unfold run in R2.
    rewrite R2.
    + apply (hookClipboard_balanced os v3 l3).
      apply presence_balanced; rewrite Ec; [|exact Hc].
      intros H. apply Z3. congruence.
    + apply presence_balanced; rewrite Ek; [|exact Hk].
      intros H. rewrite D3. apply Z2. congruence.
  - apply presence_balanced; rewrite Em; [|exact Hm].
    intros H. rewrite E3, D2. apply Z1. exact H.
Qed.

(** C4.  One run of the hook state machine, category by category.
    (1) Callback presence equal to handle presence: no call to the
    operating system, nothing changes.  (2) Callback present, handle
    absent: the hook (respectively the listener window) is installed and
    the handle returned is recorded.  (3) Handle present, callback absent:
    the hook (the listener and its window) is removed and the handle
    cleared.  (4) So when a run has left the handle of a present callback
    installed, a snapshot that names a callback in the same categories
    again causes no further call. *)
Theorem hook_state_machine :
  forall (os : OS) (v : loop_vars) (lg : log),
    (* keyboard *)
    ((is_nil (keyboardCallback v) = (keyboardHook v =? 0) ->
      run (hookKeyboard os v) lg = (v, lg))
     /\ (is_nil (keyboardCallback v) = false -> keyboardHook v = 0 ->
         run (hookKeyboard os v) lg =
         (set_keyboardHook
            (ret_SetWindowsHookEx os (GetModuleHandle "" :: lg)
                                  w32.WH_KEYBOARD_LL) v,
          SetWindowsHookEx w32.WH_KEYBOARD_LL (ret_GetModuleHandle os lg)
          :: GetModuleHandle "" :: lg))
     /\ (is_nil (keyboardCallback v) = true -> keyboardHook v <> 0 ->
         run (hookKeyboard os v) lg =
         (set_keyboardHook 0 v,
          UnhookWindowsHookEx (keyboardHook v) :: lg)))
    (* mouse *)
    /\ ((is_nil (mouseCallback v) = (mouseHook v =? 0) ->
         run (hookMouse os v) lg = (v, lg))
        /\ (is_nil (mouseCallback v) = false -> mouseHook v = 0 ->
            run (hookMouse os v) lg =
            (set_mouseHook
               (ret_SetWindowsHookEx os (GetModuleHandle "" :: lg)
                                     w32.WH_MOUSE_LL) v,
             SetWindowsHookEx w32.WH_MOUSE_LL (ret_GetModuleHandle os lg)
             :: GetModuleHandle "" :: lg))
        /\ (is_nil (mouseCallback v) = true -> mouseHook v <> 0 ->
            run (hookMouse os v) lg =
            (set_mouseHook 0 v, UnhookWindowsHookEx (mouseHook v) :: lg)))
    (* clipboard *)
    /\ ((is_nil (clipboardCallback v) = (clipboardWindow v =? 0) ->
         run (hookClipboard os v) lg = (v, lg))
        /\ (is_nil (clipboardCallback v) = false -> clipboardWindow v = 0 ->
            let h := ret_CreateWindowEx os
                       (RegisterClassEx clipboard_class :: lg) in
            run (hookClipboard os v) lg =
            (set_clipboardWindow h v,
             AddClipboardFormatListener h
             :: CreateWindowEx clipboard_class w32.HWND_MESSAGE
             :: RegisterClassEx clipboard_class :: lg))
        /\ (is_nil (clipboardCallback v) = true -> clipboardWindow v <> 0 ->
            run (hookClipboard os v) lg =
            (set_clipboardWindow 0 v,
             DestroyWindow (clipboardWindow v)
             :: RemoveClipboardFormatListener (clipboardWindow v) :: lg)))
    (* registering again *)
    /\ (forall ev : events,
          let r := run (reconcile os ev v) lg in
          (is_nil (keyboard ev) = false -> keyboardHook (fst r) <> 0) ->
          (is_nil (mouse ev) = false -> mouseHook (fst r) <> 0) ->
          (is_nil (clipboard ev) = false -> clipboardWindow (fst r) <> 0) ->
          run (reconcile os ev (fst r)) (snd r) = r).
Proof.
  intros os v lg.
  split; [|split; [|split]].
  - split; [apply hookKeyboard_balanced|split].
    + intros Hc Hh. run_hook. rewrite Hc, Hh. reflexivity.
    + intros Hc Hh. run_hook. apply Z.eqb_neq in Hh. rewrite Hc, Hh.
      reflexivity.
  - split; [apply hookMouse_balanced|split].
    + intros Hc Hh. run_hook. rewrite Hc, Hh. reflexivity.
    + intros Hc Hh. run_hook. apply Z.eqb_neq in Hh. rewrite Hc, Hh.
      reflexivity.
  - split; [apply hookClipboard_balanced|split].
    + intros Hc Hh. run_hook. rewrite Hc, Hh. reflexivity.
    + intros Hc Hh. run_hook. apply Z.eqb_neq in Hh. rewrite Hc, Hh.
      reflexivity.
  - intros ev. apply reconcile_twice.
Qed.

(** [reconcile] run on an operating system that answers every installation
    with a handle. *)
Example reconcile_installs_once :
  let ev := {| keyboard := Some watch_keys; mouse := None;
               clipboard := None |} in
  let r := run (reconcile os_ok ev loop_vars0) [] in
  snd r = [SetWindowsHookEx w32.WH_KEYBOARD_LL 0x400000; GetModuleHandle ""]
  /\ keyboardHook (fst r) = 77
  /\ run (reconcile os_ok ev (fst r)) (snd r) = r.
Proof. repeat split. Qed.

(** On one that refuses, the handle stays absent and the next run of
    [reconcile] asks again. *)
Example reconcile_asks_again_after_refusal :
  let ev := {| keyboard := Some watch_keys; mouse := None;
               clipboard := None |} in
  let r := run (reconcile os_refusing ev loop_vars0) [] in
  keyboardHook (fst r) = 0
  /\ snd (run (reconcile os_refusing ev (fst r)) (snd r)) =
     [SetWindowsHookEx w32.WH_KEYBOARD_LL 0x400000; GetModuleHandle "";
      SetWindowsHookEx w32.WH_KEYBOARD_LL 0x400000; GetModuleHandle ""].
Proof. repeat split. Qed.

(** ** The pump loop and the snapshot *)

Lemma loop_receive_all_nil (os : OS) (ev : events) (s : loop_state)
    (lg : log) :
  allNil ev = true ->
  run (loop_receive os ev s) lg = ({| pc := AwaitNonNil; vars := vars s |}, lg).
Proof.
  intros H. unfold run, loop_receive. rewrite H. reflexivity.
Qed.

Lemma hookMouse_present (os : OS) (v : loop_vars) (lg : log) :
  (forall l id, ret_SetWindowsHookEx os l id <> 0) ->
  is_nil (mouseCallback v) = false ->
  mouseHook (fst (run (hookMouse os v) lg)) <> 0.
Proof.
  intros Hos Hc. unfold run, hookMouse, bind, syscall, ret. rewrite Hc.
  destruct (mouseHook v =? 0) eqn:Eh; cbn.
  - apply Hos.
  - apply Z.eqb_neq. exact Eh.
Qed.

Lemma hookKeyboard_present (os : OS) (v : loop_vars) (lg : log) :
  (forall l id, ret_SetWindowsHookEx os l id <> 0) ->
  is_nil (keyboardCallback v) = false ->
  keyboardHook (fst (run (hookKeyboard os v) lg)) <> 0.
Proof.
  intros Hos Hc. unfold run, hookKeyboard, bind, syscall, ret. rewrite Hc.
  destruct (keyboardHook v =? 0) eqn:Eh; cbn.
  - apply Hos.
  - apply Z.eqb_neq. exact Eh.
Qed.

Lemma hookClipboard_present (os : OS) (v : loop_vars) (lg : log) :
  (forall l, ret_CreateWindowEx os l <> 0) ->
  is_nil (clipboardCallback v) = false ->
  clipboardWindow (fst (run (hookClipboard os v) lg)) <> 0.
Proof.
  intros Hos Hc. unfold run, hookClipboard, bind, syscall, ret. rewrite Hc.
  destruct (clipboardWindow v =? 0) eqn:Eh; cbn.
  - apply Hos.
  - apply Z.eqb_neq. exact Eh.
Qed.

(** Where the invariant "handle present iff callback present" does hold
    after a receive: the snapshot names at least one callback and the
    operating system grants every installation. *)
Lemma loop_receive_reconciles (os : OS) (ev : events) (s : loop_state)
    (lg : log) :
  (forall l id, ret_SetWindowsHookEx os l id <> 0) ->
  (forall l, ret_CreateWindowEx os l <> 0) ->
  allNil ev = false ->
  let s' := fst (run (loop_receive os ev s) lg) in
  pc s' = AtSelect
  /\ keyboardCallback (vars s') = keyboard ev
  /\ mouseCallback (vars s') = mouse ev
  /\ clipboardCallback (vars s') = clipboard ev
  /\ is_nil (keyboard ev) = (keyboardHook (vars s') =? 0)
  /\ is_nil (mouse ev) = (mouseHook (vars s') =? 0)
  /\ is_nil (clipboard ev) = (clipboardWindow (vars s') =? 0).
Proof.
  intros Hh Hw Hn. unfold run, loop_receive. rewrite Hn.
  unfold reconcile, bind.
  pose proof (hookMouse_fields os (set_callbacks ev (vars s)) lg) as F1.
  pose proof (hookMouse_present os (set_callbacks ev (vars s)) lg Hh) as P1.
  unfold run in F1, P1.
  destruct (hookMouse os (set_callbacks ev (vars s)) lg) as [v1 l1].
  pose proof (hookKeyboard_fields os v1 l1) as F2.
  pose proof (hookKeyboard_present os v1 l1 Hh) as P2.
  unfold run in F2, P2.
  destruct (hookKeyboard os v1 l1) as [v2 l2].
  pose proof (hookClipboard_fields os v2 l2) as F3.
  pose proof (hookClipboard_present os v2 l2 Hw) as P3.
  unfold run in F3, P3.
  destruct (hookClipboard os v2 l2) as [v3 l3].
  cbn [fst snd ret pc vars] in *.
  destruct F1 as (A1 & B1 & C1 & D1 & E1 & Z1).
  destruct F2 as (A2 & B2 & C2 & D2 & E2 & Z2).
  destruct F3 as (A3 & B3 & C3 & D3 & E3 & Z3).
  cbn [set_callbacks keyboardCallback mouseCallback clipboardCallback
       keyboardHook mouseHook clipboardWindow] in *.
  assert (Ek : keyboardCallback v3 = keyboard ev) by congruence.
  assert (Em : mouseCallback v3 = mouse ev) by congruence.
  assert (Ec : clipboardCallback v3 = clipboard ev) by congruence.
  repeat split; try assumption.
  - apply presence_balanced.
    + intros H. rewrite D3. apply Z2. congruence.
    + intros H. rewrite D3. apply P2. congruence.
  - apply presence_balanced.
    + intros H. rewrite E3, D2. apply Z1. exact H.
    + intros H. rewrite E3, D2. apply P1. exact H.
  - apply presence_balanced.
    + intros H. apply Z3. congruence.
    + intros H. apply P3. congruence.
Qed.

(** C1.  What the code does when the last callback is taken away.  For
    every state of the two threads in which the pump thread runs, a
    registration call that leaves all three callbacks nil changes nothing
    on the pump thread but its place in the loop: it keeps every handle and
    every callback it held, makes no call to the operating system (no
    [UnhookWindowsHookEx], no [RemoveClipboardFormatListener]), and waits in
    the inner receive for a snapshot that is not all nil.  So a hook that
    was installed stays installed although no callback is set. *)
Theorem all_nil_snapshot_leaves_hooks_installed :
  forall (os : OS) (c : registration) (s : system) (ps : loop_state)
         (lg : log),
    pump s = Some ps ->
    allNil (snapshot (fst (register c (loop s)))) = true ->
    run (call os c s) lg =
    ({| loop := fst (register c (loop s));
        caller := Outside;
        pump := Some {| pc := AwaitNonNil; vars := vars ps |} |}, lg)
    /\ loop_default os {| pc := AwaitNonNil; vars := vars ps |} lg
       = (None, lg).
Proof.
  intros os c s ps lg Hp Hnil. split; [|reflexivity].
  unfold run, call. rewrite Hp.
  destruct (register c (loop s)) as [m' fx]. cbn [fst] in *.
  unfold bind.
  pose proof (loop_receive_all_nil os (snapshot m') ps lg Hnil) as H.
  unfold run in H. rewrite H. reflexivity.
Qed.

(** [SetOnKeyboardEvent(f)], then [SetOnKeyboardEvent(nil)], on an operating
    system that grants every installation: the keyboard hook handle 77 is
    still held and no unhook call was made. *)
Lemma all_nil_snapshot_leaves_hooks_installed_witness :
  run (call os_ok (SetOnKeyboardEvent None)
         (fst (run (call os_ok (SetOnKeyboardEvent (Some watch_keys))
                         system0) [])))
      [SetWindowsHookEx w32.WH_KEYBOARD_LL 0x400000; GetModuleHandle ""]
  = ({| loop := {| running := true; keyboardEvent := None;
                   mouseEvent := None; clipboardEvent := None |};
        caller := Outside;
        pump := Some {| pc := AwaitNonNil;
                        vars := {| keyboardCallback := Some watch_keys;
                                   mouseCallback := None;
                                   clipboardCallback := None;
                                   keyboardHook := 77;
                                   mouseHook := 0;
                                   clipboardWindow := 0 |} |} |},
     [SetWindowsHookEx w32.WH_KEYBOARD_LL 0x400000; GetModuleHandle ""])
  /\ loop_default os_ok
       {| pc := AwaitNonNil;
          vars := {| keyboardCallback := Some watch_keys;
                     mouseCallback := None;
                     clipboardCallback := None;
                     keyboardHook := 77;
                     mouseHook := 0;
                     clipboardWindow := 0 |} |}
       [SetWindowsHookEx w32.WH_KEYBOARD_LL 0x400000; GetModuleHandle ""]
     = (None,
        [SetWindowsHookEx w32.WH_KEYBOARD_LL 0x400000; GetModuleHandle ""]).
Proof.
  apply (all_nil_snapshot_leaves_hooks_installed os_ok
           (SetOnKeyboardEvent None)
           (fst (run (call os_ok (SetOnKeyboardEvent (Some watch_keys))
                           system0) []))
           {| pc := AtSelect;
              vars := {| keyboardCallback := Some watch_keys;
                         mouseCallback := None;
                         clipboardCallback := None;
                         keyboardHook := 77;
                         mouseHook := 0;
                         clipboardWindow := 0 |} |}
           [SetWindowsHookEx w32.WH_KEYBOARD_LL 0x400000;
            GetModuleHandle ""]).
  - reflexivity.
  - reflexivity.
Defined.

(** The same two calls as one run of [calls] from the initial state. *)
Example keyboard_on_then_off :
  let r := run (calls os_ok
                  [SetOnKeyboardEvent (Some watch_keys);
                   SetOnKeyboardEvent None] system0) [] in
  snapshot (loop (fst r))
  = {| keyboard := None; mouse := None; clipboard := None |}
  /\ (exists ps, pump (fst r) = Some ps
                 /\ pc ps = AwaitNonNil
                 /\ keyboardHook (vars ps) = 77)
  /\ snd r =
     [SetWindowsHookEx w32.WH_KEYBOARD_LL 0x400000; GetModuleHandle ""].
Proof. split; [reflexivity|split; [eexists; repeat split|reflexivity]]. Qed.

(** For comparison, the sibling path: the keyboard callback is taken away
    while a mouse callback stays, and the keyboard hook is removed. *)
Example keyboard_off_while_mouse_on :
  let r := run (calls os_ok
                  [SetOnKeyboardEvent (Some watch_keys);
                   SetOnMouseEvent (Some watch_mouse);
                   SetOnKeyboardEvent None] system0) [] in
  (exists ps, pump (fst r) = Some ps
              /\ pc ps = AtSelect
              /\ keyboardHook (vars ps) = 0
              /\ mouseHook (vars ps) = 77)
  /\ snd r =
     [UnhookWindowsHookEx 77;
      SetWindowsHookEx w32.WH_MOUSE_LL 0x400000; GetModuleHandle "";
      SetWindowsHookEx w32.WH_KEYBOARD_LL 0x400000; GetModuleHandle ""].
Proof. split; [eexists; repeat split|reflexivity]. Qed.

(** ** The registration facade *)

Lemma updateEvents_effects (m : messageLoop) :
  updateEvents m =
  ({| running := true; keyboardEvent := keyboardEvent m;
      mouseEvent := mouseEvent m; clipboardEvent := clipboardEvent m |},
   (if running m then [] else [GoLoop]) ++ [SendNewEvents (snapshot m)]).
Proof.
  unfold updateEvents, startLoop, snapshot.
  destruct m as [r k mo c]; destruct r; reflexivity.
Qed.

Lemma register_effects (c : registration) (m : messageLoop) :
  snd (register c m) =
  (if running m then [] else [GoLoop])
  ++ [SendNewEvents (snapshot (fst (register c m)))]
  /\ running (fst (register c m)) = true.
Proof.
  destruct c; cbn [register];
    unfold setKeyboardEvent, setMouseEvent, setClipboardEvent;
    rewrite updateEvents_effects; split; reflexivity.
Qed.

(** [call] is a run of the two threads: the caller enters, starts the
    goroutine when none runs, hands the snapshot to the pump thread, and
    returns. *)
Lemma call_steps (os : OS) (c : registration) (s : system) (lg : log) :
  caller s = Outside ->
  running (loop s) = negb (is_nil (pump s)) ->
  clos_refl_trans _ (system_step os) (s, lg) (run (call os c s) lg).
Proof.
  intros Hout Hrun.
  destruct (register_effects c (loop s)) as [Hfx _].
  unfold run, call, bind, ret.
  destruct (register c (loop s)) as [m' fx] eqn:Er. cbn [fst snd] in Hfx.
  set (s1 := {| loop := m'; caller := Pending fx; pump := pump s |}).
  assert (S1 : system_step os (s, lg) (s1, lg)).
  { pose proof (step_enter os c s lg Hout) as H.
    rewrite Er in H. exact H. }
  apply rt_trans with (y := (s1, lg)); [apply rt_step; exact S1|].
  destruct (pump s) as [ps|] eqn:Ep; cbn in Hrun; rewrite Hrun in Hfx;
    cbn in Hfx; subst fx.
  - pose proof (@step_handoff os s1 (snapshot m') [] ps lg eq_refl eq_refl)
      as S2.
    eapply rt_trans; [apply rt_step; exact S2|].
    cbn [loop caller pump] in *.
    destruct (loop_receive os (snapshot m') ps lg) as [ps' lg'].
    apply rt_step.
    exact (@step_return os {| loop := m'; caller := Pending [];
                              pump := Some ps' |} lg' eq_refl).
  - pose proof (@step_go os s1 [SendNewEvents (snapshot m')] lg eq_refl)
      as S2.
    eapply rt_trans; [apply rt_step; exact S2|].
    cbn [loop caller pump] in *.
    pose proof (@step_handoff os
                  {| loop := m';
                     caller := Pending [SendNewEvents (snapshot m')];
                     pump := Some loop_state0 |}
                  (snapshot m') [] loop_state0 lg eq_refl eq_refl) as S3.
    eapply rt_trans; [apply rt_step; exact S3|].
    cbn [loop caller pump] in *.
    destruct (loop_receive os (snapshot m') loop_state0 lg) as [ps' lg'].
    apply rt_step.
    exact (@step_return os {| loop := m'; caller := Pending [];
                              pump := Some ps' |} lg' eq_refl).
Qed.

(** C7.  A registration call sets its own field of the desired-callback
    record and leaves the other two callback fields as they were; its
    effects are, in order, the start of the pump goroutine when none is
    running and the send of the snapshot of all three fields; and while the
    caller stands at that send, the only step the two threads can take is
    the handoff in which the pump thread receives that very snapshot, after
    which the caller is past the send. *)
Theorem registration_frame_and_handoff :
  forall (c : registration) (m : messageLoop),
    let m' := fst (register c m) in
    match c with
    | SetOnKeyboardEvent f =>
        keyboardEvent m' = f
        /\ mouseEvent m' = mouseEvent m
        /\ clipboardEvent m' = clipboardEvent m
    | SetOnMouseEvent f =>
        mouseEvent m' = f
        /\ keyboardEvent m' = keyboardEvent m
        /\ clipboardEvent m' = clipboardEvent m
    | SetOnClipboardChange f =>
        clipboardEvent m' = f
        /\ keyboardEvent m' = keyboardEvent m
        /\ mouseEvent m' = mouseEvent m
    end
    /\ snd (register c m) =
       (if running m then [] else [GoLoop])
       ++ [SendNewEvents {| keyboard := keyboardEvent m';
                            mouse := mouseEvent m';
                            clipboard := clipboardEvent m' |}]
    /\ (forall (os : OS) (s s' : system) (lg lg' : log),
          caller s = Pending [SendNewEvents (snapshot m')] ->
          system_step os (s, lg) (s', lg') ->
          exists ps,
            pump s = Some ps
            /\ pump s' = Some (fst (run (loop_receive os (snapshot m') ps) lg))
            /\ lg' = snd (run (loop_receive os (snapshot m') ps) lg)
            /\ caller s' = Pending []
            /\ loop s' = loop s)
    /\ (forall (os : OS) (s : system) (lg : log),
          caller s = Pending [SendNewEvents (snapshot m')] ->
          pump s = None ->
          forall s' lg', ~ system_step os (s, lg) (s', lg')).
Proof.
  intros c m m'. subst m'.
  destruct (register_effects c m) as [Hfx _].
  split; [|split; [exact Hfx|split]].
  - destruct c; cbn [register];
      unfold setKeyboardEvent, setMouseEvent, setClipboardEvent;
      rewrite updateEvents_effects; cbn; repeat split.
  - intros os s s' lg lg' Hc Hstep.
    inversion Hstep
      as [c0 s0 l0 Ho | s0 fx0 l0 Hg | s0 ev fx0 ps l0 Hs Hp | s0 l0 Hr
          | s0 ps ps' l0 l1 Hp Hn Hd];
      subst; try congruence.
    rewrite Hc in Hs. inversion Hs; subst.
    exists ps. cbn. repeat split. assumption.
  - intros os s lg Hc Hp s' lg' Hstep.
    inversion Hstep
      as [c0 s0 l0 Ho | s0 fx0 l0 Hg | s0 ev fx0 ps l0 Hs Hp' | s0 l0 Hr
          | s0 ps ps' l0 l1 Hp' Hn Hd];
      subst; try congruence.
Qed.

(** ** Typing *)

Lemma upDown_no_Sleep (os : OS) (vk d : Z) (lg : log) :
  In (Sleep d) (snd (run (upDown os vk) lg)) -> In (Sleep d) lg.
Proof.
  unfold run, upDown, toScanCode, bind, syscall, ret. cbn.
  intros [H|[H|H]]; try discriminate H. exact H.
Qed.

Lemma upDowns_no_Sleep (os : OS) (vks : list Z) (d : Z) (lg : log) :
  In (Sleep d) (snd (run (upDowns os vks) lg)) -> In (Sleep d) lg.
Proof.
  revert lg. induction vks as [|vk vks IH]; intros lg; [exact (fun H => H)|].
  cbn [upDowns]. unfold run, bind in *.
  pose proof (upDown_no_Sleep os vk d lg) as H1. unfold run in H1.
  destruct (upDown os vk lg) as [p l1].
  specialize (IH l1).
  destruct (upDowns os vks l1) as [ps l2]. cbn in *. auto.
Qed.

(** Every pause of [typeRunes] lasts [delay]. *)
Lemma typeRunes_Sleep (os : OS) (alt : w32.INPUT * w32.INPUT)
    (nums : list (w32.INPUT * w32.INPUT)) (delay : Z) (rs : list Z) :
  forall (lg : log) (d : Z),
    In (Sleep d) (snd (run (typeRunes os alt nums delay rs) lg)) ->
    In (Sleep d) lg \/ d = delay.
Proof.
  induction rs as [|r rs IH]; intros lg d; [left; assumption|].
  cbn [typeRunes]. unfold run, bind in *.
  set (step := if r =? 13 then PressKey os w32.VK_RETURN
               else if r =? 8 then PressKey os w32.VK_BACK
               else _).
  assert (Hs : exists e a, step lg = (e, SendInput a :: lg)).
  { subst step. unfold PressKey, bind, syscall, ret.
    destruct (r =? 13); [|destruct (r =? 8)];
      match goal with
      | |- context [if ?n =? 0 then _ else _] => destruct (n =? 0)
      end; eauto. }
  destruct Hs as (e & a & ->).
  destruct e as [e|].
  - cbn. intros [H|H]; [discriminate H|left; exact H].
  - unfold syscall at 1. intros H. apply IH in H.
    destruct H as [[H|[H|H]]|H]; auto; try discriminate H.
    inversion H; auto.
Qed.

(** C9.  [Type(s)] is [TypeWithDelay(s, 1)]: on every string and in every
    state of the operating system the two send the same inputs, make the
    same pauses and return the same result; and every pause [Type] makes
    lasts one nanosecond, the smallest delay that is not zero. *)
Theorem Type_is_TypeWithDelay_1 :
  forall (os : OS) (s : string) (lg : log),
    run (Type_ os s) lg = run (TypeWithDelay os s 1) lg
    /\ (forall d, In (Sleep d) (snd (run (Type_ os s) lg)) ->
                  In (Sleep d) lg \/ d = 1)
    /\ (forall delay, 0 < delay -> 1 <= delay).
Proof.
  intros os s lg. split; [reflexivity|split].
  - intros d. unfold Type_, TypeWithDelay, run, bind.
    pose proof (upDown_no_Sleep os w32.VK_LMENU d lg) as H1.
    unfold run in H1.
    destruct (upDown os w32.VK_LMENU lg) as [alt l1].
    pose proof (upDowns_no_Sleep os numpad_keys d l1) as H2.
    unfold run in H2.
    destruct (upDowns os numpad_keys l1) as [nums l2].
    intros H. apply typeRunes_Sleep in H. cbn [snd] in *. tauto.
  - intros delay H. lia.
Qed.

(** ** The hull of the monitors *)

Lemma int_range (z : Z) : is_int (int z).
Proof.
  unfold is_int, int. cbv zeta.
  pose proof (Z.mod_pos_bound z (2 ^ 64) ltac:(lia)) as B.
  destruct (z mod 2 ^ 64 <? 2 ^ 63) eqn:E.
  - apply Z.ltb_lt in E. lia.
  - apply Z.ltb_ge in E. lia.
Qed.

Lemma int_id (z : Z) : is_int z -> int z = z.
Proof.
  unfold is_int, int. cbv zeta. intros [Hlo Hhi].
  destruct (Z_lt_le_dec z 0) as [Hneg|Hpos].
  - assert (Hm : z mod 2 ^ 64 = z + 2 ^ 64).
    { symmetry. apply Z.mod_unique with (q := -1); lia. }
    rewrite Hm.
    destruct (z + 2 ^ 64 <? 2 ^ 63) eqn:E.
    + apply Z.ltb_lt in E. lia.
    + lia.
  - rewrite Z.mod_small by lia.
    destruct (z <? 2 ^ 63) eqn:E.
    + reflexivity.
    + apply Z.ltb_ge in E. lia.
Qed.

Lemma int_congr (a b : Z) : a mod 2 ^ 64 = b mod 2 ^ 64 -> int a = int b.
Proof. unfold int. intros ->. reflexivity. Qed.

Lemma int_mod (z : Z) : int z mod 2 ^ 64 = z mod 2 ^ 64.
Proof.
  unfold int. cbv zeta.
  destruct (z mod 2 ^ 64 <? 2 ^ 63).
  - apply Z.mod_mod. lia.
  - rewrite <- (Z.mod_mod z (2 ^ 64)) at 2 by lia.
    rewrite <- (Z.mod_add (z mod 2 ^ 64 - 2 ^ 64) 1 (2 ^ 64)) by lia.
    f_equal. lia.
Qed.

(** Width added back to the left edge gives the right edge again, in Go's
    [int] arithmetic. *)
Lemma int_add_sub (a b : Z) : is_int b -> int (a + int (b - a)) = b.
Proof.
  intros Hb. rewrite <- (int_id b Hb) at 2. apply int_congr.
  rewrite Z.add_mod, int_mod, <- Z.add_mod by lia.
  f_equal. lia.
Qed.

Section Fold.

Variables (f : Monitor -> Z) (get : hull -> Z).

Lemma fold_running_min :
  (forall h m, get (hull_step h m) = if f m <? get h then f m else get h) ->
  forall ms h,
    let h' := fold_left hull_step ms h in
    get h' <= get h
    /\ (forall m, In m ms -> get h' <= f m)
    /\ (get h' = get h \/ exists m, In m ms /\ get h' = f m).
Proof.
  intros Hstep. induction ms as [|m ms IH]; intros h; cbn.
  - split; [lia|split; [intros m []|left; reflexivity]].
  - specialize (IH (hull_step h m)). cbv zeta in IH.
    destruct IH as (Hle & Hall & Hin). rewrite Hstep in Hle, Hin.
    destruct (f m <? get h) eqn:E;
      [apply Z.ltb_lt in E|apply Z.ltb_ge in E].
    + split; [lia|split].
      * intros m' [<-|Hm']; [lia|auto].
      * right. destruct Hin as [->|(m' & Hm' & ->)]; eauto.
    + split; [lia|split].
      * intros m' [<-|Hm']; [lia|auto].
      * destruct Hin as [->|(m' & Hm' & ->)]; eauto.
Qed.

Lemma fold_running_max :
  (forall h m, get (hull_step h m) = if get h <? f m then f m else get h) ->
  forall ms h,
    let h' := fold_left hull_step ms h in
    get h <= get h'
    /\ (forall m, In m ms -> f m <= get h')
    /\ (get h' = get h \/ exists m, In m ms /\ get h' = f m).
Proof.
  intros Hstep. induction ms as [|m ms IH]; intros h; cbn.
  - split; [lia|split; [intros m []|left; reflexivity]].
  - specialize (IH (hull_step h m)). cbv zeta in IH.
    destruct IH as (Hle & Hall & Hin). rewrite Hstep in Hle, Hin.
    destruct (get h <? f m) eqn:E;
      [apply Z.ltb_lt in E|apply Z.ltb_ge in E].
    + split; [lia|split].
      * intros m' [<-|Hm']; [lia|auto].
      * right. destruct Hin as [->|(m' & Hm' & ->)]; eauto.
    + split; [lia|split].
      * intros m' [<-|Hm']; [lia|auto].
      * destruct Hin as [->|(m' & Hm' & ->)]; eauto.
Qed.

End Fold.

(** The four edges of the rectangle built for a non-empty list. *)
Lemma hull_rectangle_edges (m0 : Monitor) (rest : list Monitor) :
  let ms := m0 :: rest in
  let r := hull_rectangle ms m0 in
  ((exists m, In m ms /\ X r = left m)
   /\ (forall m, In m ms -> X r <= left m))
  /\ ((exists m, In m ms /\ Y r = top m)
      /\ (forall m, In m ms -> Y r <= top m))
  /\ ((exists m, In m ms /\ int (X r + Width r) = right m)
      /\ (forall m, In m ms -> right m <= int (X r + Width r)))
  /\ ((exists m, In m ms /\ int (Y r + Height r) = bottom m)
      /\ (forall m, In m ms -> bottom m <= int (Y r + Height r))).
Proof.
  intros ms r. subst r. unfold hull_rectangle.
  set (h0 := {| hullLeft := left m0; hullTop := top m0;
                hullRight := right m0; hullBottom := bottom m0 |}).
  pose proof (fold_running_min left hullLeft (fun _ _ => eq_refl) ms h0)
    as (_ & L1 & L2).
  pose proof (fold_running_min top hullTop (fun _ _ => eq_refl) ms h0)
    as (_ & T1 & T2).
  pose proof (fold_running_max right hullRight (fun _ _ => eq_refl) ms h0)
    as (_ & R1 & R2).
  pose proof (fold_running_max bottom hullBottom (fun _ _ => eq_refl) ms h0)
    as (_ & B1 & B2).
  set (h := fold_left hull_step ms h0) in *.
  assert (Hm0 : In m0 ms) by (left; reflexivity).
  assert (HR : is_int (hullRight h)).
  { destruct R2 as [->|(m & _ & ->)]; apply int_range. }
  assert (HB : is_int (hullBottom h)).
  { destruct B2 as [->|(m & _ & ->)]; apply int_range. }
  cbn [X Y Width Height].
  rewrite (int_add_sub (hullLeft h) (hullRight h) HR).
  rewrite (int_add_sub (hullTop h) (hullBottom h) HB).
  repeat split; try assumption.
  - destruct L2 as [->|?]; [exists m0; auto|assumption].
  - destruct T2 as [->|?]; [exists m0; auto|assumption].
  - destruct R2 as [->|?]; [exists m0; auto|assumption].
  - destruct B2 as [->|?]; [exists m0; auto|assumption].
Qed.

(** C10.  [CaptureMonitors] of the empty list returns an empty image and an
    error, without a call to the operating system.  For a non-empty list
    it is the capture of one rectangle: its left and top edges are the
    least left and top edges of the monitors, and its right and bottom
    edges (left plus width, top plus height, in Go's [int]) are the
    greatest right and bottom edges of the monitors. *)
Theorem CaptureMonitors_hull :
  forall (os : OS) (lg : log),
    run (CaptureMonitors os []) lg =
    (Returns (Some RGBA0, Some (errorString "now monitor given")), lg)
    /\ forall (m0 : Monitor) (rest : list Monitor),
         let ms := m0 :: rest in
         let r := hull_rectangle ms m0 in
         run (CaptureMonitors os ms) lg =
         run (CaptureScreen os (X r) (Y r) (Width r) (Height r)) lg
         /\ ((exists m, In m ms /\ X r = left m)
             /\ (forall m, In m ms -> X r <= left m))
         /\ ((exists m, In m ms /\ Y r = top m)
             /\ (forall m, In m ms -> Y r <= top m))
         /\ ((exists m, In m ms /\ int (X r + Width r) = right m)
             /\ (forall m, In m ms -> right m <= int (X r + Width r)))
         /\ ((exists m, In m ms /\ int (Y r + Height r) = bottom m)
             /\ (forall m, In m ms -> bottom m <= int (Y r + Height r))).
Proof.
  intros os lg. split; [reflexivity|].
  intros m0 rest ms r. split; [reflexivity|].
  exact (hull_rectangle_edges m0 rest).
Qed.

(** ** The code run on small inputs *)

Example runes_of_mixed_bytes :
  runes [0xC3; 0xA9; 65; 0xE2; 0x82; 0xAC; 0xFF; 0xF0; 0x9F; 0x98; 0x80; 0xC3]
  = [233; 65; 8364; RuneError; 128512; RuneError].
Proof. reflexivity. Qed.

Example line_breaks_unified :
  Replace (Replace [65; 13; 10; 10; 66; 13] [13; 10] [13]) [10] [13]
  = [65; 13; 13; 66; 13].
Proof. reflexivity. Qed.

Example Type_letter_A :
  exists scans,
    run (Type_ os_ok "A") [] =
    (None,
     Sleep 1
     :: SendInput
          (map (fun p : Z * Z =>
                  w32.KeyboardInput
                    {| w32.Vk := 0; w32.Scan := fst p; w32.kiFlags := snd p |})
               [(0xA4, 8); (0x60, 8); (0x60, 10); (0x66, 8); (0x66, 10);
                (0x65, 8); (0x65, 10); (0xA4, 10)])
     :: scans).
Proof. eexists. cbv. reflexivity. Qed.

Example Type_stops_when_blocked :
  fst (run (Type_ (sample_os 0 (0, 0, true)) "") []) = None
  /\ forall os : OS,
       (forall lg inputs, ret_SendInput os lg inputs = 0) ->
       forall lg, fst (run (typeRunes os (no_input, no_input) [] 1 [65; 66])
                            lg) = Some errBlocked.
Proof.
  split; [reflexivity|]. intros os H lg.
  unfold run, typeRunes, bind, syscall, ret. cbn. rewrite H. reflexivity.
Qed.

Example hull_of_two_monitors :
  let big := {| Rectangle_ := {| X := 0; Y := 0;
                                 Width := 1920; Height := 1200 |};
                WorkArea := {| X := 0; Y := 0;
                               Width := 1920; Height := 1160 |};
                Primary := true |} in
  let small := {| Rectangle_ := {| X := -1920; Y := 100;
                                   Width := 1920; Height := 1080 |};
                  WorkArea := {| X := -1920; Y := 100;
                                 Width := 1920; Height := 1040 |};
                  Primary := false |} in
  hull_rectangle [big; small] big
  = {| X := -1920; Y := 0; Width := 3840; Height := 1200 |}.
Proof. reflexivity. Qed.

Example CaptureScreen_two_pixels :
  fst (run (CaptureScreen os_ok 0 0 2 1) []) =
  Returns (Some {| Pix := [2; 1; 0; 3; 6; 5; 4; 7];
                   Stride := 8;
                   Rect := {| MinX := 0; MinY := 0; MaxX := 2; MaxY := 1 |} |},
           None).
Proof. reflexivity. Qed.

Example wheel_one_tick_back :
  wheelOf MouseWheel sample_ms = (-1)%float
  /\ wheelOf LeftMouseDown sample_ms = 1%float.
Proof. split; reflexivity. Qed.

(* ================================================================== *)
(** * Further properties of the dispatcher *)

Lemma os_ok_grants : grants os_ok.
Proof. split; intros; discriminate. Qed.

(** X1.  A registration call that leaves at least one callback set, on an
    operating system that grants every installation: when the call has
    returned, the pump thread is back at its [select], holds the callbacks
    of the desired record, and holds a handle in exactly the categories
    that have a callback. *)
Theorem call_reconciles :
  forall (os : OS) (c : registration) (s : system) (lg : log),
    grants os ->
    allNil (snapshot (fst (register c (loop s)))) = false ->
    let s' := fst (run (call os c s) lg) in
    loop s' = fst (register c (loop s))
    /\ exists ps,
         pump s' = Some ps
         /\ pc ps = AtSelect
         /\ keyboardCallback (vars ps) = keyboardEvent (loop s')
         /\ mouseCallback (vars ps) = mouseEvent (loop s')
         /\ clipboardCallback (vars ps) = clipboardEvent (loop s')
         /\ is_nil (keyboardEvent (loop s')) = (keyboardHook (vars ps) =? 0)
         /\ is_nil (mouseEvent (loop s')) = (mouseHook (vars ps) =? 0)
         /\ is_nil (clipboardEvent (loop s'))
            = (clipboardWindow (vars ps) =? 0).
Proof.
  intros os c s lg [Hh Hw] Hn s'. subst s'.
  unfold run, call, bind, ret.
  destruct (register c (loop s)) as [m' fx]. cbn [fst] in Hn.
  set (ps0 := match pump s with Some ps => ps | None => loop_state0 end).
  pose proof (loop_receive_reconciles os (snapshot m') ps0 lg Hh Hw Hn) as R.
  unfold run in R.
  destruct (loop_receive os (snapshot m') ps0 lg) as [ps' lg'].
  cbn [fst loop pump] in *. split; [reflexivity|].
  exists ps'. split; [reflexivity|]. exact R.
Qed.

Lemma call_reconciles_witness :
  loop (fst (run (call os_ok (SetOnMouseEvent (Some watch_mouse)) system0) []))
  = fst (register (SetOnMouseEvent (Some watch_mouse)) (loop system0))
  /\ exists ps,
       pump (fst (run (call os_ok (SetOnMouseEvent (Some watch_mouse))
                            system0) [])) = Some ps
       /\ pc ps = AtSelect
       /\ keyboardCallback (vars ps) = None
       /\ mouseCallback (vars ps) = Some watch_mouse
       /\ clipboardCallback (vars ps) = None
       /\ true = (keyboardHook (vars ps) =? 0)
       /\ false = (mouseHook (vars ps) =? 0)
       /\ true = (clipboardWindow (vars ps) =? 0).
Proof.
  exact (call_reconciles os_ok (SetOnMouseEvent (Some watch_mouse)) system0 []
           os_ok_grants eq_refl).
Defined.

(** X2.  Replacing a callback by another one.  When the keyboard hook is
    installed and the other two categories are settled, a call of
    [SetOnKeyboardEvent(g)] with [g] not nil makes no call to the operating
    system and keeps all three handles; from then on the keyboard hook
    procedure hands its events to [g]. *)
Theorem replacing_a_callback :
  forall (os : OS) (g : keyboard_callback) (s : system) (ps : loop_state)
         (lg : log),
    pump s = Some ps ->
    keyboardHook (vars ps) <> 0 ->
    is_nil (mouseEvent (loop s)) = (mouseHook (vars ps) =? 0) ->
    is_nil (clipboardEvent (loop s)) = (clipboardWindow (vars ps) =? 0) ->
    let r := run (call os (SetOnKeyboardEvent (Some g)) s) lg in
    snd r = lg
    /\ exists ps',
         pump (fst r) = Some ps'
         /\ keyboardHook (vars ps') = keyboardHook (vars ps)
         /\ mouseHook (vars ps') = mouseHook (vars ps)
         /\ clipboardWindow (vars ps') = clipboardWindow (vars ps)
         /\ forall code w l kb lg',
              0 <= code ->
              exists rest,
                snd (run (keyboardProc os (vars ps') code w l kb) lg')
                = rest ++ CallKeyboardCallback (newKeyboardEvent kb) :: lg'
                /\ (KeyboardEvent.cancelled (g (newKeyboardEvent kb)) = true
                    -> fst (run (keyboardProc os (vars ps') code w l kb) lg')
                       = 1).
Proof.
  intros os g s ps lg Hp Hk Hm Hc r. subst r.
  unfold run, call, bind, ret. cbn [register].
  unfold setKeyboardEvent. rewrite updateEvents_effects, Hp.
  unfold snapshot; cbn [keyboardEvent mouseEvent clipboardEvent].
  unfold loop_receive, allNil; cbn [keyboard mouse clipboard is_nil andb].
  unfold reconcile, bind.
  set (v0 := set_callbacks _ (vars ps)).
  pose proof (hookMouse_balanced os v0 lg) as R1. unfold run in R1.
  rewrite R1 by exact Hm.
  pose proof (hookKeyboard_balanced os v0 lg) as R2. unfold run in R2.
  rewrite R2
    by (cbn; symmetry; apply Z.eqb_neq; exact Hk).
  pose proof (hookClipboard_balanced os v0 lg) as R3. unfold run in R3.
  rewrite R3 by exact Hc.
  cbn [fst snd ret pump]. split; [reflexivity|].
  exists {| pc := AtSelect; vars := v0 |}.
  repeat (split; [reflexivity|]).
  intros code w l kb lg' Hcode.
  unfold keyboardProc, run, bind, syscall, ret.
  apply Z.leb_le in Hcode. rewrite Hcode. cbn [vars v0 keyboardCallback
    set_callbacks keyboard].
  destruct (KeyboardEvent.cancelled (g (newKeyboardEvent kb))) eqn:E.
  - exists []. split; [reflexivity|]. intros _. reflexivity.
  - exists [CallNextHookEx 0 code w l]. split; [reflexivity|].
    intros H; discriminate H.
Qed.

Lemma replacing_a_callback_witness :
  snd (run (call os_ok (SetOnKeyboardEvent (Some cancel_keys))
              (fst (run (call os_ok (SetOnKeyboardEvent (Some watch_keys))
                              system0) [])))
           [SetWindowsHookEx w32.WH_KEYBOARD_LL 0x400000; GetModuleHandle ""])
  = [SetWindowsHookEx w32.WH_KEYBOARD_LL 0x400000; GetModuleHandle ""]
  /\ exists ps',
       pump (fst (run (call os_ok (SetOnKeyboardEvent (Some cancel_keys))
                         (fst (run (call os_ok
                                      (SetOnKeyboardEvent (Some watch_keys))
                                      system0) [])))
                      [SetWindowsHookEx w32.WH_KEYBOARD_LL 0x400000;
                       GetModuleHandle ""])) = Some ps'
       /\ keyboardHook (vars ps') = 77
       /\ mouseHook (vars ps') = 0
       /\ clipboardWindow (vars ps') = 0
       /\ forall code w l kb lg',
            0 <= code ->
            exists rest,
              snd (run (keyboardProc os_ok (vars ps') code w l kb) lg')
              = rest ++ CallKeyboardCallback (newKeyboardEvent kb) :: lg'
              /\ (KeyboardEvent.cancelled
                    (cancel_keys (newKeyboardEvent kb)) = true
                  -> fst (run (keyboardProc os_ok (vars ps') code w l kb)
                              lg') = 1).
Proof.
  apply (replacing_a_callback os_ok cancel_keys
           (fst (run (call os_ok (SetOnKeyboardEvent (Some watch_keys))
                           system0) []))
           {| pc := AtSelect;
              vars := {| keyboardCallback := Some watch_keys;
                         mouseCallback := None;
                         clipboardCallback := None;
                         keyboardHook := 77;
                         mouseHook := 0;
                         clipboardWindow := 0 |} |}).
  - reflexivity.
  - cbn. lia.
  - reflexivity.
  - reflexivity.
Defined.

(** X3.  A hook procedure called with a negative code passes the call on:
    it makes the one call [CallNextHookEx] and returns its result, without
    a cursor query and without calling the callback, whatever callback is
    set. *)
Theorem negative_code_passes_on :
  forall (os : OS) (v : loop_vars) (code w l : Z)
         (kb : w32.KBDLLHOOKSTRUCT) (ms : w32.MSLLHOOKSTRUCT) (lg : log),
    code < 0 ->
    run (keyboardProc os v code w l kb) lg =
    (ret_CallNextHookEx os lg code w l, CallNextHookEx 0 code w l :: lg)
    /\ run (mouseProc os v code w l ms) lg =
       (ret_CallNextHookEx os lg code w l, CallNextHookEx 0 code w l :: lg).
Proof.
  intros os v code w l kb ms lg Hc.
  assert (E : (0 <=? code) = false) by (apply Z.leb_gt; exact Hc).
  unfold run, keyboardProc, mouseProc. rewrite E. split; reflexivity.
Qed.

Lemma negative_code_passes_on_witness :
  run (keyboardProc os_ok (vars_with (Some cancel_keys) (Some cancel_mouse))
         (-1) 0x100 0 sample_kb) [] =
  (0, [CallNextHookEx 0 (-1) 0x100 0])
  /\ run (mouseProc os_ok (vars_with (Some cancel_keys) (Some cancel_mouse))
            (-1) 0x100 0 sample_ms) [] =
     (0, [CallNextHookEx 0 (-1) 0x100 0]).
Proof.
  apply (negative_code_passes_on os_ok
           (vars_with (Some cancel_keys) (Some cancel_mouse))
           (-1) 0x100 0 sample_kb sample_ms []).
  lia.
Defined.

(** X4.  The window procedure of the clipboard window answers
    [WM_CLIPBOARDUPDATE] itself: it calls the clipboard callback once when
    one is set, returns 0 and does not call [DefWindowProc]; every other
    message goes to [DefWindowProc] and never reaches the callback. *)
Theorem clipboard_window_procedure :
  forall (os : OS) (v : loop_vars) (window msg w l : Z) (lg : log),
    let r := run (clipboardWndProc os v window msg w l) lg in
    (msg = w32.WM_CLIPBOARDUPDATE ->
     fst r = 0
     /\ snd r = match clipboardCallback v with
                | Some f => CallClipboardCallback f :: lg
                | None => lg
                end)
    /\ (msg <> w32.WM_CLIPBOARDUPDATE ->
        r = (ret_DefWindowProc os lg, DefWindowProc window msg w l :: lg)).
Proof.
  intros os v window msg w l lg r. subst r.
  unfold run, clipboardWndProc. split.
  - intros ->. rewrite Z.eqb_refl.
    destruct (clipboardCallback v); split; reflexivity.
  - intros H. apply Z.eqb_neq in H. rewrite H. reflexivity.
Qed.

(** ** Sequences of registration calls *)

Lemma registers_app (cs1 cs2 : list registration) (m : messageLoop) :
  registers (cs1 ++ cs2) m =
  (fst (registers cs2 (fst (registers cs1 m))),
   snd (registers cs1 m) ++ snd (registers cs2 (fst (registers cs1 m)))).
Proof.
  revert m. induction cs1 as [|c cs1 IH]; intros m; cbn [app registers].
  - cbn. destruct (registers cs2 m); reflexivity.
  - destruct (register c m) as [m1 fx1]. rewrite IH.
    destruct (registers cs1 m1) as [m2 fx2]. cbn [fst snd].
    rewrite app_assoc. reflexivity.
Qed.

Lemma register_fields (c : registration) (m : messageLoop) :
  running (fst (register c m)) = true
  /\ keyboardEvent (fst (register c m)) = last_keyboard [c] (keyboardEvent m)
  /\ mouseEvent (fst (register c m)) = last_mouse [c] (mouseEvent m)
  /\ clipboardEvent (fst (register c m))
     = last_clipboard [c] (clipboardEvent m).
Proof.
  destruct c; cbn [register];
    unfold setKeyboardEvent, setMouseEvent, setClipboardEvent;
    rewrite updateEvents_effects; repeat split.
Qed.

Lemma filter_length_app {A} (p : A -> bool) (l1 l2 : list A) :
  List.length (filter p (l1 ++ l2))
  = (List.length (filter p l1) + List.length (filter p l2))%nat.
Proof. rewrite filter_app, length_app. reflexivity. Qed.

Lemma registers_running (cs : list registration) (m : messageLoop) :
  running m = true ->
  running (fst (registers cs m)) = true
  /\ List.length (filter is_GoLoop (snd (registers cs m))) = 0%nat
  /\ List.length (filter is_SendNewEvents (snd (registers cs m)))
     = List.length cs.
Proof.
  revert m. induction cs as [|c cs IH]; intros m Hr; cbn [registers].
  - auto.
  - destruct (register_effects c m) as [Hfx Hrun].
    rewrite Hr in Hfx.
    destruct (register c m) as [m1 fx1]. cbn [fst snd] in *.
    destruct (IH m1 Hrun) as (R & G & S).
    destruct (registers cs m1) as [m2 fx2]. cbn [fst snd] in *.
    subst fx1. cbn. auto.
Qed.

(** X5.  However many registration calls are made one after the other,
    starting from the package's initial record, the pump goroutine is
    started exactly once, by the first of them and before its send, and
    every call sends exactly one snapshot. *)
Theorem goroutine_started_once :
  forall (c : registration) (cs : list registration),
    let fx := snd (registers (c :: cs) newMessageLoop) in
    List.length (filter is_GoLoop fx) = 1%nat
    /\ List.length (filter is_SendNewEvents fx) = S (List.length cs)
    /\ (exists rest, fx = GoLoop :: rest)
    /\ running (fst (registers (c :: cs) newMessageLoop)) = true.
Proof.
  intros c cs fx. subst fx. cbn [registers].
  destruct (register_effects c newMessageLoop) as [Hfx Hrun].
  destruct (register c newMessageLoop) as [m1 fx1]. cbn [fst snd] in *.
  destruct (registers_running cs m1 Hrun) as (R & G & S).
  destruct (registers cs m1) as [m2 fx2]. cbn [fst snd] in *.
  subst fx1. cbn [running newMessageLoop app].
  cbn [filter is_GoLoop is_SendNewEvents List.length].
  rewrite G, S. repeat split; eauto.
Qed.

Lemma last_keyboard_app (cs1 cs2 : list registration) d :
  last_keyboard (cs1 ++ cs2) d = last_keyboard cs2 (last_keyboard cs1 d).
Proof.
  revert d. induction cs1 as [|c cs1 IH]; intros d; [reflexivity|].
  destruct c; cbn; apply IH.
Qed.

Lemma last_mouse_app (cs1 cs2 : list registration) d :
  last_mouse (cs1 ++ cs2) d = last_mouse cs2 (last_mouse cs1 d).
Proof.
  revert d. induction cs1 as [|c cs1 IH]; intros d; [reflexivity|].
  destruct c; cbn; apply IH.
Qed.

Lemma last_clipboard_app (cs1 cs2 : list registration) d :
  last_clipboard (cs1 ++ cs2) d
  = last_clipboard cs2 (last_clipboard cs1 d).
Proof.
  revert d. induction cs1 as [|c cs1 IH]; intros d; [reflexivity|].
  destruct c; cbn; apply IH.
Qed.

Lemma registers_fields (cs : list registration) (m : messageLoop) :
  keyboardEvent (fst (registers cs m)) = last_keyboard cs (keyboardEvent m)
  /\ mouseEvent (fst (registers cs m)) = last_mouse cs (mouseEvent m)
  /\ clipboardEvent (fst (registers cs m))
     = last_clipboard cs (clipboardEvent m).
Proof.
  revert m. induction cs as [|c cs IH]; intros m; cbn [registers].
  - auto.
  - destruct (register_fields c m) as (_ & K & Mo & C).
    destruct (register c m) as [m1 fx1]. cbn [fst] in *.
    destruct (IH m1) as (K' & M' & C').
    destruct (registers cs m1) as [m2 fx2]. cbn [fst] in *.
    rewrite K', M', C', K, Mo, C.
    destruct c; repeat split.
Qed.

(** X6.  After any sequence of registration calls, the desired record
    holds, category by category, the callback given by the latest call of
    that category (the initial one when there was none), and the snapshot
    sent last is the snapshot of exactly that record. *)
Theorem last_registration_wins :
  forall (cs : list registration) (c : registration) (m : messageLoop),
    let r := registers (cs ++ [c]) m in
    keyboardEvent (fst r) = last_keyboard (cs ++ [c]) (keyboardEvent m)
    /\ mouseEvent (fst r) = last_mouse (cs ++ [c]) (mouseEvent m)
    /\ clipboardEvent (fst r) = last_clipboard (cs ++ [c]) (clipboardEvent m)
    /\ exists before,
         snd r = before ++ [SendNewEvents (snapshot (fst r))].
Proof.
  intros cs c m r. subst r.
  destruct (registers_fields (cs ++ [c]) m) as (K & Mo & C).
  repeat (split; [assumption|]).
  rewrite registers_app. cbn [fst snd registers].
  destruct (register_effects c (fst (registers cs m))) as [Hfx _].
  destruct (register c (fst (registers cs m))) as [m1 fx1].
  cbn [fst snd] in *. subst fx1. rewrite app_nil_r.
  eexists. rewrite app_assoc. reflexivity.
Qed.

(* ================================================================== *)
(** * Further properties of typing *)

Lemma bytes_of_string_nonempty (s : string) :
  s <> EmptyString -> bytes_of_string s <> [].
Proof. destruct s; [congruence|discriminate]. Qed.

Lemma Replace_nonempty (s old new : list Z) :
  s <> [] -> new <> [] -> Replace s old new <> [].
Proof.
  destruct s as [|b s]; [congruence|]. intros _ Hn.
  unfold Replace. cbn [Replace_from].
  destruct (is_prefix old (b :: s)); [|discriminate].
  destruct new; [congruence|discriminate].
Qed.

Lemma runes_nonempty (s : list Z) : s <> [] -> runes s <> [].
Proof.
  destruct s as [|b s]; [congruence|]. intros _.
  unfold runes. cbn [runes_from].
  destruct (decodeRune (b :: s)). discriminate.
Qed.

Lemma typed_runes_nonempty (s : string) :
  s <> EmptyString ->
  exists r rs, runes (unify_line_breaks (bytes_of_string s)) = r :: rs.
Proof.
  intros H.
  destruct (runes (unify_line_breaks (bytes_of_string s))) as [|r rs] eqn:E.
  - exfalso. revert E. apply runes_nonempty.
    unfold unify_line_breaks.
    apply Replace_nonempty; [|discriminate].
    apply Replace_nonempty; [|discriminate].
    apply bytes_of_string_nonempty. exact H.
  - eauto.
Qed.

(** The scan-code queries add nothing but [MapVirtualKey] to the log. *)
Lemma upDown_filter (os : OS) (p : action -> bool) (vk : Z) (lg : log) :
  (forall k t, p (MapVirtualKey k t) = false) ->
  filter p (snd (run (upDown os vk) lg)) = filter p lg.
Proof.
  intros Hp. unfold run, upDown, toScanCode, bind, syscall, ret. cbn.
  rewrite !Hp. reflexivity.
Qed.

Lemma upDowns_filter (os : OS) (p : action -> bool) (vks : list Z)
    (lg : log) :
  (forall k t, p (MapVirtualKey k t) = false) ->
  filter p (snd (run (upDowns os vks) lg)) = filter p lg.
Proof.
  intros Hp. revert lg. induction vks as [|vk vks IH]; intros lg;
    [reflexivity|].
  cbn [upDowns]. unfold run, bind in *.
  pose proof (upDown_filter os p vk lg Hp) as H1. unfold run in H1.
  destruct (upDown os vk lg) as [q l1].
  specialize (IH l1).
  destruct (upDowns os vks l1) as [ps l2]. cbn in *. congruence.
Qed.

(** What [TypeWithDelay] does once its key tables are built. *)
Lemma TypeWithDelay_run (os : OS) (s : string) (delay : Z) (lg : log) :
  exists alt nums lg0,
    run (TypeWithDelay os s delay) lg =
    run (typeRunes os alt nums delay
           (runes (unify_line_breaks (bytes_of_string s)))) lg0
    /\ (forall p, (forall k t, p (MapVirtualKey k t) = false) ->
                  filter p lg0 = filter p lg).
Proof.
  unfold TypeWithDelay, run, bind.
  pose proof (fun p => upDown_filter os p w32.VK_LMENU lg) as H1.
  unfold run in H1.
  destruct (upDown os w32.VK_LMENU lg) as [alt l1].
  pose proof (fun p => upDowns_filter os p numpad_keys l1) as H2.
  unfold run in H2.
  destruct (upDowns os numpad_keys l1) as [nums l2].
  exists alt, nums, l2. split; [reflexivity|].
  intros p Hp. cbn [snd] in *. rewrite H2, H1; auto.
Qed.

(** One round of [typeRunes]: one [SendInput], then either the error or
    the pause and the rest. *)
Lemma typeRunes_cons (os : OS) alt nums (delay r : Z) (rs : list Z)
    (lg : log) :
  exists a,
    run (typeRunes os alt nums delay (r :: rs)) lg =
    if ret_SendInput os lg a =? 0
    then (Some errBlocked, SendInput a :: lg)
    else run (typeRunes os alt nums delay rs)
             (Sleep delay :: SendInput a :: lg).
Proof.
  cbn [typeRunes]. unfold run, PressKey, bind, syscall, ret.
  destruct (r =? 13); [|destruct (r =? 8)].
  - exists [w32.KeyboardInput {| w32.Vk := w32.VK_RETURN; w32.Scan := 0;
                                 w32.kiFlags := 0 |}].
    destruct (ret_SendInput os lg _ =? 0); reflexivity.
  - exists [w32.KeyboardInput {| w32.Vk := w32.VK_BACK; w32.Scan := 0;
                                 w32.kiFlags := 0 |}].
    destruct (ret_SendInput os lg _ =? 0); reflexivity.
  - exists (rune_keys alt nums r).
    destruct (ret_SendInput os lg _ =? 0); reflexivity.
Qed.

Lemma typeRunes_accepted (os : OS) alt nums (delay : Z) (rs : list Z) :
  accepts_input os ->
  forall lg,
    let r := run (typeRunes os alt nums delay rs) lg in
    fst r = None
    /\ count_occ_action is_SendInput (snd r)
       = (count_occ_action is_SendInput lg + List.length rs)%nat
    /\ count_occ_action is_Sleep (snd r)
       = (count_occ_action is_Sleep lg + List.length rs)%nat.
Proof.
  intros Hos. induction rs as [|r rs IH]; intros lg; cbn zeta.
  - cbn. rewrite !Nat.add_0_r. auto.
  - destruct (typeRunes_cons os alt nums delay r rs lg) as [a ->].
    specialize (Hos lg a). apply Z.eqb_neq in Hos. rewrite Hos.
    specialize (IH (Sleep delay :: SendInput a :: lg)). cbn zeta in IH.
    destruct IH as (R & S1 & S2).
    rewrite R, S1, S2. unfold count_occ_action. cbn.
    repeat split; lia.
Qed.

(** X7.  On an operating system that never blocks input, [TypeWithDelay]
    returns no error, and it sends one [SendInput] and makes one pause of
    [delay] for every rune of the text with its line breaks unified: one
    call per character, never a batch, and a pause after the last one
    too. *)
Theorem TypeWithDelay_one_call_per_rune :
  forall (os : OS) (s : string) (delay : Z) (lg : log),
    accepts_input os ->
    let r := run (TypeWithDelay os s delay) lg in
    let n := List.length (runes (unify_line_breaks (bytes_of_string s))) in
    fst r = None
    /\ count_occ_action is_SendInput (snd r)
       = (count_occ_action is_SendInput lg + n)%nat
    /\ count_occ_action is_Sleep (snd r)
       = (count_occ_action is_Sleep lg + n)%nat
    /\ (forall d, In (Sleep d) (snd r) -> In (Sleep d) lg \/ d = delay).
Proof.
  intros os s delay lg Hos r n. subst r n.
  destruct (TypeWithDelay_run os s delay lg) as (alt & nums & lg0 & E & F).
  rewrite E.
  destruct (typeRunes_accepted os alt nums delay
              (runes (unify_line_breaks (bytes_of_string s))) Hos lg0)
    as (R & S1 & S2).
  unfold count_occ_action in *.
  rewrite R, S1, S2, !F by reflexivity.
  repeat (split; [reflexivity|]).
  intros d H. apply typeRunes_Sleep in H. destruct H as [H|H]; [|auto].
  left.
  assert (Hf : In (Sleep d) (filter is_Sleep lg0))
    by (apply filter_In; split; [exact H|reflexivity]).
  rewrite F in Hf by reflexivity. apply filter_In in Hf. tauto.
Qed.

Lemma TypeWithDelay_one_call_per_rune_witness :
  fst (run (TypeWithDelay os_accepting "Hi" 5) []) = None
  /\ count_occ_action is_SendInput (snd (run (TypeWithDelay os_accepting "Hi" 5) []))
     = (0 + 2)%nat
  /\ count_occ_action is_Sleep (snd (run (TypeWithDelay os_accepting "Hi" 5) []))
     = (0 + 2)%nat
  /\ (forall d, In (Sleep d) (snd (run (TypeWithDelay os_accepting "Hi" 5) []))
                -> In (Sleep d) [] \/ d = 5).
Proof.
  apply (TypeWithDelay_one_call_per_rune os_accepting "Hi" 5 []).
  intros l inputs. cbn. lia.
Defined.

Lemma typeRunes_blocked (os : OS) alt nums (delay r : Z) (rs : list Z)
    (lg : log) :
  blocks_input os ->
  exists a,
    run (typeRunes os alt nums delay (r :: rs)) lg
    = (Some errBlocked, SendInput a :: lg).
Proof.
  intros Hos. destruct (typeRunes_cons os alt nums delay r rs lg) as [a ->].
  exists a. rewrite (Hos lg a). reflexivity.
Qed.

(** X8.  When the operating system blocks input, [TypeWithDelay] of a text
    that is not empty gives up at the first character: it returns
    [errBlocked] after a single [SendInput], without a pause and without
    trying the characters that follow. *)
Theorem TypeWithDelay_blocked :
  forall (os : OS) (s : string) (delay : Z) (lg : log),
    s <> EmptyString ->
    blocks_input os ->
    let r := run (TypeWithDelay os s delay) lg in
    fst r = Some errBlocked
    /\ count_occ_action is_SendInput (snd r)
       = S (count_occ_action is_SendInput lg)
    /\ count_occ_action is_Sleep (snd r) = count_occ_action is_Sleep lg.
Proof.
  intros os s delay lg Hs Hos r. subst r.
  destruct (TypeWithDelay_run os s delay lg) as (alt & nums & lg0 & E & F).
  rewrite E.
  destruct (typed_runes_nonempty s Hs) as (r & rs & ->).
  destruct (typeRunes_blocked os alt nums delay r rs lg0 Hos) as [a ->].
  unfold count_occ_action. cbn. rewrite !F by reflexivity. auto.
Qed.

Lemma TypeWithDelay_blocked_witness :
  fst (run (TypeWithDelay os_blocking "Hello" 1) []) = Some errBlocked
  /\ count_occ_action is_SendInput
       (snd (run (TypeWithDelay os_blocking "Hello" 1) [])) = 1%nat
  /\ count_occ_action is_Sleep
       (snd (run (TypeWithDelay os_blocking "Hello" 1) [])) = 0%nat.
Proof.
  apply (TypeWithDelay_blocked os_blocking "Hello" 1 []).
  - discriminate.
  - intros l inputs. reflexivity.
Defined.

(** ** Line feeds *)

Lemma Replace_line_feed (s : list Z) :
  Forall (fun b => b <> 10) (Replace s [10] [13]).
Proof.
  unfold Replace. induction s as [|b s IH]; [constructor|].
  cbn [Replace_from is_prefix List.length Nat.sub andb].
  destruct (10 =? b) eqn:E; cbn [andb app].
  - constructor; [discriminate|exact IH].
  - constructor; [|exact IH]. apply Z.eqb_neq in E. congruence.
Qed.

Lemma log2_big (r : Z) : 6 <= Z.log2 r -> 64 <= r.
Proof.
  intros H. destruct (Z_lt_le_dec 0 r) as [Hp|Hn].
  - pose proof (Z.log2_spec r Hp) as [Hlo _].
    pose proof (Z.pow_le_mono_r 2 6 (Z.log2 r) ltac:(lia) H). lia.
  - rewrite (Z.log2_nonpos r Hn) in H. lia.
Qed.

Lemma log2_lor_l (x y : Z) :
  0 <= x -> 0 <= y -> 6 <= Z.log2 x -> 6 <= Z.log2 (Z.lor x y).
Proof. intros Hx Hy H. rewrite Z.log2_lor by assumption. lia. Qed.

Lemma log2_lor_r (x y : Z) :
  0 <= x -> 0 <= y -> 6 <= Z.log2 y -> 6 <= Z.log2 (Z.lor x y).
Proof. intros Hx Hy H. rewrite Z.log2_lor by assumption. lia. Qed.

Lemma log2_shifted (a n : Z) :
  0 < a -> 6 <= n -> 6 <= Z.log2 (Z.shiftl a n).
Proof.
  intros Ha Hn. rewrite Z.log2_shiftl by lia.
  pose proof (Z.log2_nonneg a). lia.
Qed.

Lemma land_mask_nonneg (x m : Z) : 0 <= m -> 0 <= Z.land x m.
Proof. intros H. apply Z.land_nonneg. right. exact H. Qed.

Lemma shifted_nonneg (x m n : Z) : 0 <= m -> 0 <= Z.shiftl (Z.land x m) n.
Proof. intros H. apply Z.shiftl_nonneg, land_mask_nonneg, H. Qed.

Lemma land_low_bits_pos (x n k : Z) :
  0 <= n -> k * 2 ^ n < x < (k + 1) * 2 ^ n -> 0 < Z.land x (Z.ones n).
Proof.
  intros Hn Hx. rewrite Z.land_ones by assumption.
  assert (E : x mod 2 ^ n = x - k * 2 ^ n).
  { symmetry. apply Z.mod_unique with (q := k); lia. }
  rewrite E. lia.
Qed.

Lemma two_byte_rune (s0 s1 : Z) :
  0xC2 <= s0 < 0xE0 ->
  64 <= Z.lor (Z.shiftl (Z.land s0 0x1F) 6) (Z.land s1 0x3F).
Proof.
  intros H. apply log2_big, log2_lor_l.
  - apply shifted_nonneg; lia.
  - apply land_mask_nonneg; lia.
  - apply log2_shifted; [|lia].
    apply (land_low_bits_pos s0 5 6); cbn; lia.
Qed.

Lemma three_byte_rune (s0 s1 s2 : Z) :
  0xE0 <= s0 < 0xF0 ->
  (s0 = 0xE0 -> 0xA0 <= s1 <= 0xBF) ->
  64 <= Z.lor (Z.lor (Z.shiftl (Z.land s0 0x0F) 12)
                     (Z.shiftl (Z.land s1 0x3F) 6))
              (Z.land s2 0x3F).
Proof.
  intros H H1. apply log2_big, log2_lor_l.
  - apply Z.lor_nonneg; split; apply shifted_nonneg; lia.
  - apply land_mask_nonneg; lia.
  - destruct (Z.eq_dec s0 0xE0) as [E|E].
    + apply log2_lor_r; try (apply shifted_nonneg; lia).
      apply log2_shifted; [|lia].
      apply (land_low_bits_pos s1 6 2); cbn; specialize (H1 E); lia.
    + apply log2_lor_l; try (apply shifted_nonneg; lia).
      apply log2_shifted; [|lia].
      apply (land_low_bits_pos s0 4 14); cbn; lia.
Qed.

Lemma four_byte_rune (s0 s1 s2 s3 : Z) :
  0xF0 <= s0 <= 0xF4 ->
  (s0 = 0xF0 -> 0x90 <= s1 <= 0xBF) ->
  64 <= Z.lor (Z.lor (Z.lor (Z.shiftl (Z.land s0 0x07) 18)
                            (Z.shiftl (Z.land s1 0x3F) 12))
                     (Z.shiftl (Z.land s2 0x3F) 6))
              (Z.land s3 0x3F).
Proof.
  intros H H1. apply log2_big, log2_lor_l.
  - repeat (apply Z.lor_nonneg; split); apply shifted_nonneg; lia.
  - apply land_mask_nonneg; lia.
  - apply log2_lor_l.
    + apply Z.lor_nonneg; split; apply shifted_nonneg; lia.
    + apply shifted_nonneg; lia.
    + destruct (Z.eq_dec s0 0xF0) as [E|E].
      * apply log2_lor_r; try (apply shifted_nonneg; lia).
        apply log2_shifted; [|lia].
        specialize (H1 E).
        destruct (Z_lt_le_dec s1 0xA0).
        -- apply (land_low_bits_pos s1 6 2); cbn; lia.
        -- destruct (Z.eq_dec s1 0xA0) as [->|].
           ++ reflexivity.
           ++ apply (land_low_bits_pos s1 6 2); cbn; lia.
      * apply log2_lor_l; try (apply shifted_nonneg; lia).
        apply log2_shifted; [|lia].
        apply (land_low_bits_pos s0 3 30); cbn; lia.
Qed.

Ltac bool_to_Z :=
  repeat match goal with
         | H : (_ || _) = false |- _ =>
             apply orb_false_elim in H; destruct H
         | H : (_ <? _) = true |- _ => apply Z.ltb_lt in H
         | H : (_ <? _) = false |- _ => apply Z.ltb_ge in H
         | H : (_ =? _) = true |- _ => apply Z.eqb_eq in H
         | H : (_ =? _) = false |- _ => apply Z.eqb_neq in H
         end.

(** A rune below 64 is never the result of a multi-byte sequence or of a
    decoding error: it is the byte it was decoded from. *)
Lemma decodeRune_small (s : list Z) :
  fst (decodeRune s) < 64 -> exists t, s = fst (decodeRune s) :: t.
Proof.
  unfold decodeRune. destruct s as [|s0 t].
  { cbn [fst]. unfold RuneError. lia. }
  destruct (s0 <? 0x80) eqn:E1.
  { cbn [fst]. eauto. }
  destruct ((s0 <? 0xC2) || (0xF4 <? s0)) eqn:E2.
  { cbn [fst]. unfold RuneError. lia. }
  cbv zeta.
  destruct (s0 <? 0xE0) eqn:E3; [|destruct (s0 <? 0xF0) eqn:E4];
    destruct (s0 =? 0xE0) eqn:E5; destruct (s0 =? 0xF0) eqn:E6;
    destruct (s0 =? 0xED) eqn:E7; destruct (s0 =? 0xF4) eqn:E8;
    bool_to_Z; try lia;
    destruct t as [|s1 [|s2 [|s3 t3]]];
    repeat match goal with
           | |- context [if ?c then _ else _] => destruct c eqn:?
           end;
    cbn [fst]; unfold RuneError; try lia;
    bool_to_Z; intros Hr; exfalso.
  all: try match goal with
           | H : (_ <=? _)%nat = _ |- _ => vm_compute in H; discriminate H
           end.
  all: first
    [ pose proof (two_byte_rune s0 s1 ltac:(lia)); lia
    | pose proof (three_byte_rune s0 s1 s2 ltac:(lia) ltac:(lia)); lia
    | pose proof (four_byte_rune s0 s1 s2 s3 ltac:(lia) ltac:(lia)); lia ].
Qed.

Lemma runes_from_small (s : list Z) :
  forall skip,
    Forall (fun r => 64 <= r \/ In r s) (runes_from skip s).
Proof.
  induction s as [|b s IH]; intros skip; cbn [runes_from]; [constructor|].
  assert (W : forall k,
             Forall (fun r => 64 <= r \/ In r (b :: s)) (runes_from k s)).
  { intros k. eapply Forall_impl; [|apply IH].
    intros r [H|H]; [left|right; right]; assumption. }
  destruct skip as [|k]; [|apply W].
  pose proof (decodeRune_small (b :: s)) as D.
  destruct (decodeRune (b :: s)) as [r size]. cbn [fst] in D.
  constructor; [|apply W].
  destruct (Z_lt_le_dec r 64) as [Hlt|Hge]; [|left; exact Hge].
  right. destruct (D Hlt) as [t E]. injection E as -> _. left. reflexivity.
Qed.

(** X9.  [TypeWithDelay] ranges over the runes of the text with its line
    breaks unified, and a line feed is never among them: whatever the
    text, bytes that are no valid UTF-8 included, '\n' is never typed as
    an Alt code. *)
Theorem line_feed_never_typed :
  forall (os : OS) (s : string) (delay : Z) (lg : log),
    run (TypeWithDelay os s delay) lg =
    run (alt <- upDown os w32.VK_LMENU ;;
         nums <- upDowns os numpad_keys ;;
         typeRunes os alt nums delay
           (runes (unify_line_breaks (bytes_of_string s)))) lg
    /\ Forall (fun r => r <> 10)
              (runes (unify_line_breaks (bytes_of_string s))).
Proof.
  intros os s delay lg. split; [reflexivity|].
  pose proof (runes_from_small (unify_line_breaks (bytes_of_string s)) 0)
    as R.
  pose proof (Replace_line_feed (Replace (bytes_of_string s) [13; 10] [13]))
    as L.
  fold (unify_line_breaks (bytes_of_string s)) in L.
  rewrite Forall_forall in R, L. apply Forall_forall.
  intros r Hr ->. destruct (R 10 Hr) as [H|H]; [lia|].
  exact (L 10 H eq_refl).
Qed.

(** ** Alt codes *)






(* ================================================================== *)
(** * Further properties of the screen shots *)






Lemma int_sub_add (a b : Z) : is_int b -> int (int (a + b) - a) = b.
Proof.
  intros Hb. rewrite <- (int_id b Hb) at 2. apply int_congr.
  rewrite Zminus_mod, int_mod, <- Zminus_mod.
  f_equal. lia.
Qed.

(** X13.  For one monitor whose width and height are Go [int]s,
    [CaptureMonitors] of the list holding just that monitor is
    [CaptureMonitor] of it: the hull of one monitor is the monitor. *)
Theorem CaptureMonitors_of_one :
  forall (os : OS) (m : Monitor) (lg : log),
    is_int (Width (Rectangle_ m)) ->
    is_int (Height (Rectangle_ m)) ->
    run (CaptureMonitors os [m]) lg = run (CaptureMonitor os m) lg.
Proof.
  intros os m lg Hw Hh.
  unfold run, CaptureMonitors, CaptureMonitor, CaptureScreenRect,
    hull_rectangle.
  cbn [fold_left hull_step hullLeft hullTop hullRight hullBottom].
  rewrite !Z.ltb_irrefl. cbn [hullLeft hullTop hullRight hullBottom X Y Width Height].
  unfold right, bottom, left, top.
  rewrite (int_sub_add _ _ Hw), (int_sub_add _ _ Hh). reflexivity.
Qed.

Lemma CaptureMonitors_of_one_witness :
  run (CaptureMonitors os_ok [sample_monitor (-1920) 100 1920 1080 false]) []
  = run (CaptureMonitor os_ok (sample_monitor (-1920) 100 1920 1080 false)) [].
Proof.
  apply (CaptureMonitors_of_one os_ok
           (sample_monitor (-1920) 100 1920 1080 false) []);
    unfold is_int; cbn; lia.
Defined.

(** The extreme edges the loop ends with, for a non-empty list. *)
Lemma hull_extremes (m0 : Monitor) (rest : list Monitor) :
  let ms := m0 :: rest in
  let h := fold_left hull_step ms
             {| hullLeft := left m0; hullTop := top m0;
                hullRight := right m0; hullBottom := bottom m0 |} in
  ((exists m, In m ms /\ hullLeft h = left m)
   /\ forall m, In m ms -> hullLeft h <= left m)
  /\ ((exists m, In m ms /\ hullTop h = top m)
      /\ forall m, In m ms -> hullTop h <= top m)
  /\ ((exists m, In m ms /\ hullRight h = right m)
      /\ forall m, In m ms -> right m <= hullRight h)
  /\ ((exists m, In m ms /\ hullBottom h = bottom m)
      /\ forall m, In m ms -> bottom m <= hullBottom h).
Proof.
  intros ms.
  set (h0 := {| hullLeft := left m0; hullTop := top m0;
                hullRight := right m0; hullBottom := bottom m0 |}).
  pose proof (fold_running_min left hullLeft (fun _ _ => eq_refl) ms h0)
    as (_ & L1 & L2).
  pose proof (fold_running_min top hullTop (fun _ _ => eq_refl) ms h0)
    as (_ & T1 & T2).
  pose proof (fold_running_max right hullRight (fun _ _ => eq_refl) ms h0)
    as (_ & R1 & R2).
  pose proof (fold_running_max bottom hullBottom (fun _ _ => eq_refl) ms h0)
    as (_ & B1 & B2).
  cbv zeta.
  assert (Hm0 : In m0 ms) by (left; reflexivity).
  repeat split; try assumption.
  - destruct L2 as [->|?]; [exists m0; auto|assumption].
  - destruct T2 as [->|?]; [exists m0; auto|assumption].
  - destruct R2 as [->|?]; [exists m0; auto|assumption].
  - destruct B2 as [->|?]; [exists m0; auto|assumption].
Qed.

Lemma hull_rectangle_perm (m0 m0' : Monitor) (rest rest' : list Monitor) :
  Permutation (m0 :: rest) (m0' :: rest') ->
  hull_rectangle (m0 :: rest) m0 = hull_rectangle (m0' :: rest') m0'.
Proof.
  intros P.
  pose proof (hull_extremes m0 rest) as E.
  pose proof (hull_extremes m0' rest') as E'.
  cbv zeta in E, E'. unfold hull_rectangle.
  set (h := fold_left hull_step (m0 :: rest) _) in *.
  set (h' := fold_left hull_step (m0' :: rest') _) in *.
  destruct E as (((l & Il & El) & Lall) & ((t & It & Et) & Tall)
                 & ((r & Ir & Er) & Rall) & ((b & Ib & Eb) & Ball)).
  destruct E' as (((l' & Il' & El') & Lall') & ((t' & It' & Et') & Tall')
                  & ((r' & Ir' & Er') & Rall') & ((b' & Ib' & Eb') & Ball')).
  assert (forall m, In m (m0 :: rest) -> In m (m0' :: rest'))
    as F by (intros m; apply Permutation_in; exact P).
  assert (forall m, In m (m0' :: rest') -> In m (m0 :: rest))
    as B by (intros m; apply Permutation_in; symmetry; exact P).
  assert (hullLeft h = hullLeft h').
  { pose proof (Lall l' (B _ Il')). pose proof (Lall' l (F _ Il)). lia. }
  assert (hullTop h = hullTop h').
  { pose proof (Tall t' (B _ It')). pose proof (Tall' t (F _ It)). lia. }
  assert (hullRight h = hullRight h').
  { pose proof (Rall r' (B _ Ir')). pose proof (Rall' r (F _ Ir)). lia. }
  assert (hullBottom h = hullBottom h').
  { pose proof (Ball b' (B _ Ib')). pose proof (Ball' b (F _ Ib)). lia. }
  congruence.
Qed.

(** X14.  [CaptureMonitors] does not depend on the order of the monitors:
    two lists that are permutations of each other give the same capture
    (the same hull rectangle, or the same error for the empty list). *)
Theorem CaptureMonitors_any_order :
  forall (os : OS) (ms ms' : list Monitor) (lg : log),
    Permutation ms ms' ->
    run (CaptureMonitors os ms) lg = run (CaptureMonitors os ms') lg.
Proof.
  intros os ms ms' lg P.
  destruct ms as [|m0 rest], ms' as [|m0' rest'].
  - reflexivity.
  - apply Permutation_nil in P. discriminate P.
  - symmetry in P. apply Permutation_nil in P. discriminate P.
  - unfold run, CaptureMonitors.
    rewrite (hull_rectangle_perm m0 m0' rest rest' P). reflexivity.
Qed.

Lemma CaptureMonitors_any_order_witness :
  run (CaptureMonitors os_ok
         [sample_monitor 0 0 1920 1200 true;
          sample_monitor (-1920) 100 1920 1080 false]) []
  = run (CaptureMonitors os_ok
           [sample_monitor (-1920) 100 1920 1080 false;
            sample_monitor 0 0 1920 1200 true]) [].
Proof.
  apply (CaptureMonitors_any_order os_ok
           [sample_monitor 0 0 1920 1200 true;
            sample_monitor (-1920) 100 1920 1080 false]
           [sample_monitor (-1920) 100 1920 1080 false;
            sample_monitor 0 0 1920 1200 true] []).
  apply perm_swap.
Defined.

(* ================================================================== *)
(** * Properties of the mouse, window, monitor and message functions *)

(** ** The mouse *)

(** X15.  The mouse functions that take a position move the cursor
    first and stop there when the move fails: [clickAt] and [mouseInputAt]
    then return [errSetCursor] and send no input, so nothing is clicked at
    the old position; when the move succeeds they go on exactly as [click]
    and [mouseInput] do after [MoveMouseTo]. *)
Theorem mouse_at_moves_first :
  forall (os : Desktop.OS) (x y down up flags : Z) (lg : Desktop.calls),
    let moved := Desktop.SetCursorPos x y :: lg in
    (Desktop.ret_SetCursorPos os lg = false ->
     Desktop.drun (Desktop.clickAt os x y down up) lg
     = (Some errSetCursor, moved)
     /\ Desktop.drun (Desktop.mouseInputAt os x y flags) lg
        = (Some errSetCursor, moved))
    /\ (Desktop.ret_SetCursorPos os lg = true ->
        Desktop.drun (Desktop.MoveMouseTo os x y) lg = (None, moved)
        /\ Desktop.drun (Desktop.clickAt os x y down up) lg
           = Desktop.drun (Desktop.click os down up) moved
        /\ Desktop.drun (Desktop.mouseInputAt os x y flags) lg
           = Desktop.drun (Desktop.mouseInput os flags) moved)
    /\ List.length
         (filter is_desktop_SendInput
            (snd (Desktop.drun (Desktop.clickAt os x y down up) lg)))
       = (List.length (filter is_desktop_SendInput lg)
          + if Desktop.ret_SetCursorPos os lg then 1 else 0)%nat.
Proof.
  intros os x y down up flags lg moved. subst moved.
  unfold Desktop.drun, Desktop.clickAt, Desktop.mouseInputAt,
    Desktop.MoveMouseTo, Desktop.click, Desktop.mouseInput,
    Desktop.dbind, Desktop.os_call, Desktop.dret.
  split; [|split].
  - intros ->. split; reflexivity.
  - intros ->. repeat split.
  - destruct (Desktop.ret_SetCursorPos os lg); cbn [negb].
    + destruct (Desktop.ret_SendInput os _ _ =? 0); cbn; lia.
    + cbn. lia.
Qed.

(** X16.  [MoveMouseBy] asks for the cursor position first.  When the
    query fails it returns an error without trying to move; otherwise it
    is [MoveMouseTo] of the position plus the offsets, and with both
    offsets 0 it sets the cursor where it already is. *)
Theorem MoveMouseBy_steps :
  forall (os : Desktop.OS) (dx dy : Z) (lg : Desktop.calls),
    let r := Desktop.drun (Desktop.MoveMouseBy os dx dy) lg in
    match Desktop.ret_GetCursorPos os lg with
    | (x, y, false) =>
        r = (Some (errorString "GetCursorPos failed"),
             [Desktop.GetCursorPos] ++ lg)
    | (x, y, true) =>
        r = Desktop.drun (Desktop.MoveMouseTo os (int (x + dx)) (int (y + dy)))
              (Desktop.GetCursorPos :: lg)
        /\ (is_int x -> is_int y -> dx = 0 -> dy = 0 ->
            snd r = Desktop.SetCursorPos x y :: Desktop.GetCursorPos :: lg)
    end.
Proof.
  intros os dx dy lg r. subst r.
  unfold Desktop.drun, Desktop.MoveMouseBy, Desktop.MoveMouseTo,
    Desktop.dbind, Desktop.os_call, Desktop.dret.
  destruct (Desktop.ret_GetCursorPos os lg) as [[x y] ok].
  destruct ok; cbn [negb]; [|reflexivity].
  split; [reflexivity|].
  intros Hx Hy -> ->. rewrite !Z.add_0_r, (int_id x Hx), (int_id y Hy).
  destruct (Desktop.ret_SetCursorPos os _); reflexivity.
Qed.

(** ** Windows *)

Lemma windowHandleToWindow_fields (os : Desktop.OS) (h : Z)
    (lg : Desktop.calls) :
  let w := fst (Desktop.drun (Desktop.windowHandleToWindow os h) lg) in
  Window.Handle w = h
  /\ Window.Maximized w && Window.Minimized w = false.
Proof.
  unfold Desktop.drun, Desktop.windowHandleToWindow, Desktop.dbind,
    Desktop.os_call, Desktop.dret.
  cbn [fst Window.Handle Window.Maximized Window.Minimized].
  split; [reflexivity|].
  destruct (_ =? Desktop.SW_MAXIMIZE) eqn:E; [|reflexivity].
  apply Z.eqb_eq in E. rewrite E. reflexivity.
Qed.

Lemma refreshed_handle (os : Desktop.OS) (w w' : Window.t) :
  refreshed os w w' -> Window.Handle w' = Window.Handle w.
Proof.
  intros [->|[l ->]]; [reflexivity|].
  apply windowHandleToWindow_fields.
Qed.

Ltac refresh_cases :=
  repeat match goal with
         | |- context [let (_, _) := ?q in _] =>
             lazymatch q with
             | Desktop.Update _ _ _ => fail
             | _ => destruct q
             end
         | |- context [if ?c then _ else _] => destruct c
         end.

Lemma methods_refresh (os : Desktop.OS) (w : Window.t)
    (cmd x y width height : Z) (lg : Desktop.calls) :
  refreshed os w (fst (Desktop.drun (Desktop.Update os w) lg))
  /\ refreshed os w (fst (Desktop.drun (Desktop.showWindow os cmd w) lg))
  /\ refreshed os w
       (fst (fst (Desktop.drun (Desktop.BringToForeground os w) lg)))
  /\ refreshed os w
       (fst (fst (Desktop.drun
                    (Desktop.SetOuterPosition os w x y width height) lg)))
  /\ refreshed os w
       (fst (fst (Desktop.drun
                    (Desktop.SetInnerPosition os w x y width height) lg))).
Proof.
  assert (U : forall l, refreshed os w (fst (Desktop.Update os w l)))
    by (intros l; right; exists l; reflexivity).
  unfold Desktop.drun.
  split; [apply U|]. split; [apply U|].
  unfold Desktop.BringToForeground, Desktop.SetOuterPosition,
    Desktop.SetInnerPosition, Desktop.dbind, Desktop.os_call, Desktop.dret.
  repeat split; refresh_cases; cbn [negb fst];
    try (left; reflexivity);
    match goal with
    | |- context [Desktop.Update os w ?l] =>
        specialize (U l); destruct (Desktop.Update os w l); exact U
    end.
Qed.

(** X17.  A [Window] built by the package has the handle it was asked
    for and is never both maximized and minimized; and every method that
    updates a [Window] ([Update], the five [ShowWindow] methods,
    [BringToForeground], [SetOuterPosition], [SetInnerPosition]) leaves its
    handle as it was, whether the call succeeds or fails. *)
Theorem window_methods_keep_the_handle :
  forall (os : Desktop.OS) (w : Window.t) (h cmd x y width height : Z)
         (lg : Desktop.calls),
    let fresh := fst (Desktop.drun (Desktop.windowHandleToWindow os h) lg) in
    (Window.Handle fresh = h
     /\ Window.Maximized fresh && Window.Minimized fresh = false)
    /\ Window.Handle (fst (Desktop.drun (Desktop.Update os w) lg))
       = Window.Handle w
    /\ Window.Handle (fst (Desktop.drun (Desktop.showWindow os cmd w) lg))
       = Window.Handle w
    /\ Window.Handle
         (fst (fst (Desktop.drun (Desktop.BringToForeground os w) lg)))
       = Window.Handle w
    /\ Window.Handle
         (fst (fst (Desktop.drun
                      (Desktop.SetOuterPosition os w x y width height) lg)))
       = Window.Handle w
    /\ Window.Handle
         (fst (fst (Desktop.drun
                      (Desktop.SetInnerPosition os w x y width height) lg)))
       = Window.Handle w.
Proof.
  intros os w h cmd x y width height lg fresh. subst fresh.
  split; [apply windowHandleToWindow_fields|].
  destruct (methods_refresh os w cmd x y width height lg)
    as (R1 & R2 & R3 & R4 & R5).
  repeat split; apply (refreshed_handle os); assumption.
Qed.

(** X18.  After a failure the [Window] is not refreshed: a failed
    [SetForegroundWindow] or [SetWindowPos] returns the error with the
    window value unchanged and without a single query for its state, and
    [ForegroundWindow] without an active window returns the zero [Window]
    and an error after that one call. *)
Theorem failed_calls_change_nothing :
  forall (os : Desktop.OS) (w : Window.t) (x y width height : Z)
         (lg : Desktop.calls),
    (Desktop.ret_SetForegroundWindow os lg = false ->
     Desktop.drun (Desktop.BringToForeground os w) lg
     = (w, Some (errorString "SetForegroundWindow failed"),
        [Desktop.SetForegroundWindow (Window.Handle w)] ++ lg))
    /\ (Desktop.ret_GetForegroundWindow os lg = 0 ->
        Desktop.drun (Desktop.ForegroundWindow os) lg
        = (Window.zero, Some (errorString "no window is active"),
           [Desktop.GetForegroundWindow] ++ lg))
    /\ ((forall l, Desktop.ret_SetWindowPos os l = false) ->
        exists pos,
          Desktop.drun (Desktop.SetOuterPosition os w x y width height) lg
          = (w, Some (errorString "SetWindowPos failed"),
             [pos; Desktop.DwmGetWindowAttributeEXTENDED_FRAME_BOUNDS
                     (Window.Handle w);
              Desktop.GetWindowRect (Window.Handle w)] ++ lg)).
Proof.
  intros os w x y width height lg.
  unfold Desktop.drun, Desktop.BringToForeground, Desktop.ForegroundWindow,
    Desktop.SetOuterPosition, Desktop.dbind, Desktop.os_call, Desktop.dret.
  split; [|split].
  - intros ->. reflexivity.
  - intros ->. reflexivity.
  - intros H. destruct (Desktop.ret_DwmFrameBounds os _) as [ok nb].
    rewrite H. eexists. reflexivity.
Qed.

(** X19.  When the frame-bounds query fails, [SetOuterPosition] takes
    the window rectangle for the frame, so all four corrections are 0 and
    [SetWindowPos] is called with exactly the position and size asked for,
    with the flags no-activate, no-owner-z-order and no-z-order. *)
Theorem SetOuterPosition_without_frame :
  forall (os : Desktop.OS) (w : Window.t) (x y width height : Z)
         (lg : Desktop.calls),
    is_int x -> is_int y -> is_int width -> is_int height ->
    fst (Desktop.ret_DwmFrameBounds os
           (Desktop.GetWindowRect (Window.Handle w) :: lg)) = false ->
    exists rest,
      snd (Desktop.drun (Desktop.SetOuterPosition os w x y width height) lg)
      = rest
        ++ [Desktop.SetWindowPos (Window.Handle w) 0 x y width height 0x214;
            Desktop.DwmGetWindowAttributeEXTENDED_FRAME_BOUNDS
              (Window.Handle w);
            Desktop.GetWindowRect (Window.Handle w)] ++ lg.
Proof.
  intros os w x y width height lg Hx Hy Hw Hh Hq.
  unfold Desktop.drun, Desktop.SetOuterPosition, Desktop.dbind,
    Desktop.os_call, Desktop.dret.
  destruct (Desktop.ret_DwmFrameBounds os _) as [ok nb]. cbn [fst] in Hq.
  subst ok. cbn [negb].
  rewrite !Z.sub_diag. change (int32 0) with 0.
  rewrite !Z.add_0_r, (int_id x Hx), (int_id y Hy), (int_id _ Hw),
    (int_id _ Hh).
  change Desktop.position_flags with 0x214.
  destruct (Desktop.ret_SetWindowPos os _); cbn [negb].
  - destruct (Desktop.Update os w _) as [w' l'] eqn:E. cbn [snd].
    unfold Desktop.Update, Desktop.windowHandleToWindow, Desktop.dbind,
      Desktop.os_call, Desktop.dret in E.
    injection E as _ <-.
    exists [Desktop.GetWindowText (Window.Handle w);
            Desktop.IsWindowVisible (Window.Handle w);
            Desktop.GetWindowPlacement (Window.Handle w);
            Desktop.ClientToScreen (Window.Handle w) 0 0;
            Desktop.GetClientRect (Window.Handle w);
            Desktop.GetWindowRect (Window.Handle w);
            Desktop.GetClassName (Window.Handle w)].
    reflexivity.
  - exists []. reflexivity.
Qed.

Lemma SetOuterPosition_without_frame_witness :
  exists rest,
    snd (Desktop.drun
           (Desktop.SetOuterPosition (sample_desktop false 0) Window.zero
              (-5) 7 640 480) [])
    = rest
      ++ [Desktop.SetWindowPos (Window.Handle Window.zero) 0 (-5) 7 640 480
            0x214;
          Desktop.DwmGetWindowAttributeEXTENDED_FRAME_BOUNDS
            (Window.Handle Window.zero);
          Desktop.GetWindowRect (Window.Handle Window.zero)] ++ [].
Proof.
  apply (SetOuterPosition_without_frame (sample_desktop false 0) Window.zero
           (-5) 7 640 480 []);
    try (unfold is_int; lia).
  reflexivity.
Defined.

(** ** Line breaks of a message box *)

Lemma Replace_drop_13 (s : list Z) :
  Replace s [13] [] = filter (fun b => negb (13 =? b)) s.
Proof.
  unfold Replace. induction s as [|b s IH]; [reflexivity|].
  cbn [Replace_from is_prefix List.length Nat.sub andb filter].
  destruct (13 =? b); cbn [andb negb app]; rewrite IH; reflexivity.
Qed.

Lemma Replace_10_crlf (s : list Z) :
  Forall (fun b => b <> 13) s -> crlf_only (Replace s [10] [13; 10]).
Proof.
  unfold Replace. induction s as [|b s IH]; intros H; [constructor|].
  inversion H as [|? ? Hb Hs]; subst.
  cbn [Replace_from is_prefix List.length Nat.sub andb].
  destruct (10 =? b) eqn:E; cbn [andb app].
  - constructor. apply IH, Hs.
  - apply Z.eqb_neq in E. constructor; auto.
Qed.

Lemma Replace_10_count (s : list Z) :
  count_occ Z.eq_dec (Replace s [10] [13; 10]) 10 = count_occ Z.eq_dec s 10
  /\ filter plain_byte (Replace s [10] [13; 10]) = filter plain_byte s.
Proof.
  unfold Replace. induction s as [|b s [IH1 IH2]]; [split; reflexivity|].
  cbn [Replace_from is_prefix List.length Nat.sub andb].
  destruct (10 =? b) eqn:E; cbn [andb app].
  - apply Z.eqb_eq in E. subst b. split.
    + cbn [count_occ]. destruct (Z.eq_dec 13 10); [discriminate|].
      destruct (Z.eq_dec 10 10); [|congruence]. rewrite IH1. reflexivity.
    + cbn [filter].
      change (plain_byte 13) with false. change (plain_byte 10) with false.
      exact IH2.
  - split.
    + cbn [count_occ]. apply Z.eqb_neq in E.
      destruct (Z.eq_dec b 10); [congruence|]. exact IH1.
    + cbn [filter]. rewrite IH2. reflexivity.
Qed.

Lemma drop_13_count (m : list Z) :
  count_occ Z.eq_dec (filter (fun b => negb (13 =? b)) m) 10
  = count_occ Z.eq_dec m 10.
Proof.
  induction m as [|b m IH]; [reflexivity|].
  cbn [filter count_occ].
  destruct (13 =? b) eqn:E; cbn [negb].
  - apply Z.eqb_eq in E. subst b.
    destruct (Z.eq_dec 13 10); [discriminate|]. exact IH.
  - cbn [count_occ]. destruct (Z.eq_dec b 10); rewrite IH; reflexivity.
Qed.

Lemma drop_13_plain (m : list Z) :
  filter plain_byte (filter (fun b => negb (13 =? b)) m)
  = filter plain_byte m.
Proof.
  induction m as [|b m IH]; [reflexivity|].
  cbn [filter]. unfold plain_byte at 2.
  destruct (13 =? b) eqn:E; cbn [negb].
  - rewrite andb_false_r. exact IH.
  - cbn [filter]. unfold plain_byte at 1. rewrite E. cbn [negb].
    rewrite !andb_true_r, IH. reflexivity.
Qed.

(** X20.  [ShowMessage] shows the message with Windows line breaks: in
    the text handed to [MessageBox] a carriage return and a line feed
    occur only as the pair "\r\n", there are as many line feeds as in the
    message given, and all other bytes are the same in the same order;
    stray carriage returns are dropped. *)
Theorem ShowMessage_line_breaks :
  forall (os : Desktop.OS) (caption message : string) (lg : Desktop.calls),
    let text := Desktop.windows_line_breaks (bytes_of_string message) in
    Desktop.drun (Desktop.ShowMessage caption message) lg
    = (tt, Desktop.MessageBox 0 text (bytes_of_string caption) 0x40040 :: lg)
    /\ crlf_only text
    /\ count_occ Z.eq_dec text 10
       = count_occ Z.eq_dec (bytes_of_string message) 10
    /\ filter plain_byte text
       = filter plain_byte (bytes_of_string message).
Proof.
  intros os caption message lg text. subst text.
  split; [reflexivity|].
  unfold Desktop.windows_line_breaks.
  set (m := bytes_of_string message).
  destruct (Replace_10_count (Replace m [13] [])) as [C F].
  split; [|split].
  - apply Replace_10_crlf. rewrite Replace_drop_13.
    apply Forall_forall. intros b Hb. apply filter_In in Hb.
    destruct Hb as [_ Hb]. intros ->. discriminate Hb.
  - rewrite C, Replace_drop_13. apply drop_13_count.
  - rewrite F, Replace_drop_13. apply drop_13_plain.
Qed.

Lemma monitorHandleToMonitor_run (os : Desktop.OS) (h : Z)
    (lg : Desktop.calls) :
  snd (Desktop.drun (Desktop.monitorHandleToMonitor os h) lg)
  = Desktop.GetMonitorInfo h :: lg
  /\ (snd (fst (Desktop.drun (Desktop.monitorHandleToMonitor os h) lg)) = None
      <-> fst (Desktop.ret_GetMonitorInfo os lg) = true).
Proof.
  unfold Desktop.drun, Desktop.monitorHandleToMonitor, Desktop.dbind,
    Desktop.os_call, Desktop.dret.
  destruct (Desktop.ret_GetMonitorInfo os lg) as [ok info].
  destruct ok; cbn; split; try reflexivity; split; congruence.
Qed.

Lemma monitorsOf_run (os : Desktop.OS) (hs : list Z) :
  forall lg : Desktop.calls,
    let r := Desktop.drun (Desktop.monitorsOf os hs) lg in
    match fst r with
    | (Some ms, err) =>
        err = None
        /\ List.length ms = List.length hs
        /\ snd r = rev (map Desktop.GetMonitorInfo hs) ++ lg
    | (None, err) =>
        err <> None
        /\ exists k, (k < List.length hs)%nat
                     /\ snd r = rev (map Desktop.GetMonitorInfo
                                         (firstn (S k) hs)) ++ lg
    end.
Proof.
  induction hs as [|h hs IH]; intros lg; cbv zeta.
  - cbn. auto.
  - cbn [Desktop.monitorsOf]. unfold Desktop.drun, Desktop.dbind in *.
    destruct (monitorHandleToMonitor_run os h lg) as [L _].
    unfold Desktop.drun in L.
    destruct (Desktop.monitorHandleToMonitor os h lg) as [[m e] l1].
    cbn [fst snd] in *. subst l1.
    destruct e as [e|].
    + cbn [fst snd Desktop.dret]. split; [discriminate|].
      exists 0%nat. split; [cbn; lia|reflexivity].
    + specialize (IH (Desktop.GetMonitorInfo h :: lg)). cbv zeta in IH.
      destruct (Desktop.monitorsOf os hs _) as [[oms e'] l2].
      cbn [fst snd] in *.
      destruct oms as [ms|]; cbn [fst snd Desktop.dret].
      * destruct IH as (E & Ln & Lg). split; [reflexivity|].
        split; [cbn; lia|].
        rewrite Lg. cbn [map rev]. rewrite <- app_assoc. reflexivity.
      * destruct IH as (E & k & Hk & Lg). split; [exact E|].
        exists (S k). split; [cbn; lia|].
        rewrite Lg. cbn [firstn map rev]. rewrite <- app_assoc. reflexivity.
Qed.

(** X21.  [Monitors] returns all monitors or none.  With a list it
    returns no error, one monitor for every handle the enumeration showed,
    queried in that order; with an error it returns no list, and it stops
    at the first [GetMonitorInfo] that fails (or before the first, when the
    enumeration itself fails). *)
Theorem Monitors_all_or_nothing :
  forall (os : Desktop.OS) (lg : Desktop.calls),
    let r := Desktop.drun (Desktop.Monitors os) lg in
    let shown := Desktop.ret_EnumDisplayMonitors os lg in
    match fst r with
    | (Some ms, err) =>
        err = None
        /\ snd shown = true
        /\ List.length ms = List.length (fst shown)
        /\ snd r = rev (map Desktop.GetMonitorInfo (fst shown))
                   ++ Desktop.EnumDisplayMonitors :: lg
    | (None, err) =>
        err <> None
        /\ (snd shown = false -> snd r = Desktop.EnumDisplayMonitors :: lg)
        /\ (snd shown = true ->
            exists k, (k < List.length (fst shown))%nat
                      /\ snd r = rev (map Desktop.GetMonitorInfo
                                          (firstn (S k) (fst shown)))
                                 ++ Desktop.EnumDisplayMonitors :: lg)
    end.
Proof.
  intros os lg r shown. subst r shown.
  unfold Desktop.drun, Desktop.Monitors, Desktop.dbind, Desktop.os_call.
  destruct (Desktop.ret_EnumDisplayMonitors os lg) as [hs ok].
  cbn [fst snd]. destruct ok; cbn [negb].
  - pose proof (monitorsOf_run os hs (Desktop.EnumDisplayMonitors :: lg))
      as R. cbv zeta in R. unfold Desktop.drun in R.
    destruct (Desktop.monitorsOf os hs _) as [[oms e] l]. cbn [fst snd] in *.
    destruct oms as [ms|].
    + destruct R as (E & Ln & Lg). auto.
    + destruct R as (E & k & Hk & Lg). split; [exact E|].
      split; [discriminate|]. intros _. eauto.
  - cbn. split; [discriminate|]. split; [reflexivity|discriminate].
Qed.



